(** * OAuth 2.1 client core of mcp-inspector: a shallow embedding

    The server-side OAuth modules (token manager, discovery, dynamic client
    registration, authorization-flow orchestration) keep their state in
    module-level [Map]s and talk to remote servers through [fetch].  Here
    every module-level variable is a field of one [World] record that is
    threaded explicitly, and a thrown [Error] is a value carrying the source's
    message.

    What the embedding takes from outside:
    - [Date.now()] is an argument [now], read once per operation;
    - every [fetch] is answered by an oracle, a [Network]; the headers and
      body of a request only reach the remote server and are left out;
    - URL parsing, JSON reading, scrypt, AES-GCM and SHA-256 are the members
      of a [Runtime] class; AES-GCM decryption is a total function, so a
      failed authentication tag is not modelled;
    - writing the pending states to [.oauth-states.json] and logging have no
      effect on what the functions return or store in memory, and are left
      out.  *)

From Stdlib Require Import ZArith String Ascii List Bool Lia.
From stdpp Require Import base option list strings gmap pretty.
Import ListNotations.
Local Open Scope string_scope.
Local Open Scope Z_scope.

(** ** JavaScript values *)

(** A string is truthy when it is not empty; [undefined] is falsy. *)
Definition truthy_string (s : string) : bool :=
  match s with EmptyString => false | String _ _ => true end.

Definition truthy_ostring (o : option string) : bool :=
  match o with Some s => truthy_string s | None => false end.

(** A number is truthy when it is not zero. *)
Definition truthy_onumber (o : option Z) : bool :=
  match o with Some n => negb (n =? 0) | None => false end.

(** [a || b] on optional strings. *)
Definition js_or (a b : option string) : option string :=
  if truthy_ostring a then a else b.

(** [s.split(c)] for a one-character separator: never the empty array. *)
Fixpoint js_split (c : ascii) (s : string) : list string :=
  match s with
  | EmptyString => [EmptyString]
  | String a r =>
      if Ascii.eqb a c then EmptyString :: js_split c r
      else match js_split c r with
           | h :: t => String a h :: t
           | [] => [String a EmptyString]
           end
  end.

(** [l.join(sep)]. *)
Fixpoint js_join (sep : string) (l : list string) : string :=
  match l with
  | [] => EmptyString
  | [x] => x
  | x :: r => x ++ sep ++ js_join sep r
  end.

(** [s.replace(/\/$/, '')]: drops one trailing slash. *)
Fixpoint strip_trailing_slash (s : string) : string :=
  match s with
  | EmptyString => EmptyString
  | String a EmptyString => if Ascii.eqb a "/" then EmptyString else s
  | String a r => String a (strip_trailing_slash r)
  end.

(** [s.replace(/^\//, '')]: drops one leading slash. *)
Definition strip_leading_slash (s : string) : string :=
  match s with
  | String a r => if Ascii.eqb a "/" then r else s
  | EmptyString => EmptyString
  end.

(** [key.startsWith(p)]. *)
Definition startsWith (key p : string) : bool := String.prefix p key.

(** ** Results of a call: a value or a thrown [Error] with its message *)

Inductive result (A : Type) : Type :=
| Ok (a : A)
| Throw (message : string).
Arguments Ok {A} a.
Arguments Throw {A} message.

(** ** HTTP as the code sees it *)

Record Response := mkResponse {
  status : Z;
  statusText : string;
  body : string
}.

(** [response.ok] of the Fetch API: the status is in the range 200-299. *)
Definition response_ok (r : Response) : bool :=
  (200 <=? status r) && (status r <=? 299).

Inductive FetchOutcome :=
| Rejected (message : string)      (* the promise rejects: network failure *)
| Responded (r : Response).

Inductive Request :=
| GET (url : string)
| POST (url : string).

(** What the remote servers answer during one operation.  The request
    headers and body only reach the remote server and are not modelled. *)
Definition Network := Request -> FetchOutcome.

(** ** Types of [types.ts] *)

Record OAuthConfig := mkOAuthConfig {
  enabled : bool;
  cfg_issuer : option string;
  cfg_clientId : option string;
  cfg_clientSecret : option string;
  cfg_scopes : option (list string);
  cfg_redirectUri : string
}.

(** Required string members of a fetched JSON document are plain strings
    where the empty string also stands for an absent member: the code only
    tests them for truthiness before use. *)
Record ProtectedResourceMetadata := mkPRM {
  resource : string;
  authorization_servers : list string;
  prm_scopes_supported : option (list string)
}.

Record AuthServerMetadata := mkASM {
  issuer : string;
  authorization_endpoint : string;
  token_endpoint : string;
  registration_endpoint : option string;
  scopes_supported : option (list string);
  code_challenge_methods_supported : option (list string);
  revocation_endpoint : option string
}.

Record DCRResponse := mkDCRResponse {
  client_id : string;
  client_secret : option string;
  client_secret_expires_at : option Z
}.

Record OAuthTokens := mkOAuthTokens {
  accessToken : string;
  refreshToken : option string;
  tokenType : string;
  expiresAt : Z;
  scope : option string
}.

Record OAuthState := mkOAuthState {
  st_state : string;
  codeVerifier : string;
  st_redirectUri : string;
  st_resourceUri : string;
  st_issuer : string;
  createdAt : Z;
  st_scopes : option (list string)
}.

Record RegisteredClient := mkRegisteredClient {
  clientId : string;
  clientSecret : option string;
  rc_issuer : string;
  rc_resourceUri : string;
  registeredAt : Z;
  clientSecretExpiresAt : option Z
}.

(** [EncryptedTokens] and [TokenResponse] of tokenManager.ts. *)
Record EncryptedTokens := mkEncryptedTokens {
  enc_accessToken : string;
  enc_refreshToken : option string;
  enc_tokenType : string;
  enc_expiresAt : Z;
  enc_scope : option string;
  enc_issuer : string
}.

Record TokenResponse := mkTokenResponse {
  access_token : string;
  token_type : string;
  expires_in : option Z;
  refresh_token : option string;
  tr_scope : option string
}.

(** The members the error paths read from a JSON error body. *)
Record ErrorJson := mkErrorJson {
  error_description : option string;
  error : option string
}.

(** A parsed [URL] object. *)
Record URL := mkURL {
  protocol : string;
  host : string;
  port : string;
  origin : string;
  pathname : string;
  searchParams : list (string * string)
}.

(** ** The platform: what Node provides and the code calls *)

Class Runtime := {
  Key : Type;
  (** [crypto.scryptSync(key, salt, 32)] *)
  scryptSync : string -> string -> Key;
  (** AES-256-GCM under a key: [seal] yields the [iv:authTag:ciphertext]
      text, [unseal] reads it back. *)
  seal : Key -> string -> string;
  unseal : Key -> string -> string;
  (** [new URL(s)]; throws on an invalid URL. *)
  new_URL : string -> result URL;
  url_toString : URL -> string;
  (** [response.json()] at each type the code casts it to, and
      [JSON.parse] of an error body. *)
  json_PRM : string -> result ProtectedResourceMetadata;
  json_ASM : string -> result AuthServerMetadata;
  json_DCR : string -> result DCRResponse;
  json_Token : string -> result TokenResponse;
  json_Error : string -> result ErrorJson;
  (** base64url(SHA-256(verifier)) *)
  s256 : string -> string
}.

(** ** Module-level state *)

Record CacheEntry (A : Type) := mkCacheEntry {
  data : A;
  cache_expiresAt : Z
}.
Arguments mkCacheEntry {A} data cache_expiresAt.
Arguments data {A} c.
Arguments cache_expiresAt {A} c.

Record World `{Runtime} := mkWorld {
  (* tokenManager.ts *)
  tokenStore : gmap string EncryptedTokens;
  tm_encryptionKey : option Key;
  (* dcr.ts: a JS Map is iterated in insertion order *)
  registeredClients : list (string * RegisteredClient);
  dcr_encryptionKey : option Key;
  (* discovery.ts *)
  protectedResourceMetadataCache : gmap string (CacheEntry ProtectedResourceMetadata);
  authServerMetadataCache : gmap string (CacheEntry AuthServerMetadata);
  (* authFlow.ts *)
  pendingStates : gmap string OAuthState;
  resourceMetadataCache : gmap string (ProtectedResourceMetadata * AuthServerMetadata)
}.

Section Setters.
Context `{Runtime}.

Definition set_tokenStore (f : gmap string EncryptedTokens -> gmap string EncryptedTokens)
    (w : World) : World :=
  mkWorld _ (f (tokenStore w)) (tm_encryptionKey w) (registeredClients w)
    (dcr_encryptionKey w) (protectedResourceMetadataCache w)
    (authServerMetadataCache w) (pendingStates w) (resourceMetadataCache w).

Definition set_tm_encryptionKey (k : option Key) (w : World) : World :=
  mkWorld _ (tokenStore w) k (registeredClients w)
    (dcr_encryptionKey w) (protectedResourceMetadataCache w)
    (authServerMetadataCache w) (pendingStates w) (resourceMetadataCache w).

Definition set_registeredClients
    (f : list (string * RegisteredClient) -> list (string * RegisteredClient))
    (w : World) : World :=
  mkWorld _ (tokenStore w) (tm_encryptionKey w) (f (registeredClients w))
    (dcr_encryptionKey w) (protectedResourceMetadataCache w)
    (authServerMetadataCache w) (pendingStates w) (resourceMetadataCache w).

Definition set_dcr_encryptionKey (k : option Key) (w : World) : World :=
  mkWorld _ (tokenStore w) (tm_encryptionKey w) (registeredClients w)
    k (protectedResourceMetadataCache w)
    (authServerMetadataCache w) (pendingStates w) (resourceMetadataCache w).

Definition set_protectedResourceMetadataCache
    (f : gmap string (CacheEntry ProtectedResourceMetadata) ->
         gmap string (CacheEntry ProtectedResourceMetadata))
    (w : World) : World :=
  mkWorld _ (tokenStore w) (tm_encryptionKey w) (registeredClients w)
    (dcr_encryptionKey w) (f (protectedResourceMetadataCache w))
    (authServerMetadataCache w) (pendingStates w) (resourceMetadataCache w).

Definition set_authServerMetadataCache
    (f : gmap string (CacheEntry AuthServerMetadata) ->
         gmap string (CacheEntry AuthServerMetadata))
    (w : World) : World :=
  mkWorld _ (tokenStore w) (tm_encryptionKey w) (registeredClients w)
    (dcr_encryptionKey w) (protectedResourceMetadataCache w)
    (f (authServerMetadataCache w)) (pendingStates w) (resourceMetadataCache w).

Definition set_pendingStates (f : gmap string OAuthState -> gmap string OAuthState)
    (w : World) : World :=
  mkWorld _ (tokenStore w) (tm_encryptionKey w) (registeredClients w)
    (dcr_encryptionKey w) (protectedResourceMetadataCache w)
    (authServerMetadataCache w) (f (pendingStates w)) (resourceMetadataCache w).

Definition set_resourceMetadataCache
    (f : gmap string (ProtectedResourceMetadata * AuthServerMetadata) ->
         gmap string (ProtectedResourceMetadata * AuthServerMetadata))
    (w : World) : World :=
  mkWorld _ (tokenStore w) (tm_encryptionKey w) (registeredClients w)
    (dcr_encryptionKey w) (protectedResourceMetadataCache w)
    (authServerMetadataCache w) (pendingStates w) (f (resourceMetadataCache w)).
End Setters.

(** ** Calls that read and write the module-level state and may throw *)

Definition M `{Runtime} (A : Type) : Type := World -> result A * World.

Definition ret `{Runtime} {A} (a : A) : M A := fun w => (Ok a, w).
Definition throw `{Runtime} {A} (message : string) : M A := fun w => (Throw message, w).
Definition bind `{Runtime} {A B} (m : M A) (k : A -> M B) : M B :=
  fun w => match m w with
           | (Ok a, w') => k a w'
           | (Throw e, w') => (Throw e, w')
           end.
Definition gets `{Runtime} {A} (f : World -> A) : M A := fun w => (Ok (f w), w).
Definition modify `{Runtime} (f : World -> World) : M unit := fun w => (Ok tt, f w).
(** [try { m } catch (error) { h error }] *)
Definition try_catch `{Runtime} {A} (m : M A) (h : string -> M A) : M A :=
  fun w => match m w with
           | (Ok a, w') => (Ok a, w')
           | (Throw e, w') => h e w'
           end.
(** A platform call that may throw. *)
Definition lift `{Runtime} {A} (r : result A) : M A := fun w => (r, w).

Notation "'let*' x ':=' m 'in' k" := (bind m (fun x => k))
  (at level 10, x name, m at level 100, k at level 200).
Notation "'run' m 'in' k" := (bind m (fun _ => k))
  (at level 10, m at level 100, k at level 200).

(** [`HTTP ${response.status}: ${response.statusText}`] *)
Definition http_status_line (r : Response) : string :=
  "HTTP " ++ pretty (status r) ++ ": " ++ statusText r.

(** ** tokenManager.ts *)

Module TokenManager.
Section Defs.
Context `{Runtime}.

Definition initializeTokenManager (key : option string) : M unit :=
  match key with
  | Some k =>
      if truthy_string k
      then modify (set_tm_encryptionKey (Some (scryptSync k "mcp-token-salt")))
      else modify (set_tm_encryptionKey None)
  | None => modify (set_tm_encryptionKey None)
  end.

Definition encrypt (w : World) (text : string) : string :=
  match tm_encryptionKey w with
  | None => text
  | Some k => seal k text
  end.

Definition decrypt (w : World) (encryptedText : string) : string :=
  match tm_encryptionKey w with
  | None => encryptedText
  | Some k =>
      if negb (Nat.eqb (length (js_split ":" encryptedText)) 3)
      then encryptedText
      else unseal k encryptedText
  end.

Definition storeTokens (resourceUri : string) (tokens : OAuthTokens)
    (issuer : string) : M unit :=
  fun w =>
    let encrypted :=
      {| enc_accessToken := encrypt w (accessToken tokens);
         enc_refreshToken :=
           match refreshToken tokens with
           | Some t => if truthy_string t then Some (encrypt w t) else None
           | None => None
           end;
         enc_tokenType := tokenType tokens;
         enc_expiresAt := expiresAt tokens;
         enc_scope := scope tokens;
         enc_issuer := issuer |} in
    (Ok tt, set_tokenStore (insert resourceUri encrypted) w).

Definition getTokens (w : World) (resourceUri : string) : option OAuthTokens :=
  match tokenStore w !! resourceUri with
  | None => None
  | Some encrypted =>
      Some {| accessToken := decrypt w (enc_accessToken encrypted);
              refreshToken :=
                match enc_refreshToken encrypted with
                | Some t => if truthy_string t then Some (decrypt w t) else None
                | None => None
                end;
              tokenType := enc_tokenType encrypted;
              expiresAt := enc_expiresAt encrypted;
              scope := enc_scope encrypted |}
  end.

Definition getTokenIssuer (w : World) (resourceUri : string) : option string :=
  match tokenStore w !! resourceUri with
  | Some encrypted =>
      if truthy_string (enc_issuer encrypted) then Some (enc_issuer encrypted) else None
  | None => None
  end.

Definition hasValidTokens (w : World) (now : Z) (resourceUri : string) : bool :=
  match getTokens w resourceUri with
  | None => false
  | Some tokens =>
      let bufferMs := 30 * 1000 in
      expiresAt tokens >? now + bufferMs
  end.

Definition needsRefresh (w : World) (now : Z) (resourceUri : string) : bool :=
  match getTokens w resourceUri with
  | None => false
  | Some tokens =>
      let refreshBufferMs := 5 * 60 * 1000 in
      expiresAt tokens <? now + refreshBufferMs
  end.

Definition canRefresh (w : World) (resourceUri : string) : bool :=
  match getTokens w resourceUri with
  | Some tokens => truthy_ostring (refreshToken tokens)
  | None => false
  end.

(** The message both token requests build from a non-success response. *)
Definition tokenErrorMessage (r : Response) : string :=
  match json_Error (body r) with
  | Ok errorJson =>
      if truthy_ostring (error_description errorJson)
      then default "" (error_description errorJson)
      else if truthy_ostring (error errorJson)
      then default "" (error errorJson) ++ ": " ++ ""
      else http_status_line r
  | Throw _ => if truthy_string (body r) then body r else http_status_line r
  end.

Definition tokensOfResponse (now : Z) (tokenResponse : TokenResponse)
    (refresh : option string) (sc : option string) : OAuthTokens :=
  {| accessToken := access_token tokenResponse;
     tokenType := if truthy_string (token_type tokenResponse)
                  then token_type tokenResponse else "Bearer";
     expiresAt := match expires_in tokenResponse with
                  | Some n => if negb (n =? 0) then now + n * 1000
                              else now + 3600 * 1000
                  | None => now + 3600 * 1000
                  end;
     refreshToken := refresh;
     scope := sc |}.

Definition exchangeCodeForTokens (net : Network) (now : Z)
    (metadata : AuthServerMetadata) (code redirectUri codeVerifier clientId : string)
    (clientSecret resourceUri : option string) : M OAuthTokens :=
  match net (POST (token_endpoint metadata)) with
  | Rejected e => throw e
  | Responded response =>
      if negb (response_ok response)
      then throw ("Token exchange failed: " ++ tokenErrorMessage response)
      else
        let* tokenResponse := lift (json_Token (body response)) in
        if negb (truthy_string (access_token tokenResponse))
        then throw "Token response missing access_token"
        else ret (tokensOfResponse now tokenResponse
                    (refresh_token tokenResponse) (tr_scope tokenResponse))
  end.

Definition removeTokens (resourceUri : string) : M bool :=
  fun w =>
    (Ok (bool_decide (is_Some (tokenStore w !! resourceUri))),
     set_tokenStore (delete resourceUri) w).

Definition refreshTokens (net : Network) (now : Z)
    (metadata : AuthServerMetadata) (resourceUri clientId : string)
    (clientSecret : option string) : M OAuthTokens :=
  let* currentTokens := gets (fun w => getTokens w resourceUri) in
  match currentTokens with
  | None => throw "No refresh token available"
  | Some currentTokens =>
      if negb (truthy_ostring (refreshToken currentTokens))
      then throw "No refresh token available"
      else
        match net (POST (token_endpoint metadata)) with
        | Rejected e => throw e
        | Responded response =>
            if negb (response_ok response)
            then
              let errorMessage := tokenErrorMessage response in
              run (if (status response =? 400) || (status response =? 401)
                   then run removeTokens resourceUri in ret tt
                   else ret tt) in
              throw ("Token refresh failed: " ++ errorMessage)
            else
              let* tokenResponse := lift (json_Token (body response)) in
              if negb (truthy_string (access_token tokenResponse))
              then throw "Token response missing access_token"
              else
                let tokens :=
                  tokensOfResponse now tokenResponse
                    (js_or (refresh_token tokenResponse) (refreshToken currentTokens))
                    (js_or (tr_scope tokenResponse) (scope currentTokens)) in
                let* issuer := gets (fun w => getTokenIssuer w resourceUri) in
                run (match issuer with
                     | Some issuer => storeTokens resourceUri tokens issuer
                     | None => ret tt
                     end) in
                ret tokens
        end
  end.


Definition clearAllTokens : M unit := modify (set_tokenStore (fun _ => ∅)).

(** The two revocation requests are best effort: a rejection is caught and a
    response is not read, so with or without a revocation endpoint the
    function ends by removing the local tokens. *)
Definition revokeTokens (net : Network) (metadata : AuthServerMetadata)
    (resourceUri clientId : string) (clientSecret : option string) : M unit :=
  let* tokens := gets (fun w => getTokens w resourceUri) in
  match tokens with
  | None => ret tt
  | Some tokens => run removeTokens resourceUri in ret tt
  end.

Definition getTokenStatus (w : World) (now : Z) (resourceUri : string)
    : bool * bool * option Z * option string :=
  match getTokens w resourceUri with
  | None => (false, false, None, None)
  | Some tokens =>
      (true, hasValidTokens w now resourceUri, Some (expiresAt tokens), scope tokens)
  end.
End Defs.
End TokenManager.

(** ** discovery.ts *)

Module Discovery.
Section Defs.
Context `{Runtime}.

Definition CACHE_TTL_MS : Z := 3600 * 1000.

(** [url.pathname.replace(/^\//, '').replace(/\/$/, '')] *)
Definition pathWithoutLeadingSlash (url : URL) : string :=
  strip_trailing_slash (strip_leading_slash (pathname url)).

Definition has_path (url : URL) : bool :=
  truthy_string (pathname url) && negb (String.eqb (pathname url) "/").

Definition getProtectedResourceMetadataUrls (serverUrl : string) : result (list string) :=
  match new_URL serverUrl with
  | Throw e => Throw e
  | Ok url =>
      Ok (app (if has_path url
               then [origin url ++ "/.well-known/oauth-protected-resource/"
                       ++ pathWithoutLeadingSlash url]
               else [])
              [origin url ++ "/.well-known/oauth-protected-resource"])
  end.

(** The body of the [try] block of one loop iteration, up to and including
    the validation of the required fields. *)
Definition fetchProtectedResourceMetadata (net : Network) (url : string)
    : result ProtectedResourceMetadata :=
  match net (GET url) with
  | Rejected e => Throw e
  | Responded response =>
      if negb (response_ok response) then Throw (http_status_line response)
      else
        match json_PRM (body response) with
        | Throw e => Throw e
        | Ok metadata =>
            if negb (truthy_string (resource metadata))
               || Nat.eqb (length (authorization_servers metadata)) 0
            then Throw "Invalid Protected Resource Metadata: missing required fields"
            else Ok metadata
        end
  end.

Fixpoint tryProtectedResourceUrls (net : Network) (now : Z) (cacheKey : string)
    (urlsToTry : list string) (lastError : option string)
    : M ProtectedResourceMetadata :=
  match urlsToTry with
  | [] =>
      throw ("Failed to discover Protected Resource Metadata: "
             ++ (if truthy_ostring lastError then default "" lastError
                 else "Unknown error"))
  | url :: rest =>
      match fetchProtectedResourceMetadata net url with
      | Ok metadata =>
          run modify (set_protectedResourceMetadataCache
                        (insert cacheKey (mkCacheEntry metadata (now + CACHE_TTL_MS)))) in
          ret metadata
      | Throw e => tryProtectedResourceUrls net now cacheKey rest (Some e)
      end
  end.

Definition discoverProtectedResourceMetadata (net : Network) (now : Z)
    (serverUrl : string) (resourceMetadataUrl : option string)
    : M ProtectedResourceMetadata :=
  fun w =>
    let cacheKey := if truthy_ostring resourceMetadataUrl
                    then default "" resourceMetadataUrl else serverUrl in
    let fresh :=
      match protectedResourceMetadataCache w !! cacheKey with
      | Some cached => if cache_expiresAt cached >? now then Some (data cached) else None
      | None => None
      end in
    match fresh with
    | Some d => (Ok d, w)
    | None =>
        match (if truthy_ostring resourceMetadataUrl
               then Ok [default "" resourceMetadataUrl]
               else getProtectedResourceMetadataUrls serverUrl) with
        | Throw e => (Throw e, w)
        | Ok urlsToTry => tryProtectedResourceUrls net now cacheKey urlsToTry None w
        end
    end.

Definition getAuthServerMetadataUrls (issuer : string) : result (list string) :=
  match new_URL issuer with
  | Throw e => Throw e
  | Ok url =>
      if has_path url
      then Ok [origin url ++ "/.well-known/oauth-authorization-server/"
                 ++ pathWithoutLeadingSlash url;
               origin url ++ "/.well-known/openid-configuration/"
                 ++ pathWithoutLeadingSlash url;
               origin url ++ "/" ++ pathWithoutLeadingSlash url
                 ++ "/.well-known/openid-configuration"]
      else Ok [origin url ++ "/.well-known/oauth-authorization-server";
               origin url ++ "/.well-known/openid-configuration"]
  end.

(** The body of the [try] block of one loop iteration, up to and including
    the validation of the required fields. *)
Definition fetchAuthServerMetadata (net : Network) (url : string)
    : result AuthServerMetadata :=
  match net (GET url) with
  | Rejected e => Throw e
  | Responded response =>
      if negb (response_ok response) then Throw (http_status_line response)
      else
        match json_ASM (body response) with
        | Throw e => Throw e
        | Ok metadata =>
            if negb (truthy_string (issuer metadata))
               || negb (truthy_string (authorization_endpoint metadata))
               || negb (truthy_string (token_endpoint metadata))
            then Throw "Invalid AS Metadata: missing required fields"
            else Ok metadata
        end
  end.

(** [normalizedIssuer !== normalizedMetadataIssuer] *)
Definition issuerMismatch (requested : string) (metadata : AuthServerMetadata) : bool :=
  let normalizedIssuer := strip_trailing_slash requested in
  let normalizedMetadataIssuer := strip_trailing_slash (issuer metadata) in
  negb (String.eqb normalizedIssuer normalizedMetadataIssuer).

Definition cacheAuthServerMetadata (now : Z) (issuer : string)
    (metadata : AuthServerMetadata) : M unit :=
  modify (set_authServerMetadataCache
            (insert issuer (mkCacheEntry metadata (now + CACHE_TTL_MS)))).

Fixpoint tryAuthServerUrls (net : Network) (now : Z) (issuer : string)
    (urlsToTry : list string) (lastError : option string)
    (metadataWithMismatchedIssuer : option AuthServerMetadata)
    : M AuthServerMetadata :=
  match urlsToTry with
  | [] =>
      match metadataWithMismatchedIssuer with
      | Some metadata =>
          run cacheAuthServerMetadata now issuer metadata in
          ret metadata
      | None =>
          throw ("Failed to discover Authorization Server Metadata for " ++ issuer
                 ++ ": " ++ (if truthy_ostring lastError then default "" lastError
                             else "Unknown error"))
      end
  | url :: rest =>
      match fetchAuthServerMetadata net url with
      | Ok metadata =>
          if issuerMismatch issuer metadata
          then tryAuthServerUrls net now issuer rest lastError
                 (match metadataWithMismatchedIssuer with
                  | None => Some metadata
                  | Some m => Some m
                  end)
          else
            run cacheAuthServerMetadata now issuer metadata in
            ret metadata
      | Throw e =>
          tryAuthServerUrls net now issuer rest (Some e) metadataWithMismatchedIssuer
      end
  end.

Definition freshAuthServerMetadata (w : World) (now : Z) (issuer : string)
    : option AuthServerMetadata :=
  match authServerMetadataCache w !! issuer with
  | Some cached => if cache_expiresAt cached >? now then Some (data cached) else None
  | None => None
  end.

Definition discoverAuthServerMetadata (net : Network) (now : Z) (issuer : string)
    : M AuthServerMetadata :=
  fun w =>
    match freshAuthServerMetadata w now issuer with
    | Some d => (Ok d, w)
    | None =>
        match getAuthServerMetadataUrls issuer with
        | Throw e => (Throw e, w)
        | Ok urlsToTry => tryAuthServerUrls net now issuer urlsToTry None None w
        end
    end.

Definition includes (l : list string) (x : string) : bool :=
  existsb (String.eqb x) l.

Definition verifyPkceSupport (metadata : AuthServerMetadata) : bool :=
  match code_challenge_methods_supported metadata with
  | None => false
  | Some supportedMethods =>
      if Nat.eqb (length supportedMethods) 0 then false
      else if includes supportedMethods "S256" then true
      else if includes supportedMethods "plain" then true
      else false
  end.

Definition supportsDcr (metadata : AuthServerMetadata) : bool :=
  truthy_ostring (registration_endpoint metadata).

Definition clearMetadataCache : M unit :=
  run modify (set_protectedResourceMetadataCache (fun _ => ∅)) in
  modify (set_authServerMetadataCache (fun _ => ∅)).

Definition getCanonicalResourceUri (serverUrl : string) : result string :=
  match new_URL serverUrl with
  | Throw e => Throw e
  | Ok url => Ok (strip_trailing_slash (protocol url ++ "//" ++ host url ++ pathname url))
  end.
End Defs.
End Discovery.

(** ** dcr.ts *)

(** The operations of a JS [Map] on its entries in insertion order. *)
Module JsMap.
Section Defs.
Context {V : Type}.

Fixpoint get (key : string) (m : list (string * V)) : option V :=
  match m with
  | [] => None
  | (k, v) :: r => if String.eqb k key then Some v else get key r
  end.

(** [set] keeps the position of a key that is present and appends a new one. *)
Fixpoint set (key : string) (v : V) (m : list (string * V)) : list (string * V) :=
  match m with
  | [] => [(key, v)]
  | (k, v') :: r =>
      if String.eqb k key then (k, v) :: r else (k, v') :: set key v r
  end.

Fixpoint delete (key : string) (m : list (string * V)) : list (string * V) :=
  match m with
  | [] => []
  | (k, v) :: r =>
      if String.eqb k key then delete key r else (k, v) :: delete key r
  end.

Definition has (key : string) (m : list (string * V)) : bool :=
  match get key m with Some _ => true | None => false end.
End Defs.
End JsMap.

Module Dcr.
Section Defs.
Context `{Runtime}.

Definition initializeDcr (key : option string) : M unit :=
  match key with
  | Some k =>
      if truthy_string k
      then modify (set_dcr_encryptionKey (Some (scryptSync k "mcp-client-salt")))
      else modify (set_dcr_encryptionKey None)
  | None => modify (set_dcr_encryptionKey None)
  end.

Definition encrypt (w : World) (text : string) : string :=
  match dcr_encryptionKey w with
  | None => text
  | Some k => seal k text
  end.

Definition decrypt (w : World) (encryptedText : string) : string :=
  match dcr_encryptionKey w with
  | None => encryptedText
  | Some k =>
      if negb (Nat.eqb (length (js_split ":" encryptedText)) 3)
      then encryptedText
      else unseal k encryptedText
  end.

Definition getClientCacheKey (issuer resourceUri : string)
    (redirectUri : option string) : string :=
  if truthy_ostring redirectUri
  then issuer ++ "|" ++ resourceUri ++ "|" ++ default "" redirectUri
  else issuer ++ "|" ++ resourceUri.

(** [client.clientSecretExpiresAt && client.clientSecretExpiresAt < Date.now() / 1000]:
    the expiry is in seconds and the clock in milliseconds. *)
Definition secretExpired (client : RegisteredClient) (now : Z) : bool :=
  match clientSecretExpiresAt client with
  | Some e => negb (e =? 0) && (e * 1000 <? now)
  | None => false
  end.

(** [{ ...client, clientSecret: client.clientSecret ? decrypt(client.clientSecret) : undefined }] *)
Definition withDecryptedSecret (w : World) (client : RegisteredClient)
    : RegisteredClient :=
  {| clientId := clientId client;
     clientSecret :=
       match clientSecret client with
       | Some c => if truthy_string c then Some (decrypt w c) else None
       | None => None
       end;
     rc_issuer := rc_issuer client;
     rc_resourceUri := rc_resourceUri client;
     registeredAt := registeredAt client;
     clientSecretExpiresAt := clientSecretExpiresAt client |}.

(** The fallback loop over [registeredClients.entries()].  Only the entry
    under the cursor is ever deleted, so the remaining entries are the ones
    that were there when the loop started. *)
Fixpoint fallbackScan (now : Z) (keyPrefix : string)
    (entries : list (string * RegisteredClient)) : M (option RegisteredClient) :=
  match entries with
  | [] => ret None
  | (key, client) :: rest =>
      if startsWith key keyPrefix
      then
        if secretExpired client now
        then
          run modify (set_registeredClients (JsMap.delete key)) in
          fallbackScan now keyPrefix rest
        else
          fun w => (Ok (Some (withDecryptedSecret w client)), w)
      else fallbackScan now keyPrefix rest
  end.

Definition getRegisteredClient (now : Z) (issuer resourceUri : string)
    (redirectUri : option string) : M (option RegisteredClient) :=
  fun w =>
    let fallback :=
      fun w' => fallbackScan now (issuer ++ "|" ++ resourceUri)
                  (registeredClients w') w' in
    if truthy_ostring redirectUri
    then
      let keyWithRedirect := getClientCacheKey issuer resourceUri redirectUri in
      match JsMap.get keyWithRedirect (registeredClients w) with
      | Some clientWithRedirect =>
          if secretExpired clientWithRedirect now
          then fallback (set_registeredClients (JsMap.delete keyWithRedirect) w)
          else (Ok (Some (withDecryptedSecret w clientWithRedirect)), w)
      | None => fallback w
      end
    else fallback w.

Definition storeRegisteredClient (now : Z) (issuer resourceUri redirectUri : string)
    (response : DCRResponse) : M RegisteredClient :=
  fun w =>
    let encryptedSecret :=
      match client_secret response with
      | Some c => if truthy_string c then Some (encrypt w c) else None
      | None => None
      end in
    let client :=
      {| clientId := client_id response;
         clientSecret := encryptedSecret;
         rc_issuer := issuer;
         rc_resourceUri := resourceUri;
         registeredAt := now;
         clientSecretExpiresAt := client_secret_expires_at response |} in
    let key := getClientCacheKey issuer resourceUri (Some redirectUri) in
    (Ok {| clientId := clientId client;
           clientSecret := client_secret response;
           rc_issuer := issuer;
           rc_resourceUri := resourceUri;
           registeredAt := now;
           clientSecretExpiresAt := client_secret_expires_at response |},
     set_registeredClients (JsMap.set key client) w).

(** The message built from a non-success registration response. *)
Definition dcrErrorMessage (r : Response) : string :=
  match json_Error (body r) with
  | Ok errorJson =>
      if truthy_ostring (error_description errorJson)
      then default "" (error_description errorJson)
      else if truthy_ostring (error errorJson)
      then default "" (error errorJson)
      else http_status_line r
  | Throw _ => if truthy_string (body r) then body r else http_status_line r
  end.

(** The statements of [registerClient] after the status check: read the
    response, validate it, store the client. *)
Definition parseAndStoreRegistration (now : Z) (metadata : AuthServerMetadata)
    (resourceUri redirectUri : string) (response : Response) : M RegisteredClient :=
  let* dcrResponse := lift (json_DCR (body response)) in
  if negb (truthy_string (client_id dcrResponse))
  then throw "DCR response missing client_id"
  else storeRegisteredClient now (issuer metadata) resourceUri redirectUri dcrResponse.

(** The [catch] clause rethrows every [Error] unchanged, so the function
    throws what its [try] block throws. *)
Definition registerClient (net : Network) (now : Z) (metadata : AuthServerMetadata)
    (resourceUri redirectUri clientName : string) (scopes : option (list string))
    : M RegisteredClient :=
  if negb (truthy_ostring (registration_endpoint metadata))
  then throw "Authorization server does not support Dynamic Client Registration"
  else
    let* existing :=
      getRegisteredClient now (issuer metadata) resourceUri (Some redirectUri) in
    match existing with
    | Some existing => ret existing
    | None =>
        match net (POST (default "" (registration_endpoint metadata))) with
        | Rejected e => throw e
        | Responded response =>
            if negb (response_ok response) && negb (status response =? 201)
            then throw ("DCR failed: " ++ dcrErrorMessage response)
            else parseAndStoreRegistration now metadata resourceUri redirectUri
                   response
        end
    end.

Definition removeRegisteredClient (issuer resourceUri : string) : M bool :=
  fun w =>
    let key := getClientCacheKey issuer resourceUri None in
    (Ok (JsMap.has key (registeredClients w)),
     set_registeredClients (JsMap.delete key) w).

Definition clearRegisteredClients : M unit :=
  modify (set_registeredClients (fun _ => [])).
End Defs.
End Dcr.

(** ** pkce.ts *)

Module Pkce.
Inductive Method := S256 | plain.

Definition method_name (m : Method) : string :=
  match m with S256 => "S256" | plain => "plain" end.

Definition selectPkceMethod (supportedMethods : option (list string)) : option Method :=
  match supportedMethods with
  | None => Some S256
  | Some l =>
      if Nat.eqb (length l) 0 then Some S256
      else if Discovery.includes l "S256" then Some S256
      else if Discovery.includes l "plain" then Some plain
      else None
  end.

Definition generateCodeChallenge `{Runtime} (verifier : string) (method : Method)
    : string :=
  match method with
  | S256 => s256 verifier
  | plain => verifier
  end.

(** [generatePkcePair], given the verifier that [generateCodeVerifier] drew. *)
Definition generatePkcePair `{Runtime} (verifier : string) (method : Method)
    : string * string * Method :=
  (verifier, generateCodeChallenge verifier method, method).

Definition CODE_VERIFIER_CHARSET : string :=
  "ABCDEFGHIJKLMNOPQRSTUVWXYZabcdefghijklmnopqrstuvwxyz0123456789-._~".

(** [CODE_VERIFIER_CHARSET[i]]: past the end it is [undefined], which [+=]
    appends as the text "undefined". *)
Definition charsetAt (i : nat) : string :=
  match String.get i CODE_VERIFIER_CHARSET with
  | Some c => String c EmptyString
  | None => "undefined"
  end.

(** The loop of [generateCodeVerifier] over the bytes it reads. *)
Fixpoint verifierOfBytes (bytes : list N) : string :=
  match bytes with
  | [] => EmptyString
  | b :: rest =>
      charsetAt (N.to_nat (b mod N.of_nat (String.length CODE_VERIFIER_CHARSET)))
      ++ verifierOfBytes rest
  end.

(** [generateCodeVerifier(length)], given the bytes that
    [crypto.randomBytes(length)] returns. *)
Definition generateCodeVerifier (length : Z) (randomBytes : list N) : result string :=
  if (length <? 43) || (length >? 128)
  then Throw "Code verifier length must be between 43 and 128 characters"
  else Ok (verifierOfBytes (take (Z.to_nat length) randomBytes)).

Definition verifyCodeChallenge `{Runtime} (verifier challenge : string)
    (method : Method) : bool :=
  let computedChallenge := generateCodeChallenge verifier method in
  String.eqb computedChallenge challenge.
End Pkce.

(** ** URLSearchParams *)

Module SearchParams.
Fixpoint get (name : string) (l : list (string * string)) : option string :=
  match l with
  | [] => None
  | (k, v) :: r => if String.eqb k name then Some v else get name r
  end.

(** [set] overwrites the first pair of that name and drops the others, or
    appends a new pair. *)
Fixpoint set (name value : string) (l : list (string * string))
    : list (string * string) :=
  match l with
  | [] => [(name, value)]
  | (k, v) :: r =>
      if String.eqb k name
      then (k, value) :: List.filter (fun kv => negb (String.eqb (fst kv) name)) r
      else (k, v) :: set name value r
  end.
End SearchParams.

Definition set_searchParam (name value : string) (url : URL) : URL :=
  {| protocol := protocol url; host := host url; port := port url;
     origin := origin url; pathname := pathname url;
     searchParams := SearchParams.set name value (searchParams url) |}.

(** ** authFlow.ts *)

Module AuthFlow.
Section Defs.
Context `{Runtime}.

Definition STATE_TTL_MS : Z := 10 * 60 * 1000.

Definition cleanupExpiredStates (now : Z) : M unit :=
  modify (set_pendingStates
            (filter (fun kv : string * OAuthState =>
                       ¬ (STATE_TTL_MS < now - createdAt (snd kv))))).

Definition getMetadata (net : Network) (now : Z) (serverUrl : string)
    (resourceMetadataUrl : option string)
    : M (ProtectedResourceMetadata * AuthServerMetadata) :=
  let* resourceUri := lift (Discovery.getCanonicalResourceUri serverUrl) in
  let* cached := gets (fun w => resourceMetadataCache w !! resourceUri) in
  match cached with
  | Some cached => ret cached
  | None =>
      let* protectedResource :=
        Discovery.discoverProtectedResourceMetadata net now serverUrl
          resourceMetadataUrl in
      match authorization_servers protectedResource with
      | [] => throw "No authorization server found in Protected Resource Metadata"
      | issuer :: _ =>
          if negb (truthy_string issuer)
          then throw "No authorization server found in Protected Resource Metadata"
          else
            let* authServer := Discovery.discoverAuthServerMetadata net now issuer in
            let metadata := (protectedResource, authServer) in
            run modify (set_resourceMetadataCache (insert resourceUri metadata)) in
            ret metadata
      end
  end.

Definition getOrRegisterClient (net : Network) (now : Z)
    (authServer : AuthServerMetadata) (resourceUri : string) (config : OAuthConfig)
    : M (string * option string) :=
  if truthy_ostring (cfg_clientId config)
  then ret (default "" (cfg_clientId config), cfg_clientSecret config)
  else
    let* existing :=
      Dcr.getRegisteredClient now (issuer authServer) resourceUri
        (Some (cfg_redirectUri config)) in
    match existing with
    | Some existing => ret (clientId existing, clientSecret existing)
    | None =>
        if negb (Discovery.supportsDcr authServer)
        then throw ("Authorization server does not support Dynamic Client "
                    ++ "Registration and no client credentials were provided")
        else
          let* registered :=
            Dcr.registerClient net now authServer resourceUri
              (cfg_redirectUri config) "MCP Client" (cfg_scopes config) in
          ret (clientId registered, clientSecret registered)
    end.

(** The [URL] object that [buildAuthorizationUrl] serialises. *)
Definition authorizationUrlObject (url : URL) (authServer : AuthServerMetadata)
    (clientId redirectUri state codeChallenge : string)
    (codeChallengeMethod : Pkce.Method) (resourceUri : string)
    (scopes : option (list string)) : URL :=
  let url := set_searchParam "response_type" "code" url in
  let url := set_searchParam "client_id" clientId url in
  let url := set_searchParam "redirect_uri" redirectUri url in
  let url := set_searchParam "state" state url in
  let url := set_searchParam "code_challenge" codeChallenge url in
  let url := set_searchParam "code_challenge_method"
               (Pkce.method_name codeChallengeMethod) url in
  let url := set_searchParam "resource" resourceUri url in
  match scopes with
  | Some (s :: rest) => set_searchParam "scope" (js_join " " (s :: rest)) url
  | _ =>
      match scopes_supported authServer with
      | Some (s :: rest) => set_searchParam "scope" (js_join " " (s :: rest)) url
      | _ => url
      end
  end.

Definition buildAuthorizationUrl (authServer : AuthServerMetadata)
    (clientId redirectUri state codeChallenge : string)
    (codeChallengeMethod : Pkce.Method) (resourceUri : string)
    (scopes : option (list string)) : result string :=
  match new_URL (authorization_endpoint authServer) with
  | Throw e => Throw e
  | Ok url =>
      Ok (url_toString
            (authorizationUrlObject url authServer clientId redirectUri state
               codeChallenge codeChallengeMethod resourceUri scopes))
  end.

(** The scopes [initiateAuthFlow] decides to request. *)
Definition requestedScopes (config : OAuthConfig) (challengedScopes : option string)
    (protectedResource : ProtectedResourceMetadata) : option (list string) :=
  let scopes := cfg_scopes config in
  if truthy_ostring challengedScopes
  then Some (js_split " " (default "" challengedScopes))
  else match scopes, prm_scopes_supported protectedResource with
       | None, Some supported => Some supported
       | _, _ => scopes
       end.

(** [verifier] and [state] are the random strings that
    [generateCodeVerifier] and [generateState] draw. *)
Definition initiateAuthFlow (net : Network) (now : Z) (verifier state : string)
    (serverUrl : string) (config : OAuthConfig)
    (resourceMetadataUrl challengedScopes : option string)
    : M (string * string) :=
  run cleanupExpiredStates now in
  let* resourceUri := lift (Discovery.getCanonicalResourceUri serverUrl) in
  let* metadata := getMetadata net now serverUrl resourceMetadataUrl in
  let protectedResource := fst metadata in
  let authServer := snd metadata in
  let* client := getOrRegisterClient net now authServer resourceUri config in
  let scopes := requestedScopes config challengedScopes protectedResource in
  let pkceMethod :=
    default Pkce.S256
      (Pkce.selectPkceMethod (code_challenge_methods_supported authServer)) in
  let '(verifier, challenge, method) := Pkce.generatePkcePair verifier pkceMethod in
  let oauthState :=
    {| st_state := state;
       codeVerifier := verifier;
       st_redirectUri := cfg_redirectUri config;
       st_resourceUri := resourceUri;
       st_issuer := issuer authServer;
       createdAt := now;
       st_scopes := scopes |} in
  run modify (set_pendingStates (insert state oauthState)) in
  let* authorizationUrl :=
    lift (buildAuthorizationUrl authServer (fst client) (cfg_redirectUri config)
            state challenge method resourceUri scopes) in
  ret (authorizationUrl, state).

(** The messages of the two errors [handleAuthCallback] throws itself. *)
Definition InvalidOrExpiredState : string :=
  "Invalid or expired OAuth state. Please try authorizing again.".
Definition StateExpired : string :=
  "OAuth state has expired. Please try authorizing again.".

(** The statements of [handleAuthCallback] after the expiry check. *)
Definition exchangeAndStore (net : Network) (now : Z) (code : string)
    (oauthState : OAuthState) (config : OAuthConfig) : M OAuthTokens :=
  let* authServer :=
    Discovery.discoverAuthServerMetadata net now (st_issuer oauthState) in
  let* client :=
    getOrRegisterClient net now authServer (st_resourceUri oauthState) config in
  let* tokens :=
    TokenManager.exchangeCodeForTokens net now authServer code
      (st_redirectUri oauthState) (codeVerifier oauthState) (fst client)
      (snd client) (Some (st_resourceUri oauthState)) in
  run TokenManager.storeTokens (st_resourceUri oauthState) tokens
        (st_issuer oauthState) in
  ret tokens.

Definition handleAuthCallback (net : Network) (now : Z) (code state : string)
    (config : OAuthConfig) : M OAuthTokens :=
  let* oauthState := gets (fun w => pendingStates w !! state) in
  match oauthState with
  | None => throw InvalidOrExpiredState
  | Some oauthState =>
      run modify (set_pendingStates (delete state)) in
      if now - createdAt oauthState >? STATE_TTL_MS
      then throw StateExpired
      else exchangeAndStore net now code oauthState config
  end.

Definition getPendingState (w : World) (state : string) : option OAuthState :=
  pendingStates w !! state.


Definition revokeAuthorization (net : Network) (now : Z) (serverUrl : string)
    (config : OAuthConfig) : M unit :=
  let* resourceUri := lift (Discovery.getCanonicalResourceUri serverUrl) in
  try_catch
    (let* metadata := getMetadata net now serverUrl None in
     let authServer := snd metadata in
     let* client := getOrRegisterClient net now authServer resourceUri config in
     TokenManager.revokeTokens net authServer resourceUri (fst client) (snd client))
    (fun _ => run TokenManager.removeTokens resourceUri in ret tt).

Definition clearMetadataCache : M unit :=
  modify (set_resourceMetadataCache (fun _ => ∅)).

Definition hasPendingAuthorization (w : World) (serverUrl : string) : result bool :=
  match Discovery.getCanonicalResourceUri serverUrl with
  | Throw e => Throw e
  | Ok resourceUri =>
      Ok (bool_decide
            (map_Exists (fun _ state => st_resourceUri state = resourceUri)
               (pendingStates w)))
  end.
End Defs.
End AuthFlow.

(** ** A runtime and data for worked examples

    No encryption key is configured, URL parsing is tabulated for the URLs the
    examples use, and response bodies are named by a label that the JSON
    readers look up. *)

Module Examples.
Definition example_new_URL (s : string) : result URL :=
  if String.eqb s "https://mcp.example.com/api"
  then Ok (mkURL "https:" "mcp.example.com" "" "https://mcp.example.com" "/api" [])
  else if String.eqb s "https://auth.example.com"
  then Ok (mkURL "https:" "auth.example.com" "" "https://auth.example.com" "/" [])
  else if String.eqb s "https://auth.example.com/authorize"
  then Ok (mkURL "https:" "auth.example.com" "" "https://auth.example.com"
             "/authorize" [])
  else Throw "Invalid URL".

(** Serialisation without percent-encoding. *)
Definition example_url_toString (u : URL) : string :=
  origin u ++ pathname u ++
  match searchParams u with
  | [] => ""
  | l => "?" ++ js_join "&" (map (fun kv => fst kv ++ "=" ++ snd kv) l)
  end.

Definition tenantA_metadata : AuthServerMetadata :=
  {| issuer := "https://auth.example.com/tenantA";
     authorization_endpoint := "https://auth.example.com/authorize";
     token_endpoint := "https://auth.example.com/token";
     registration_endpoint := Some "https://auth.example.com/register";
     scopes_supported := None;
     code_challenge_methods_supported := Some ["S256"];
     revocation_endpoint := None |}.

Definition auth_metadata : AuthServerMetadata :=
  {| issuer := "https://auth.example.com";
     authorization_endpoint := "https://auth.example.com/authorize";
     token_endpoint := "https://auth.example.com/token";
     registration_endpoint := Some "https://auth.example.com/register";
     scopes_supported := Some ["openid"; "profile"];
     code_challenge_methods_supported := Some ["S256"];
     revocation_endpoint := None |}.

Definition api_resource_metadata : ProtectedResourceMetadata :=
  {| resource := "https://mcp.example.com/api";
     authorization_servers := ["https://auth.example.com"];
     prm_scopes_supported := Some ["files:read"] |}.

#[local] Instance example_runtime : Runtime :=
  {| Key := unit;
     scryptSync := fun _ _ => tt;
     seal := fun _ t => t;
     unseal := fun _ t => t;
     new_URL := example_new_URL;
     url_toString := example_url_toString;
     json_PRM := fun b =>
       if String.eqb b "<metadata of https://mcp.example.com/api>"
       then Ok api_resource_metadata else Throw "Unexpected token";
     json_ASM := fun b =>
       if String.eqb b "<metadata of tenantA>" then Ok tenantA_metadata
       else if String.eqb b "<metadata of https://auth.example.com>"
       then Ok auth_metadata
       else Throw "Unexpected token";
     json_DCR := fun b =>
       if String.eqb b "{}" then Ok (mkDCRResponse "" None None)
       else if String.eqb b "<registration of client-1>"
       then Ok (mkDCRResponse "client-1" None None)
       else Throw "Unexpected token";
     json_Token := fun b =>
       if String.eqb b "<token response at-2>"
       then Ok (mkTokenResponse "at-2" "Bearer" (Some 3600) None None)
       else Throw "Unexpected token";
     json_Error := fun b =>
       if String.eqb b "{}" then Ok (mkErrorJson None None)
       else Throw "Unexpected token";
     s256 := fun v => "S256(" ++ v ++ ")" |}.

Definition empty_world : World :=
  mkWorld _ ∅ None [] None ∅ ∅ ∅ ∅.

(** Nothing answers. *)
Definition offline : Network := fun _ => Rejected "fetch failed".

Definition respond (code : Z) (text content : string) : Network :=
  fun _ => Responded (mkResponse code text content).

(** A client registered for the resource [https://mcp.example.com/api-v2]. *)
Definition world_with_v2_client : World :=
  snd (Dcr.storeRegisteredClient 1000 "https://auth.example.com"
         "https://mcp.example.com/api-v2" "http://localhost:3000/callback"
         (mkDCRResponse "client-v2" None None) empty_world).

(** A client for [https://mcp.example.com/api] whose secret expires one
    second after the epoch. *)
Definition world_with_expired_client : World :=
  snd (Dcr.storeRegisteredClient 0 "https://auth.example.com"
         "https://mcp.example.com/api" "http://localhost:3000/callback"
         (mkDCRResponse "client-0" (Some "s3cret") (Some 1)) empty_world).

(** The metadata of the resource is cached and the client is configured. *)
Definition world_with_metadata : World :=
  set_resourceMetadataCache
    (insert "https://mcp.example.com/api" (api_resource_metadata, auth_metadata))
    empty_world.

(** As above, with a resource that advertises no scopes. *)
Definition world_with_bare_metadata : World :=
  set_resourceMetadataCache
    (insert "https://mcp.example.com/api"
       (mkPRM "https://mcp.example.com/api" ["https://auth.example.com"] None,
        auth_metadata))
    empty_world.

Definition api_config (scopes : option (list string)) : OAuthConfig :=
  {| enabled := true; cfg_issuer := None; cfg_clientId := Some "client-1";
     cfg_clientSecret := None; cfg_scopes := scopes;
     cfg_redirectUri := "http://localhost:3000/callback" |}.

(** The authorization server publishes its metadata and issues tokens. *)
Definition auth_server_online : Network :=
  fun request =>
    match request with
    | GET url =>
        if String.eqb url "https://auth.example.com/.well-known/oauth-authorization-server"
        then Responded (mkResponse 200 "OK" "<metadata of https://auth.example.com>")
        else Responded (mkResponse 404 "Not Found" "")
    | POST url =>
        if String.eqb url "https://auth.example.com/token"
        then Responded (mkResponse 200 "OK" "<token response at-2>")
        else Responded (mkResponse 404 "Not Found" "")
    end.

(** Only the OIDC discovery document exists, and it names another issuer. *)
Definition tenantA_online : Network :=
  fun request =>
    match request with
    | GET url =>
        if String.eqb url "https://auth.example.com/.well-known/openid-configuration"
        then Responded (mkResponse 200 "OK" "<metadata of tenantA>")
        else Responded (mkResponse 404 "Not Found" "")
    | POST _ => Responded (mkResponse 404 "Not Found" "")
    end.

(** A flow started at time 1000000 with state [state-1]. *)
Definition world_awaiting_callback : World :=
  snd (AuthFlow.initiateAuthFlow offline 1000000 "verifier-1" "state-1"
         "https://mcp.example.com/api" (api_config None) None None
         world_with_metadata).

Definition pending_state_1 : OAuthState :=
  {| st_state := "state-1";
     codeVerifier := "verifier-1";
     st_redirectUri := "http://localhost:3000/callback";
     st_resourceUri := "https://mcp.example.com/api";
     st_issuer := "https://auth.example.com";
     createdAt := 1000000;
     st_scopes := Some ["files:read"] |}.

Definition client_v2 : RegisteredClient :=
  {| clientId := "client-v2";
     clientSecret := None;
     rc_issuer := "https://auth.example.com";
     rc_resourceUri := "https://mcp.example.com/api-v2";
     registeredAt := 1000;
     clientSecretExpiresAt := None |}.

Definition api_tokens (expiry : Z) : OAuthTokens :=
  {| accessToken := "at-1"; refreshToken := Some "rt-1"; tokenType := "Bearer";
     expiresAt := expiry; scope := Some "files:read" |}.

Definition world_with_tokens (expiry : Z) : World :=
  snd (TokenManager.storeTokens "https://mcp.example.com/api" (api_tokens expiry)
         "https://auth.example.com" empty_world).

(** The resource server publishes its metadata at the path-inserted URL. *)
Definition resource_server_online : Network :=
  fun request =>
    match request with
    | GET url =>
        if String.eqb url
             "https://mcp.example.com/.well-known/oauth-protected-resource/api"
        then Responded (mkResponse 200 "OK" "<metadata of https://mcp.example.com/api>")
        else Responded (mkResponse 404 "Not Found" "")
    | POST _ => Responded (mkResponse 404 "Not Found" "")
    end.

(** The authorization URL of the flow that [world_awaiting_callback] awaits. *)
Definition example_authorization_url : string :=
  "https://auth.example.com/authorize?response_type=code"
  ++ "&client_id=client-1&redirect_uri=http://localhost:3000/callback"
  ++ "&state=state-1&code_challenge=S256(verifier-1)"
  ++ "&code_challenge_method=S256"
  ++ "&resource=https://mcp.example.com/api&scope=files:read".

Definition at2_tokens : OAuthTokens :=
  {| accessToken := "at-2"; refreshToken := None; tokenType := "Bearer";
     expiresAt := 5199000; scope := None |}.

Definition client_1_response : DCRResponse := mkDCRResponse "client-1" None None.
End Examples.

(** ** Notions the statements use *)

Module Spec.
Section Defs.
Context `{Runtime}.

(** The first candidate URL, in order, that yields structurally valid
    Authorization Server Metadata, and the document it yields. *)
Fixpoint firstStructurallyValid (net : Network) (urls : list string)
    : option AuthServerMetadata :=
  match urls with
  | [] => None
  | url :: rest =>
      match Discovery.fetchAuthServerMetadata net url with
      | Ok metadata => Some metadata
      | Throw _ => firstStructurallyValid net rest
      end
  end.

(** The scope parameter [initiateAuthFlow] sets, in the order the code
    resolves it: the challenge string when there is one; else the
    configured scopes; else, with no configured scopes, those the protected
    resource advertises; and when the list so chosen is absent or empty,
    the scopes the authorization server advertises, if any. *)
Definition authServerDefaultScope (authServer : AuthServerMetadata) : option string :=
  match scopes_supported authServer with
  | Some (x :: l) => Some (js_join " " (x :: l))
  | _ => None
  end.

Definition resolvedScope (config : OAuthConfig) (challengedScopes : option string)
    (protectedResource : ProtectedResourceMetadata)
    (authServer : AuthServerMetadata) : option string :=
  if truthy_ostring challengedScopes then challengedScopes
  else
    match cfg_scopes config with
    | Some (x :: l) => Some (js_join " " (x :: l))
    | Some [] => authServerDefaultScope authServer
    | None =>
        match prm_scopes_supported protectedResource with
        | Some (x :: l) => Some (js_join " " (x :: l))
        | _ => authServerDefaultScope authServer
        end
    end.

(** A call that leaves the pending authorization states alone. *)
Definition keepsPendingStates {A : Type} (m : M A) : Prop :=
  forall w, pendingStates (snd (m w)) = pendingStates w.

(** What the token manager needs of AES-GCM when a key is configured:
    unsealing gives back what was sealed, and a sealed text has the three
    colon-separated parts [iv:authTag:ciphertext]. *)
Definition tokenCipherSound (w : World) : Prop :=
  match tm_encryptionKey w with
  | None => True
  | Some k =>
      forall t, unseal k (seal k t) = t /\
                length (js_split ":" (seal k t)) = 3%nat
  end.

(** The same for the key of the client registry. *)
Definition clientCipherSound (w : World) : Prop :=
  match dcr_encryptionKey w with
  | None => True
  | Some k =>
      forall t, unseal k (seal k t) = t /\
                length (js_split ":" (seal k t)) = 3%nat
  end.

(** Tokens as [storeTokens] keeps them: an empty refresh token is dropped. *)
Definition storedForm (tokens : OAuthTokens) : OAuthTokens :=
  {| accessToken := accessToken tokens;
     refreshToken := if truthy_ostring (refreshToken tokens)
                     then refreshToken tokens else None;
     tokenType := tokenType tokens;
     expiresAt := expiresAt tokens;
     scope := scope tokens |}.

(** A call that leaves the token store and its key alone. *)
Definition keepsTokens {A : Type} (m : M A) : Prop :=
  forall w, tokenStore (snd (m w)) = tokenStore w /\
            tm_encryptionKey (snd (m w)) = tm_encryptionKey w.

(** The first candidate URL, in order, that yields structurally valid
    metadata whose issuer matches the requested one, and its document. *)
Fixpoint firstMatching (net : Network) (requested : string) (urls : list string)
    : option AuthServerMetadata :=
  match urls with
  | [] => None
  | url :: rest =>
      match Discovery.fetchAuthServerMetadata net url with
      | Ok metadata =>
          if Discovery.issuerMismatch requested metadata
          then firstMatching net requested rest
          else Some metadata
      | Throw _ => firstMatching net requested rest
      end
  end.

(** The key under which [discoverProtectedResourceMetadata] caches, and the
    unexpired document cached under it, if any. *)
Definition prmCacheKey (serverUrl : string) (resourceMetadataUrl : option string)
    : string :=
  if truthy_ostring resourceMetadataUrl
  then default "" resourceMetadataUrl else serverUrl.

Definition freshProtectedResourceMetadata (w : World) (now : Z) (cacheKey : string)
    : option ProtectedResourceMetadata :=
  match protectedResourceMetadataCache w !! cacheKey with
  | Some cached => if cache_expiresAt cached >? now then Some (data cached) else None
  | None => None
  end.

(** The client a lookup returns for a registration response that was stored:
    an empty secret reads back as no secret. *)
Definition registeredForm (now : Z) (issuer resourceUri : string)
    (response : DCRResponse) : RegisteredClient :=
  {| clientId := client_id response;
     clientSecret := if truthy_ostring (client_secret response)
                     then client_secret response else None;
     rc_issuer := issuer;
     rc_resourceUri := resourceUri;
     registeredAt := now;
     clientSecretExpiresAt := client_secret_expires_at response |}.

(** A call that leaves one view of the module state alone. *)
Definition keeps {X A : Type} (view : World -> X) (m : M A) : Prop :=
  forall w, view (snd (m w)) = view w.

(** The token store together with its key. *)
Definition tokensView (w : World) : gmap string EncryptedTokens * option Key :=
  (tokenStore w, tm_encryptionKey w).
End Defs.
End Spec.

(** * Properties *)

(** ** Token manager *)

Section TokenManagerFacts.
Context `{Runtime}.
Import TokenManager.

Lemma getTokens_tokenStore (w w' : World) (resourceUri : string) :
  tokenStore w' = tokenStore w ->
  tm_encryptionKey w' = tm_encryptionKey w ->
  getTokens w' resourceUri = getTokens w resourceUri.
Proof.
  intros Hs Hk. unfold getTokens, decrypt. rewrite Hs, Hk. reflexivity.
Qed.

Lemma getTokens_removed (w : World) (resourceUri : string) :
  getTokens (set_tokenStore (delete resourceUri) w) resourceUri = None.
Proof.
  unfold getTokens. cbn. rewrite lookup_delete_eq. reflexivity.
Qed.

(** C4. [hasValidTokens(resourceUri)] is true exactly when tokens are
    stored for [resourceUri] and their [expiresAt] is more than 30 seconds
    (30000 ms) after the current time; with tokens stored it is true 31
    seconds before [expiresAt] and false 29 seconds before it. *)
Theorem hasValidTokens_iff (w : World) (now : Z) (resourceUri : string) :
  (hasValidTokens w now resourceUri = true <->
   exists tokens, getTokens w resourceUri = Some tokens /\
                  expiresAt tokens > now + 30 * 1000) /\
  (forall tokens, getTokens w resourceUri = Some tokens ->
     hasValidTokens w (expiresAt tokens - 31 * 1000) resourceUri = true /\
     hasValidTokens w (expiresAt tokens - 29 * 1000) resourceUri = false).
Proof.
  unfold hasValidTokens. split.
  - destruct (getTokens w resourceUri) as [tokens|]; cbn zeta; split.
    + intros Hv. exists tokens. split; [reflexivity|].
      apply Z.gtb_lt in Hv. lia.
    + intros (t & [= <-] & Hgt). apply Z.gtb_lt. lia.
    + discriminate.
    + intros (t & Hn & _). discriminate.
  - intros tokens ->. cbn zeta. split.
    + apply Z.gtb_lt. lia.
    + apply not_true_is_false. intros Hv. apply Z.gtb_lt in Hv. lia.
Qed.

(** C5. When tokens with a refresh token are stored for [resourceUri] and
    the token endpoint answers the refresh request with status 400 or 401,
    [refreshTokens] throws the "Token refresh failed" error after deleting
    the stored tokens: afterwards [getTokens(resourceUri)] is null. *)
Theorem refreshTokens_rejected_clears (net : Network) (now : Z)
    (metadata : AuthServerMetadata) (resourceUri clientId : string)
    (clientSecret : option string) (w : World) (tokens : OAuthTokens)
    (response : Response) :
  getTokens w resourceUri = Some tokens ->
  truthy_ostring (refreshToken tokens) = true ->
  net (POST (token_endpoint metadata)) = Responded response ->
  status response = 400 \/ status response = 401 ->
  exists w',
    refreshTokens net now metadata resourceUri clientId clientSecret w
    = (Throw ("Token refresh failed: " ++ tokenErrorMessage response), w') /\
    tokenStore w' = delete resourceUri (tokenStore w) /\
    getTokens w' resourceUri = None.
Proof.
  intros Hget Hrt Hnet Hst.
  exists (set_tokenStore (delete resourceUri) w).
  split; [|split; [reflexivity | apply getTokens_removed]].
  unfold refreshTokens, bind, gets. rewrite Hget, Hrt, Hnet. cbn [negb].
  assert (Hok : response_ok response = false).
  { unfold response_ok. destruct Hst as [-> | ->]; reflexivity. }
  rewrite Hok. cbn [negb].
  assert (Hor : (status response =? 400) || (status response =? 401) = true).
  { destruct Hst as [-> | ->]; reflexivity. }
  rewrite Hor. reflexivity.
Qed.

(** C10. When the token endpoint answers the refresh request with a
    non-success status other than 400 and 401 (500 or 503, say),
    [refreshTokens] throws and changes nothing: [getTokens(resourceUri)]
    returns afterwards the tokens it returned before. *)
Theorem refreshTokens_failure_keeps_tokens (net : Network) (now : Z)
    (metadata : AuthServerMetadata) (resourceUri clientId : string)
    (clientSecret : option string) (w : World) (tokens : OAuthTokens)
    (response : Response) :
  getTokens w resourceUri = Some tokens ->
  truthy_ostring (refreshToken tokens) = true ->
  net (POST (token_endpoint metadata)) = Responded response ->
  response_ok response = false ->
  status response <> 400 -> status response <> 401 ->
  exists w',
    refreshTokens net now metadata resourceUri clientId clientSecret w
    = (Throw ("Token refresh failed: " ++ tokenErrorMessage response), w') /\
    w' = w /\
    getTokens w' resourceUri = Some tokens.
Proof.
  intros Hget Hrt Hnet Hok H400 H401.
  exists w. split; [|split; [reflexivity | exact Hget]].
  unfold refreshTokens, bind, gets. rewrite Hget, Hrt, Hnet, Hok. cbn [negb].
  apply Z.eqb_neq in H400, H401. rewrite H400, H401. reflexivity.
Qed.
End TokenManagerFacts.

(** ** Discovery *)

Section DiscoveryFacts.
Context `{Runtime}.
Import Discovery.

Lemma firstStructurallyValid_None (net : Network) (urls : list string) :
  Spec.firstStructurallyValid net urls = None <->
  forall url, In url urls -> exists e, fetchAuthServerMetadata net url = Throw e.
Proof.
  induction urls as [|u rest IH]; cbn.
  - split; [intros _ url [] | reflexivity].
  - destruct (fetchAuthServerMetadata net u) as [m|e] eqn:Hu.
    + split; [discriminate|].
      intros Hall. destruct (Hall u (or_introl eq_refl)) as [e He].
      rewrite Hu in He. discriminate.
    + rewrite IH. split.
      * intros Hall url [<- | Hin]; [eauto | auto].
      * intros Hall url Hin. apply Hall. now right.
Qed.

(** The loop throws exactly when it ends with no mismatched document in
    hand and no candidate produced a document. *)
Lemma tryAuthServerUrls_throws (net : Network) (now : Z) (requested : string)
    (urls : list string) :
  forall lastError mm w,
    (exists e, fst (tryAuthServerUrls net now requested urls lastError mm w) = Throw e)
    <-> mm = None /\ Spec.firstStructurallyValid net urls = None.
Proof.
  induction urls as [|u rest IH]; intros lastError mm w; cbn.
  - destruct mm as [m|]; cbn.
    + split; [intros [e He]; discriminate | intros [Hm _]; discriminate].
    + split; [auto | intros _; eauto].
  - destruct (fetchAuthServerMetadata net u) as [m|e] eqn:Hu.
    + destruct (issuerMismatch requested m).
      * rewrite IH. destruct mm; split; intros [Hm Hf]; discriminate.
      * cbn. split; [intros [e He]; discriminate | intros [_ Hf]; discriminate].
    + apply IH.
Qed.

(** With no matching document among the candidates, the loop returns the
    mismatched document it already holds, or else the first one it meets. *)
Lemma tryAuthServerUrls_mismatched (net : Network) (now : Z) (requested : string)
    (urls : list string) :
  (forall url md, In url urls -> fetchAuthServerMetadata net url = Ok md ->
                  issuerMismatch requested md = true) ->
  forall lastError mm w md,
    match mm with
    | Some m => Some m
    | None => Spec.firstStructurallyValid net urls
    end = Some md ->
    tryAuthServerUrls net now requested urls lastError mm w
    = (Ok md, set_authServerMetadataCache
                (insert requested (mkCacheEntry md (now + CACHE_TTL_MS))) w).
Proof.
  induction urls as [|u rest IH]; intros Hall lastError mm w md Hmd; cbn.
  - destruct mm as [m|]; [|discriminate]. injection Hmd as ->. reflexivity.
  - assert (Hrest : forall url md', In url rest ->
              fetchAuthServerMetadata net url = Ok md' ->
              issuerMismatch requested md' = true).
    { intros url md' Hin. apply Hall. now right. }
    cbn in Hmd.
    destruct (fetchAuthServerMetadata net u) as [m|e] eqn:Hu.
    + rewrite (Hall u m (or_introl eq_refl) Hu).
      apply IH; [exact Hrest|]. destruct mm; exact Hmd.
    + apply IH; [exact Hrest|]. exact Hmd.
Qed.

(** C6. When the candidate URLs are tried (no unexpired cache entry for the
    issuer): if at least one candidate yields structurally valid metadata
    and none yields metadata whose issuer matches the requested one after
    trimming a trailing slash, [discoverAuthServerMetadata] returns the
    first structurally valid document in candidate order; and it throws
    exactly when no candidate yields structurally valid metadata. *)
Theorem discoverAuthServerMetadata_mismatch_fallback (net : Network) (now : Z)
    (requested : string) (w : World) (urls : list string) :
  freshAuthServerMetadata w now requested = None ->
  getAuthServerMetadataUrls requested = Ok urls ->
  (forall md,
     Spec.firstStructurallyValid net urls = Some md ->
     (forall url md', In url urls -> fetchAuthServerMetadata net url = Ok md' ->
                      issuerMismatch requested md' = true) ->
     fst (discoverAuthServerMetadata net now requested w) = Ok md) /\
  ((exists e, fst (discoverAuthServerMetadata net now requested w) = Throw e) <->
   (forall url, In url urls -> exists e, fetchAuthServerMetadata net url = Throw e)).
Proof.
  intros Hcache Hurls. unfold discoverAuthServerMetadata.
  rewrite Hcache, Hurls. split.
  - intros md Hfirst Hall.
    rewrite (tryAuthServerUrls_mismatched net now requested urls Hall None None w md Hfirst).
    reflexivity.
  - rewrite tryAuthServerUrls_throws, firstStructurallyValid_None.
    split; [intros [_ Hn]; exact Hn | intros Hn; split; [reflexivity | exact Hn]].
Qed.
End DiscoveryFacts.

(** ** Dynamic client registration *)

Section JsMapFacts.
Context {V : Type}.

Lemma JsMap_get_delete_eq (k : string) (m : list (string * V)) :
  JsMap.get k (JsMap.delete k m) = None.
Proof.
  induction m as [|[k' v] r IH]; cbn; [reflexivity|].
  destruct (String.eqb k' k) eqn:E; [exact IH|].
  cbn. rewrite E. exact IH.
Qed.

Lemma JsMap_get_delete_Some (k k' : string) (v : V) (m : list (string * V)) :
  JsMap.get k (JsMap.delete k' m) = Some v -> JsMap.get k m = Some v.
Proof.
  induction m as [|[k0 v0] r IH]; cbn; [discriminate|].
  destruct (String.eqb k0 k') eqn:E'.
  - intros Hg. destruct (String.eqb k0 k) eqn:E.
    + apply String.eqb_eq in E, E'. subst.
      rewrite JsMap_get_delete_eq in Hg. discriminate.
    + auto.
  - cbn. destruct (String.eqb k0 k); auto.
Qed.

Lemma JsMap_get_None_or_In (k : string) (m : list (string * V)) :
  JsMap.get k m = None \/ In k (map fst m).
Proof.
  induction m as [|[k' v] r IH]; cbn; [now left|].
  destruct (String.eqb k' k) eqn:E.
  - right. left. now apply String.eqb_eq.
  - destruct IH; [now left | right; now right].
Qed.
End JsMapFacts.

Section DcrFacts.
Context `{Runtime}.
Import Dcr.

Lemma startsWith_refl (s : string) : startsWith s s = true.
Proof.
  unfold startsWith. induction s as [|a s IH]; cbn; [reflexivity|].
  destruct (ascii_dec a a); [exact IH | congruence].
Qed.

(** A scan that finds nothing has deleted every entry under the prefix
    and added none. *)
Lemma fallbackScan_None (now : Z) (keyPrefix : string)
    (entries : list (string * RegisteredClient)) :
  forall w w',
    fallbackScan now keyPrefix entries w = (Ok None, w') ->
    (forall k, startsWith k keyPrefix = true -> In k (map fst entries) ->
               JsMap.get k (registeredClients w') = None) /\
    (forall k v, JsMap.get k (registeredClients w') = Some v ->
                 JsMap.get k (registeredClients w) = Some v).
Proof.
  induction entries as [|[key client] rest IH]; intros w w' Hscan; cbn in Hscan.
  - injection Hscan as <-. split; [intros k _ [] | auto].
  - destruct (startsWith key keyPrefix) eqn:Hp.
    + destruct (secretExpired client now); [|discriminate].
      unfold bind, modify in Hscan.
      destruct (IH _ _ Hscan) as [Ha Hc]. cbn in Hc.
      assert (Hc' : forall k v, JsMap.get k (registeredClients w') = Some v ->
                                JsMap.get k (registeredClients w) = Some v).
      { intros k v Hg. eapply JsMap_get_delete_Some. apply Hc, Hg. }
      split; [|exact Hc'].
      intros k Hk [Hkey | Hin]; [|auto].
      cbn in Hkey. subst k.
      destruct (JsMap.get key (registeredClients w')) as [v|] eqn:Hg; [|reflexivity].
      apply Hc in Hg. rewrite JsMap_get_delete_eq in Hg. discriminate.
    + destruct (IH _ _ Hscan) as [Ha Hc]. split; [|exact Hc].
      intros k Hk [Hkey | Hin]; [cbn in Hkey; congruence | auto].
Qed.

Lemma fallbackScan_no_expired (now : Z) (keyPrefix : string)
    (entries : list (string * RegisteredClient)) :
  (forall k c, In (k, c) entries -> secretExpired c now = false) ->
  forall w, snd (fallbackScan now keyPrefix entries w) = w.
Proof.
  induction entries as [|[key client] rest IH]; intros Hne w; cbn; [reflexivity|].
  assert (Hrest : forall k c, In (k, c) rest -> secretExpired c now = false).
  { intros k c Hin. apply (Hne k c). now right. }
  rewrite (Hne key client (or_introl eq_refl)).
  destruct (startsWith key keyPrefix); [reflexivity | apply IH, Hrest].
Qed.

Lemma JsMap_get_In (k : string) (c : RegisteredClient)
    (m : list (string * RegisteredClient)) :
  JsMap.get k m = Some c -> exists k', In (k', c) m.
Proof.
  induction m as [|[k0 c0] r IH]; cbn; [discriminate|].
  destruct (String.eqb k0 k).
  - intros [= ->]. exists k0. now left.
  - intros Hg. destruct (IH Hg) as [k' Hin]. exists k'. now right.
Qed.

(** What a lookup that returns null leaves behind. *)
Lemma getRegisteredClient_None (now : Z) (issuer resourceUri : string)
    (redirectUri : option string) (w w0 : World) :
  getRegisteredClient now issuer resourceUri redirectUri w = (Ok None, w0) ->
  JsMap.get (getClientCacheKey issuer resourceUri redirectUri)
    (registeredClients w0) = None /\
  (forall k v, JsMap.get k (registeredClients w0) = Some v ->
               JsMap.get k (registeredClients w) = Some v) /\
  ((forall k c, In (k, c) (registeredClients w) -> secretExpired c now = false) ->
   w0 = w).
Proof.
  unfold getRegisteredClient. intros Hget.
  assert (Hnone : forall k w1 w2,
            fallbackScan now (issuer ++ "|" ++ resourceUri) (registeredClients w1) w1
            = (Ok None, w2) ->
            JsMap.get k (registeredClients w1) = None ->
            JsMap.get k (registeredClients w2) = None).
  { intros k w1 w2 Hs Hk. apply fallbackScan_None in Hs as [_ Hc].
    destruct (JsMap.get k (registeredClients w2)) as [v|] eqn:Hg; [|reflexivity].
    apply Hc in Hg. congruence. }
  destruct (truthy_ostring redirectUri) eqn:Hr.
  - set (K := getClientCacheKey issuer resourceUri redirectUri) in *.
    destruct (JsMap.get K (registeredClients w)) as [c|] eqn:HK.
    + destruct (secretExpired c now) eqn:He; [|discriminate].
      split; [|split].
      * eapply Hnone; [exact Hget|]. cbn. apply JsMap_get_delete_eq.
      * intros k v Hg. apply fallbackScan_None in Hget as [_ Hc].
        apply Hc in Hg. cbn in Hg. eapply JsMap_get_delete_Some, Hg.
      * intros Hne. apply JsMap_get_In in HK as [k' Hin].
        rewrite (Hne _ _ Hin) in He. discriminate.
    + split; [|split].
      * eapply Hnone; [exact Hget | exact HK].
      * intros k v Hg. apply fallbackScan_None in Hget as [_ Hc]. auto.
      * intros Hne.
        pose proof (fallbackScan_no_expired now (issuer ++ "|" ++ resourceUri)
                      (registeredClients w) Hne w) as Hw.
        rewrite Hget in Hw. exact Hw.
  - assert (HK : getClientCacheKey issuer resourceUri redirectUri
                 = issuer ++ "|" ++ resourceUri).
    { unfold getClientCacheKey. rewrite Hr. reflexivity. }
    rewrite HK. split; [|split].
    + destruct (JsMap_get_None_or_In (issuer ++ "|" ++ resourceUri)
                  (registeredClients w)) as [Hn | Hin].
      * eapply Hnone; [exact Hget | exact Hn].
      * apply fallbackScan_None in Hget as [Ha _].
        apply Ha; [apply startsWith_refl | exact Hin].
    + intros k v Hg. apply fallbackScan_None in Hget as [_ Hc]. auto.
    + intros Hne.
      pose proof (fallbackScan_no_expired now (issuer ++ "|" ++ resourceUri)
                    (registeredClients w) Hne w) as Hw.
      rewrite Hget in Hw. exact Hw.
Qed.
End DcrFacts.

Section RegistrationFacts.
Context `{Runtime}.
Import Dcr.

Lemma response_ok_range (r : Response) :
  response_ok r = true <-> 200 <= status r <= 299.
Proof. unfold response_ok. rewrite andb_true_iff, !Z.leb_le. tauto. Qed.

Lemma status_gate (r : Response) :
  negb (response_ok r) && negb (status r =? 201) = negb (response_ok r).
Proof.
  unfold response_ok.
  destruct (status r =? 201) eqn:E; [|now rewrite andb_true_r].
  apply Z.eqb_eq in E. rewrite E. reflexivity.
Qed.

(** C8, as the code has it. When the lookup that precedes the request finds
    no usable client and the registration endpoint answers with a success
    status and a body without [client_id], [registerClient] throws "DCR
    response missing client_id" and adds nothing to the registered-client
    store: the store is as that lookup left it, holds no entry under the
    (issuer, resourceUri, redirectUri) key, holds only entries it held
    before the call, and is unchanged when no stored secret has expired. *)
Theorem registerClient_missing_client_id (net : Network) (now : Z)
    (metadata : AuthServerMetadata) (resourceUri redirectUri clientName : string)
    (scopes : option (list string)) (w w0 : World) (response : Response)
    (dcrResponse : DCRResponse) :
  truthy_ostring (registration_endpoint metadata) = true ->
  getRegisteredClient now (issuer metadata) resourceUri (Some redirectUri) w
  = (Ok None, w0) ->
  net (POST (default "" (registration_endpoint metadata))) = Responded response ->
  response_ok response = true ->
  json_DCR (body response) = Ok dcrResponse ->
  truthy_string (client_id dcrResponse) = false ->
  registerClient net now metadata resourceUri redirectUri clientName scopes w
  = (Throw "DCR response missing client_id", w0) /\
  JsMap.get (getClientCacheKey (issuer metadata) resourceUri (Some redirectUri))
    (registeredClients w0) = None /\
  (forall k v, JsMap.get k (registeredClients w0) = Some v ->
               JsMap.get k (registeredClients w) = Some v) /\
  ((forall k c, In (k, c) (registeredClients w) -> secretExpired c now = false) ->
   w0 = w).
Proof.
  intros Hep Hlookup Hnet Hok Hjson Hid.
  split; [|exact (getRegisteredClient_None _ _ _ _ _ _ Hlookup)].
  unfold registerClient. rewrite Hep. cbn [negb].
  unfold bind at 1. rewrite Hlookup, Hnet, status_gate, Hok. cbn [negb].
  unfold parseAndStoreRegistration, bind, lift. rewrite Hjson, Hid. reflexivity.
Qed.

(** C9, as the code has it. Once the request is made, [registerClient]
    goes on to read and store the response exactly when the status is in
    the range 200-299, which contains 200 and 201; for every other status
    it throws "DCR failed: ..." and leaves the store as the lookup left it. *)
Theorem registerClient_status_gate (net : Network) (now : Z)
    (metadata : AuthServerMetadata) (resourceUri redirectUri clientName : string)
    (scopes : option (list string)) (w w0 : World) (response : Response) :
  truthy_ostring (registration_endpoint metadata) = true ->
  getRegisteredClient now (issuer metadata) resourceUri (Some redirectUri) w
  = (Ok None, w0) ->
  net (POST (default "" (registration_endpoint metadata))) = Responded response ->
  (200 <= status response <= 299 ->
   registerClient net now metadata resourceUri redirectUri clientName scopes w
   = parseAndStoreRegistration now metadata resourceUri redirectUri response w0) /\
  (~ 200 <= status response <= 299 ->
   registerClient net now metadata resourceUri redirectUri clientName scopes w
   = (Throw ("DCR failed: " ++ dcrErrorMessage response), w0)).
Proof.
  intros Hep Hlookup Hnet.
  split; intros Hst; unfold registerClient; rewrite Hep; cbn [negb];
    unfold bind at 1; rewrite Hlookup, Hnet, status_gate.
  - apply response_ok_range in Hst. rewrite Hst. reflexivity.
  - destruct (response_ok response) eqn:Hok; [|reflexivity].
    apply response_ok_range in Hok. contradiction.
Qed.
End RegistrationFacts.


(** ** Authorization flow *)

Section Frame.
Context `{Runtime}.
Import Spec.

Lemma keeps_ret {A} (a : A) : keepsPendingStates (ret a).
Proof. intros w. reflexivity. Qed.

Lemma keeps_throw {A} (e : string) : keepsPendingStates (throw (A:=A) e).
Proof. intros w. reflexivity. Qed.

Lemma keeps_lift {A} (r : result A) : keepsPendingStates (lift r).
Proof. intros w. reflexivity. Qed.

Lemma keeps_gets {A} (f : World -> A) : keepsPendingStates (gets f).
Proof. intros w. reflexivity. Qed.

Lemma keeps_modify (f : World -> World) :
  (forall w, pendingStates (f w) = pendingStates w) ->
  keepsPendingStates (modify f).
Proof. intros Hf w. apply Hf. Qed.

Lemma keeps_bind {A B} (m : M A) (k : A -> M B) :
  keepsPendingStates m -> (forall a, keepsPendingStates (k a)) ->
  keepsPendingStates (bind m k).
Proof.
  intros Hm Hk w. unfold bind. specialize (Hm w).
  destruct (m w) as [[a|e] w1]; cbn in *; [|exact Hm].
  rewrite (Hk a w1). exact Hm.
Qed.

Lemma keeps_tryAuthServerUrls (net : Network) (now : Z) (requested : string)
    (urls : list string) :
  forall lastError mm,
    keepsPendingStates
      (Discovery.tryAuthServerUrls net now requested urls lastError mm).
Proof.
  induction urls as [|u rest IH]; intros lastError mm; cbn.
  - destruct mm; [|apply keeps_throw].
    apply keeps_bind; [now apply keeps_modify | intros; apply keeps_ret].
  - destruct (Discovery.fetchAuthServerMetadata net u) as [m|e]; [|apply IH].
    destruct (Discovery.issuerMismatch requested m); [apply IH|].
    apply keeps_bind; [now apply keeps_modify | intros; apply keeps_ret].
Qed.

Lemma keeps_discoverAuthServerMetadata (net : Network) (now : Z) (requested : string) :
  keepsPendingStates (Discovery.discoverAuthServerMetadata net now requested).
Proof.
  intros w. unfold Discovery.discoverAuthServerMetadata.
  destruct (Discovery.freshAuthServerMetadata w now requested); [reflexivity|].
  destruct (Discovery.getAuthServerMetadataUrls requested); [|reflexivity].
  apply keeps_tryAuthServerUrls.
Qed.

Lemma keeps_fallbackScan (now : Z) (keyPrefix : string)
    (entries : list (string * RegisteredClient)) :
  keepsPendingStates (Dcr.fallbackScan now keyPrefix entries).
Proof.
  induction entries as [|[key client] rest IH]; cbn; [apply keeps_ret|].
  destruct (startsWith key keyPrefix); [|exact IH].
  destruct (Dcr.secretExpired client now).
  - apply keeps_bind; [now apply keeps_modify | intros; exact IH].
  - intros w. reflexivity.
Qed.

Lemma keeps_getRegisteredClient (now : Z) (issuer resourceUri : string)
    (redirectUri : option string) :
  keepsPendingStates (Dcr.getRegisteredClient now issuer resourceUri redirectUri).
Proof.
  intros w. unfold Dcr.getRegisteredClient.
  destruct (truthy_ostring redirectUri); [|apply keeps_fallbackScan].
  destruct (JsMap.get _ (registeredClients w)) as [c|]; [|apply keeps_fallbackScan].
  destruct (Dcr.secretExpired c now); [|reflexivity].
  rewrite keeps_fallbackScan. reflexivity.
Qed.

Lemma keeps_registerClient (net : Network) (now : Z) (metadata : AuthServerMetadata)
    (resourceUri redirectUri clientName : string) (scopes : option (list string)) :
  keepsPendingStates
    (Dcr.registerClient net now metadata resourceUri redirectUri clientName scopes).
Proof.
  unfold Dcr.registerClient.
  destruct (negb (truthy_ostring (registration_endpoint metadata)));
    [apply keeps_throw|].
  apply keeps_bind; [apply keeps_getRegisteredClient|].
  intros [existing|]; [apply keeps_ret|].
  destruct (net _) as [e|response]; [apply keeps_throw|].
  destruct (negb (response_ok response) && negb (status response =? 201));
    [apply keeps_throw|].
  unfold Dcr.parseAndStoreRegistration.
  apply keeps_bind; [apply keeps_lift|]. intros dcrResponse.
  destruct (negb (truthy_string (client_id dcrResponse))); [apply keeps_throw|].
  intros w. reflexivity.
Qed.

Lemma keeps_getOrRegisterClient (net : Network) (now : Z)
    (authServer : AuthServerMetadata) (resourceUri : string) (config : OAuthConfig) :
  keepsPendingStates (AuthFlow.getOrRegisterClient net now authServer resourceUri config).
Proof.
  unfold AuthFlow.getOrRegisterClient.
  destruct (truthy_ostring (cfg_clientId config)); [apply keeps_ret|].
  apply keeps_bind; [apply keeps_getRegisteredClient|].
  intros [existing|]; [apply keeps_ret|].
  destruct (negb (Discovery.supportsDcr authServer)); [apply keeps_throw|].
  apply keeps_bind; [apply keeps_registerClient | intros; apply keeps_ret].
Qed.

Lemma keeps_exchangeCodeForTokens (net : Network) (now : Z)
    (metadata : AuthServerMetadata) (code redirectUri codeVerifier clientId : string)
    (clientSecret resourceUri : option string) :
  keepsPendingStates
    (TokenManager.exchangeCodeForTokens net now metadata code redirectUri
       codeVerifier clientId clientSecret resourceUri).
Proof.
  unfold TokenManager.exchangeCodeForTokens.
  destruct (net _) as [e|response]; [apply keeps_throw|].
  destruct (negb (response_ok response)); [apply keeps_throw|].
  apply keeps_bind; [apply keeps_lift|]. intros tokenResponse.
  destruct (negb (truthy_string (access_token tokenResponse)));
    [apply keeps_throw | apply keeps_ret].
Qed.

Lemma keeps_exchangeAndStore (net : Network) (now : Z) (code : string)
    (oauthState : OAuthState) (config : OAuthConfig) :
  keepsPendingStates (AuthFlow.exchangeAndStore net now code oauthState config).
Proof.
  unfold AuthFlow.exchangeAndStore.
  apply keeps_bind; [apply keeps_discoverAuthServerMetadata|]. intros authServer.
  apply keeps_bind; [apply keeps_getOrRegisterClient|]. intros client.
  apply keeps_bind; [apply keeps_exchangeCodeForTokens|]. intros tokens.
  apply keeps_bind; [|intros; apply keeps_ret].
  intros w. reflexivity.
Qed.
End Frame.

Section AuthFlowFacts.
Context `{Runtime}.
Import AuthFlow.

Lemma handleAuthCallback_pending (net : Network) (now : Z) (code state : string)
    (config : OAuthConfig) (w : World) (oauthState : OAuthState) :
  pendingStates w !! state = Some oauthState ->
  handleAuthCallback net now code state config w
  = if now - createdAt oauthState >? STATE_TTL_MS
    then (Throw StateExpired, set_pendingStates (delete state) w)
    else exchangeAndStore net now code oauthState config
           (set_pendingStates (delete state) w).
Proof.
  intros Hp. unfold handleAuthCallback, bind, gets, modify. rewrite Hp.
  destruct (now - createdAt oauthState >? STATE_TTL_MS); reflexivity.
Qed.

Lemma handleAuthCallback_absent (net : Network) (now : Z) (code state : string)
    (config : OAuthConfig) (w : World) :
  pendingStates w !! state = None ->
  handleAuthCallback net now code state config w = (Throw InvalidOrExpiredState, w).
Proof.
  intros Hp. unfold handleAuthCallback, bind, gets. rewrite Hp. reflexivity.
Qed.

Lemma handleAuthCallback_consumes (net : Network) (now : Z) (code state : string)
    (config : OAuthConfig) (w : World) :
  pendingStates (snd (handleAuthCallback net now code state config w)) !! state = None.
Proof.
  destruct (pendingStates w !! state) as [oauthState|] eqn:Hp.
  - rewrite (handleAuthCallback_pending _ _ _ _ _ _ _ Hp).
    destruct (now - createdAt oauthState >? STATE_TTL_MS).
    + cbn. apply lookup_delete_eq.
    + rewrite keeps_exchangeAndStore. cbn. apply lookup_delete_eq.
  - rewrite (handleAuthCallback_absent _ _ _ _ _ _ Hp). exact Hp.
Qed.

(** A flow that [initiateAuthFlow] starts is pending under the state it
    returns, with the clock reading as its creation time. *)
Lemma initiateAuthFlow_pending (net : Network) (now : Z) (verifier state : string)
    (serverUrl : string) (config : OAuthConfig)
    (resourceMetadataUrl challengedScopes : option string) (w w' : World)
    (authorizationUrl state' : string) :
  initiateAuthFlow net now verifier state serverUrl config resourceMetadataUrl
    challengedScopes w = (Ok (authorizationUrl, state'), w') ->
  state' = state /\
  exists oauthState,
    pendingStates w' !! state = Some oauthState /\ createdAt oauthState = now.
Proof.
  unfold initiateAuthFlow. unfold bind at 1. cbn [cleanupExpiredStates modify].
  unfold bind at 1. unfold lift at 1.
  destruct (Discovery.getCanonicalResourceUri serverUrl) as [resourceUri|e];
    [|discriminate].
  unfold bind at 1.
  destruct (getMetadata net now serverUrl resourceMetadataUrl _)
    as [[[protectedResource authServer]|e] w1]; [|discriminate].
  cbn [fst snd]. unfold bind at 1.
  destruct (getOrRegisterClient net now authServer resourceUri config w1)
    as [[client|e] w2]; [|discriminate].
  cbn [Pkce.generatePkcePair]. unfold bind at 1. cbn [modify].
  unfold bind at 1. unfold lift at 1.
  destruct (buildAuthorizationUrl _ _ _ _ _ _ _ _) as [u|e]; [|discriminate].
  cbn [ret]. intros [= <- <- <-]. split; [reflexivity|].
  eexists. cbn. rewrite lookup_insert_eq. split; reflexivity.
Qed.

(** C2. A pending state is consumed at most once: the first
    [handleAuthCallback] with a stored state [s] removes [s] from the
    pending-state store, whatever its outcome, and any second
    [handleAuthCallback] with [s] throws the invalid-or-expired-state error. *)
Theorem handleAuthCallback_single_use (net : Network) (now : Z)
    (code s : string) (config : OAuthConfig) (w : World) (oauthState : OAuthState) :
  pendingStates w !! s = Some oauthState ->
  let w1 := snd (handleAuthCallback net now code s config w) in
  pendingStates w1 !! s = None /\
  forall net' now' code' config',
    handleAuthCallback net' now' code' s config' w1
    = (Throw "Invalid or expired OAuth state. Please try authorizing again.", w1).
Proof.
  intros _ w1.
  assert (Hgone : pendingStates w1 !! s = None) by apply handleAuthCallback_consumes.
  split; [exact Hgone|].
  intros net' now' code' config'. now apply handleAuthCallback_absent.
Qed.

(** C3. The state TTL is 10 minutes with a strict comparison: a callback
    for a pending state created at time T goes on to the code exchange
    whenever the clock is at most T + 600000 ms, in particular at
    T + 9 min 59 s, and throws the expired-state error whenever the clock is
    past that, in particular at T + 10 min 1 s. *)
Theorem handleAuthCallback_ttl (net : Network) (code s : string)
    (config : OAuthConfig) (w : World) (oauthState : OAuthState) :
  pendingStates w !! s = Some oauthState ->
  let T := createdAt oauthState in
  let w1 := set_pendingStates (delete s) w in
  (forall now, now - T <= 10 * 60 * 1000 ->
     handleAuthCallback net now code s config w
     = exchangeAndStore net now code oauthState config w1) /\
  (forall now, now - T > 10 * 60 * 1000 ->
     handleAuthCallback net now code s config w
     = (Throw "OAuth state has expired. Please try authorizing again.", w1)) /\
  handleAuthCallback net (T + (9 * 60 + 59) * 1000) code s config w
  = exchangeAndStore net (T + (9 * 60 + 59) * 1000) code oauthState config w1 /\
  handleAuthCallback net (T + (10 * 60 + 1) * 1000) code s config w
  = (Throw "OAuth state has expired. Please try authorizing again.", w1).
Proof.
  intros Hp T w1.
  assert (Hle : forall now, now - T <= 10 * 60 * 1000 ->
            handleAuthCallback net now code s config w
            = exchangeAndStore net now code oauthState config w1).
  { intros now Hnow. rewrite (handleAuthCallback_pending _ _ _ _ _ _ _ Hp).
    fold T. unfold STATE_TTL_MS.
    destruct (now - T >? 10 * 60 * 1000) eqn:E; [|reflexivity].
    apply Z.gtb_lt in E. lia. }
  assert (Hgt : forall now, now - T > 10 * 60 * 1000 ->
            handleAuthCallback net now code s config w
            = (Throw StateExpired, w1)).
  { intros now Hnow. rewrite (handleAuthCallback_pending _ _ _ _ _ _ _ Hp).
    fold T. unfold STATE_TTL_MS.
    destruct (now - T >? 10 * 60 * 1000) eqn:E; [reflexivity|].
    rewrite Z.gtb_ltb in E. apply Z.ltb_ge in E. lia. }
  repeat split; [exact Hle | exact Hgt | apply Hle; lia | apply Hgt; lia].
Qed.
End AuthFlowFacts.

(** ** Scope resolution *)

Section JsStringFacts.
Lemma js_split_cons (c : ascii) (s : string) :
  exists h t, js_split c s = h :: t.
Proof.
  destruct s as [|a r]; cbn; [eauto|].
  destruct (Ascii.eqb a c); [eauto|].
  destruct (js_split c r); eauto.
Qed.

(** Joining with a space what was split at spaces gives the string back. *)
Lemma js_join_split (s : string) : js_join " " (js_split " " s) = s.
Proof.
  induction s as [|a r IH]; [reflexivity|]. cbn [js_split].
  destruct (js_split_cons " " r) as (h & t & Hr). rewrite Hr in *.
  destruct (Ascii.eqb a " ") eqn:E.
  - apply Ascii.eqb_eq in E. subst a.
    change (js_join " " ("" :: h :: t)) with (" " ++ js_join " " (h :: t)).
    rewrite IH. reflexivity.
  - destruct t as [|h' t'].
    + cbn in *. now rewrite IH.
    + change (js_join " " (String a h :: h' :: t'))
        with (String a (h ++ " " ++ js_join " " (h' :: t'))).
      change (js_join " " (h :: h' :: t'))
        with (h ++ " " ++ js_join " " (h' :: t')) in IH.
      now rewrite IH.
Qed.
End JsStringFacts.

Section SearchParamsFacts.
Lemma SearchParams_get_set_eq (name value : string) (l : list (string * string)) :
  SearchParams.get name (SearchParams.set name value l) = Some value.
Proof.
  induction l as [|[k v] r IH]; cbn.
  - now rewrite String.eqb_refl.
  - destruct (String.eqb k name) eqn:E; cbn; rewrite E; [reflexivity | exact IH].
Qed.

Lemma SearchParams_get_filter (name other : string) (l : list (string * string)) :
  name <> other ->
  SearchParams.get name
    (List.filter (fun kv => negb (String.eqb (fst kv) other)) l)
  = SearchParams.get name l.
Proof.
  intros Hne. induction l as [|[k v] r IH]; cbn; [reflexivity|].
  destruct (String.eqb k other) eqn:Eo; cbn.
  - apply String.eqb_eq in Eo. subst k.
    destruct (String.eqb other name) eqn:En; [|exact IH].
    apply String.eqb_eq in En. congruence.
  - destruct (String.eqb k name); [reflexivity | exact IH].
Qed.

Lemma SearchParams_get_set_ne (name other value : string)
    (l : list (string * string)) :
  name <> other ->
  SearchParams.get name (SearchParams.set other value l) = SearchParams.get name l.
Proof.
  intros Hne. induction l as [|[k v] r IH]; cbn.
  - destruct (String.eqb other name) eqn:E; [|reflexivity].
    apply String.eqb_eq in E. congruence.
  - destruct (String.eqb k other) eqn:Eo; cbn.
    + apply String.eqb_eq in Eo. subst k.
      destruct (String.eqb other name) eqn:En.
      * apply String.eqb_eq in En. congruence.
      * now apply SearchParams_get_filter.
    + destruct (String.eqb k name); [reflexivity | exact IH].
Qed.
End SearchParamsFacts.

Section ScopeFacts.
Context `{Runtime}.
Import AuthFlow.

(** The [scope] parameter of the URL object that is serialised. *)
Lemma authorizationUrlObject_scope (url : URL) (authServer : AuthServerMetadata)
    (clientId redirectUri state codeChallenge : string)
    (codeChallengeMethod : Pkce.Method) (resourceUri : string)
    (scopes : option (list string)) :
  SearchParams.get "scope"
    (searchParams (authorizationUrlObject url authServer clientId redirectUri state
                     codeChallenge codeChallengeMethod resourceUri scopes))
  = match (match scopes with
           | Some (x :: l) => Some (js_join " " (x :: l))
           | _ => Spec.authServerDefaultScope authServer
           end) with
    | Some value => Some value
    | None => SearchParams.get "scope" (searchParams url)
    end.
Proof.
  assert (Hbase : forall u value,
            SearchParams.get "scope" (searchParams (set_searchParam "scope" value u))
            = Some value).
  { intros u value. cbn. apply SearchParams_get_set_eq. }
  assert (Hother : forall u name value, "scope" <> name ->
            SearchParams.get "scope" (searchParams (set_searchParam name value u))
            = SearchParams.get "scope" (searchParams u)).
  { intros u name value Hne. cbn. now apply SearchParams_get_set_ne. }
  unfold authorizationUrlObject, Spec.authServerDefaultScope.
  destruct scopes as [[|x l]|]; [| rewrite Hbase; reflexivity |];
    (destruct (scopes_supported authServer) as [[|y l']|];
     [| rewrite Hbase; reflexivity |]);
    rewrite !Hother by discriminate; reflexivity.
Qed.

Lemma requestedScopes_scope (config : OAuthConfig) (challengedScopes : option string)
    (protectedResource : ProtectedResourceMetadata) (authServer : AuthServerMetadata) :
  match requestedScopes config challengedScopes protectedResource with
  | Some (x :: l) => Some (js_join " " (x :: l))
  | _ => Spec.authServerDefaultScope authServer
  end
  = Spec.resolvedScope config challengedScopes protectedResource authServer.
Proof.
  unfold requestedScopes, Spec.resolvedScope.
  destruct (truthy_ostring challengedScopes) eqn:Hc.
  - destruct challengedScopes as [cs|]; [|discriminate].
    change (default "" (Some cs)) with cs.
    destruct (js_split_cons " " cs) as (h & t & Hs).
    pose proof (js_join_split cs) as Hj. rewrite Hs in *. cbv beta iota.
    now rewrite Hj.
  - destruct (cfg_scopes config) as [[|x l]|]; try reflexivity.
    destruct (prm_scopes_supported protectedResource) as [[|y l']|]; reflexivity.
Qed.

(** C1, as the code has it. Whenever [initiateAuthFlow] returns, the
    [scope] parameter of the authorization URL is resolved in this order:
    the challenge-derived scopes when a challenge string is given; else the
    configured scopes ([config.scopes]); else, when none are configured, the
    scopes the protected resource advertises; and when the list so chosen is
    absent or empty, the scopes the authorization server advertises.  Only
    when that fails too does the function set no [scope] parameter, and the
    URL then carries whatever the authorization endpoint itself has. *)
Theorem initiateAuthFlow_scope (net : Network) (now : Z) (verifier state : string)
    (serverUrl : string) (config : OAuthConfig)
    (resourceMetadataUrl challengedScopes : option string) (w w' : World)
    (authorizationUrl state' : string) :
  initiateAuthFlow net now verifier state serverUrl config resourceMetadataUrl
    challengedScopes w = (Ok (authorizationUrl, state'), w') ->
  exists protectedResource authServer w1 endpoint url,
    getMetadata net now serverUrl resourceMetadataUrl
      (snd (cleanupExpiredStates now w)) = (Ok (protectedResource, authServer), w1) /\
    new_URL (authorization_endpoint authServer) = Ok endpoint /\
    authorizationUrl = url_toString url /\
    SearchParams.get "scope" (searchParams url)
    = match Spec.resolvedScope config challengedScopes protectedResource authServer with
      | Some value => Some value
      | None => SearchParams.get "scope" (searchParams endpoint)
      end.
Proof.
  unfold initiateAuthFlow. unfold bind at 1. cbn [cleanupExpiredStates modify snd].
  set (w0 := set_pendingStates _ w).
  unfold bind at 1. unfold lift at 1.
  destruct (Discovery.getCanonicalResourceUri serverUrl) as [resourceUri|e];
    [|discriminate].
  unfold bind at 1.
  destruct (getMetadata net now serverUrl resourceMetadataUrl w0)
    as [[[protectedResource authServer]|e] w1] eqn:Hmeta; [|discriminate].
  cbn [fst snd]. unfold bind at 1.
  destruct (getOrRegisterClient net now authServer resourceUri config w1)
    as [[client|e] w2]; [|discriminate].
  cbn [Pkce.generatePkcePair]. unfold bind at 1. cbn [modify].
  unfold bind at 1. unfold lift at 1. unfold buildAuthorizationUrl.
  destruct (new_URL (authorization_endpoint authServer)) as [endpoint|e] eqn:Hurl;
    [|discriminate].
  cbn [ret]. intros [= <- <- <-].
  eexists protectedResource, authServer, w1, endpoint, _.
  split; [reflexivity|]. split; [exact Hurl|]. split; [reflexivity|].
  rewrite authorizationUrlObject_scope, requestedScopes_scope. reflexivity.
Qed.
End ScopeFacts.

(** ** The statements at concrete inputs *)

Section Concrete.
Import Examples.
#[local] Existing Instance example_runtime.

Lemma hasValidTokens_iff_witness :
  TokenManager.hasValidTokens (world_with_tokens 100000) (100000 - 31 * 1000)
    "https://mcp.example.com/api" = true /\
  TokenManager.hasValidTokens (world_with_tokens 100000) (100000 - 29 * 1000)
    "https://mcp.example.com/api" = false.
Proof.
  apply (proj2 (hasValidTokens_iff (world_with_tokens 100000) 0
                  "https://mcp.example.com/api") (api_tokens 100000)).
  vm_compute. reflexivity.
Defined.

Lemma refreshTokens_rejected_clears_witness :
  exists w',
    TokenManager.refreshTokens (respond 401 "Unauthorized" "") 50000 auth_metadata
      "https://mcp.example.com/api" "client-1" None (world_with_tokens 100000)
    = (Throw "Token refresh failed: HTTP 401: Unauthorized", w') /\
    TokenManager.getTokens w' "https://mcp.example.com/api" = None.
Proof.
  destruct (refreshTokens_rejected_clears (respond 401 "Unauthorized" "") 50000
              auth_metadata "https://mcp.example.com/api" "client-1" None
              (world_with_tokens 100000) (api_tokens 100000)
              (mkResponse 401 "Unauthorized" ""))
    as (w' & Hr & _ & Hg).
  - vm_compute. reflexivity.
  - reflexivity.
  - reflexivity.
  - right. reflexivity.
  - exists w'. split; [exact Hr | exact Hg].
Defined.

Lemma refreshTokens_failure_keeps_tokens_witness :
  exists w',
    TokenManager.refreshTokens (respond 503 "Service Unavailable" "") 50000
      auth_metadata "https://mcp.example.com/api" "client-1" None
      (world_with_tokens 100000)
    = (Throw "Token refresh failed: HTTP 503: Service Unavailable", w') /\
    TokenManager.getTokens w' "https://mcp.example.com/api"
    = Some (api_tokens 100000).
Proof.
  destruct (refreshTokens_failure_keeps_tokens
              (respond 503 "Service Unavailable" "") 50000
              auth_metadata "https://mcp.example.com/api" "client-1" None
              (world_with_tokens 100000) (api_tokens 100000)
              (mkResponse 503 "Service Unavailable" ""))
    as (w' & Hr & _ & Hg).
  - vm_compute. reflexivity.
  - reflexivity.
  - reflexivity.
  - reflexivity.
  - discriminate.
  - discriminate.
  - exists w'. split; [exact Hr | exact Hg].
Defined.
Lemma discoverAuthServerMetadata_mismatch_fallback_witness :
  fst (Discovery.discoverAuthServerMetadata tenantA_online 0
         "https://auth.example.com" empty_world) = Ok tenantA_metadata.
Proof.
  apply (proj1 (discoverAuthServerMetadata_mismatch_fallback tenantA_online 0
                  "https://auth.example.com" empty_world
                  ["https://auth.example.com/.well-known/oauth-authorization-server";
                   "https://auth.example.com/.well-known/openid-configuration"]
                  eq_refl eq_refl) tenantA_metadata).
  - vm_compute. reflexivity.
  - intros url md' [<- | [<- | []]] Hfetch; vm_compute in Hfetch.
    + discriminate.
    + injection Hfetch as <-. vm_compute. reflexivity.
Defined.

(** C7 at a failing input: asked for a client for
    [https://mcp.example.com/api], with nothing stored under the exact key,
    the fallback scan returns the client registered for
    [https://mcp.example.com/api-v2], whose key merely starts with the
    same characters. *)
Theorem getRegisteredClient_other_resource :
  JsMap.get
    (Dcr.getClientCacheKey "https://auth.example.com" "https://mcp.example.com/api"
       (Some "http://localhost:3000/callback"))
    (registeredClients world_with_v2_client) = None /\
  fst (Dcr.getRegisteredClient 2000 "https://auth.example.com"
         "https://mcp.example.com/api" (Some "http://localhost:3000/callback")
         world_with_v2_client) = Ok (Some client_v2) /\
  rc_resourceUri client_v2 <> "https://mcp.example.com/api".
Proof.
  split; [vm_compute; reflexivity|].
  split; [vm_compute; reflexivity | discriminate].
Qed.

Lemma registerClient_missing_client_id_witness :
  Dcr.registerClient (respond 200 "OK" "{}") 5000 auth_metadata
    "https://mcp.example.com/api" "http://localhost:3000/callback" "MCP Client"
    None empty_world
  = (Throw "DCR response missing client_id", empty_world) /\
  JsMap.get
    (Dcr.getClientCacheKey "https://auth.example.com" "https://mcp.example.com/api"
       (Some "http://localhost:3000/callback"))
    (registeredClients empty_world) = None.
Proof.
  destruct (registerClient_missing_client_id (respond 200 "OK" "{}") 5000
              auth_metadata "https://mcp.example.com/api"
              "http://localhost:3000/callback" "MCP Client" None
              empty_world empty_world (mkResponse 200 "OK" "{}")
              (mkDCRResponse "" None None))
    as (Hr & Hk & _).
  - reflexivity.
  - vm_compute. reflexivity.
  - reflexivity.
  - reflexivity.
  - reflexivity.
  - reflexivity.
  - split; [exact Hr | exact Hk].
Defined.

(** Against C8 as stated: the answer lacks [client_id], the call throws the
    invalid-response error, and yet the store has changed, because the
    lookup before the request evicted a client whose secret had expired.
    And an answer that lacks [client_id] because it reports an error is
    turned into the "DCR failed" error instead. *)
Lemma registerClient_missing_client_id_evicts :
  (fst (Dcr.registerClient (respond 200 "OK" "{}") 5000 auth_metadata
          "https://mcp.example.com/api" "http://localhost:3000/callback"
          "MCP Client" None world_with_expired_client)
   = Throw "DCR response missing client_id" /\
   registeredClients
     (snd (Dcr.registerClient (respond 200 "OK" "{}") 5000 auth_metadata
             "https://mcp.example.com/api" "http://localhost:3000/callback"
             "MCP Client" None world_with_expired_client))
   <> registeredClients world_with_expired_client) /\
  fst (Dcr.registerClient (respond 400 "Bad Request" "{}") 5000 auth_metadata
         "https://mcp.example.com/api" "http://localhost:3000/callback"
         "MCP Client" None empty_world)
  = Throw "DCR failed: HTTP 400: Bad Request".
Proof.
  split; [split|].
  - vm_compute. reflexivity.
  - vm_compute. discriminate.
  - vm_compute. reflexivity.
Qed.

Lemma registerClient_status_gate_witness :
  Dcr.registerClient (respond 204 "No Content" "") 5000 auth_metadata
    "https://mcp.example.com/api" "http://localhost:3000/callback" "MCP Client"
    None empty_world
  = Dcr.parseAndStoreRegistration 5000 auth_metadata "https://mcp.example.com/api"
      "http://localhost:3000/callback" (mkResponse 204 "No Content" "") empty_world
  /\
  Dcr.registerClient (respond 302 "Found" "") 5000 auth_metadata
    "https://mcp.example.com/api" "http://localhost:3000/callback" "MCP Client"
    None empty_world
  = (Throw "DCR failed: HTTP 302: Found", empty_world).
Proof.
  split.
  - apply (proj1 (registerClient_status_gate (respond 204 "No Content" "") 5000
                    auth_metadata "https://mcp.example.com/api"
                    "http://localhost:3000/callback" "MCP Client" None
                    empty_world empty_world (mkResponse 204 "No Content" "")
                    eq_refl eq_refl eq_refl)).
    cbn. lia.
  - apply (proj2 (registerClient_status_gate (respond 302 "Found" "") 5000
                    auth_metadata "https://mcp.example.com/api"
                    "http://localhost:3000/callback" "MCP Client" None
                    empty_world empty_world (mkResponse 302 "Found" "")
                    eq_refl eq_refl eq_refl)).
    cbn. lia.
Defined.

(** Against C9 as stated: a 202 answer, neither 200 nor 201, is read and
    the client it names is stored and returned. *)
Lemma registerClient_accepts_202 :
  exists client w',
    Dcr.registerClient (respond 202 "Accepted" "<registration of client-1>") 5000
      auth_metadata "https://mcp.example.com/api" "http://localhost:3000/callback"
      "MCP Client" None empty_world = (Ok client, w') /\
    clientId client = "client-1" /\
    JsMap.get
      (Dcr.getClientCacheKey "https://auth.example.com" "https://mcp.example.com/api"
         (Some "http://localhost:3000/callback"))
      (registeredClients w') <> None.
Proof.
  eexists _, _. split; [vm_compute; reflexivity|].
  split; [reflexivity | vm_compute; discriminate].
Qed.
(** Against C1 as stated: scopes are configured explicitly and yet the URL
    carries the challenge-derived scope; and with no configured, challenged
    or resource-advertised scopes the URL still carries a scope parameter,
    the scopes the authorization server advertises. *)
Lemma initiateAuthFlow_challenge_overrides_config :
  (exists url,
     fst (AuthFlow.initiateAuthFlow offline 1000000 "verifier-1" "state-1"
            "https://mcp.example.com/api" (api_config (Some ["files:read"])) None
            (Some "files:write") world_with_metadata)
     = Ok (url_toString url, "state-1") /\
     cfg_scopes (api_config (Some ["files:read"])) = Some ["files:read"] /\
     SearchParams.get "scope" (searchParams url) = Some "files:write") /\
  (exists url,
     fst (AuthFlow.initiateAuthFlow offline 1000000 "verifier-1" "state-1"
            "https://mcp.example.com/api" (api_config None) None None
            world_with_bare_metadata)
     = Ok (url_toString url, "state-1") /\
     SearchParams.get "scope" (searchParams url) = Some "openid profile").
Proof.
  split.
  - exists (AuthFlow.authorizationUrlObject
              (mkURL "https:" "auth.example.com" "" "https://auth.example.com"
                 "/authorize" [])
              auth_metadata "client-1" "http://localhost:3000/callback" "state-1"
              "S256(verifier-1)" Pkce.S256 "https://mcp.example.com/api"
              (Some ["files:write"])).
    split; [vm_compute; reflexivity|].
    split; reflexivity.
  - exists (AuthFlow.authorizationUrlObject
              (mkURL "https:" "auth.example.com" "" "https://auth.example.com"
                 "/authorize" [])
              auth_metadata "client-1" "http://localhost:3000/callback" "state-1"
              "S256(verifier-1)" Pkce.S256 "https://mcp.example.com/api" None).
    split; [vm_compute; reflexivity | reflexivity].
Qed.

Lemma initiateAuthFlow_scope_witness :
  exists url,
    fst (AuthFlow.initiateAuthFlow offline 1000000 "verifier-1" "state-1"
           "https://mcp.example.com/api" (api_config None) None None
           world_with_metadata)
    = Ok (url_toString url, "state-1") /\
    SearchParams.get "scope" (searchParams url) = Some "files:read".
Proof.
  destruct (initiateAuthFlow_scope offline 1000000 "verifier-1" "state-1"
              "https://mcp.example.com/api" (api_config None) None None
              world_with_metadata world_awaiting_callback
              ("https://auth.example.com/authorize?response_type=code"
               ++ "&client_id=client-1&redirect_uri=http://localhost:3000/callback"
               ++ "&state=state-1&code_challenge=S256(verifier-1)"
               ++ "&code_challenge_method=S256"
               ++ "&resource=https://mcp.example.com/api&scope=files:read")
              "state-1")
    as (protectedResource & authServer & w1 & endpoint & url & Hm & He & Hu & Hs).
  - vm_compute. reflexivity.
  - exists url. vm_compute in Hm. injection Hm as <- <- _.
    split.
    + rewrite <- Hu. vm_compute. reflexivity.
    + rewrite Hs. reflexivity.
Defined.

Lemma handleAuthCallback_single_use_witness :
  let w1 := snd (AuthFlow.handleAuthCallback auth_server_online 1599000 "code-1"
                   "state-1" (api_config None) world_awaiting_callback) in
  pendingStates w1 !! "state-1" = None /\
  fst (AuthFlow.handleAuthCallback auth_server_online 1600000 "code-1" "state-1"
         (api_config None) w1)
  = Throw "Invalid or expired OAuth state. Please try authorizing again.".
Proof.
  intros w1.
  destruct (handleAuthCallback_single_use auth_server_online 1599000 "code-1"
              "state-1" (api_config None) world_awaiting_callback pending_state_1)
    as [Hgone Hsecond].
  - vm_compute. reflexivity.
  - split; [exact Hgone|].
    fold w1 in Hsecond. rewrite Hsecond. reflexivity.
Defined.

Lemma handleAuthCallback_ttl_witness :
  fst (AuthFlow.handleAuthCallback auth_server_online
         (1000000 + (9 * 60 + 59) * 1000) "code-1" "state-1" (api_config None)
         world_awaiting_callback)
  = Ok {| accessToken := "at-2"; refreshToken := None; tokenType := "Bearer";
          expiresAt := 5199000; scope := None |} /\
  fst (AuthFlow.handleAuthCallback auth_server_online
         (1000000 + (10 * 60 + 1) * 1000) "code-1" "state-1" (api_config None)
         world_awaiting_callback)
  = Throw "OAuth state has expired. Please try authorizing again.".
Proof.
  destruct (handleAuthCallback_ttl auth_server_online "code-1" "state-1"
              (api_config None) world_awaiting_callback pending_state_1)
    as (_ & _ & Hin & Hout).
  - vm_compute. reflexivity.
  - cbn [createdAt pending_state_1] in Hin, Hout. split.
    + rewrite Hin. vm_compute. reflexivity.
    + rewrite Hout. reflexivity.
Defined.
End Concrete.


(** * Further properties of the modules *)

(** ** Token store *)

Section TokenStoreFacts.
Context `{Runtime}.
Import TokenManager.

Lemma decrypt_encrypt (w : World) (t : string) :
  Spec.tokenCipherSound w -> decrypt w (encrypt w t) = t.
Proof.
  unfold Spec.tokenCipherSound, decrypt, encrypt.
  destruct (tm_encryptionKey w) as [k|]; [|reflexivity].
  intros Hs. destruct (Hs t) as [Hu Hl]. rewrite Hl. exact Hu.
Qed.

Lemma encrypt_truthy (w : World) (t : string) :
  Spec.tokenCipherSound w -> truthy_string t = true ->
  truthy_string (encrypt w t) = true.
Proof.
  unfold Spec.tokenCipherSound, encrypt.
  destruct (tm_encryptionKey w) as [k|]; [|auto].
  intros Hs _. destruct (Hs t) as [_ Hl].
  destruct (seal k t); [discriminate | reflexivity].
Qed.

Lemma getTokens_after_store (w : World) (resourceUri issuer : string)
    (tokens : OAuthTokens) :
  Spec.tokenCipherSound w ->
  getTokens (snd (storeTokens resourceUri tokens issuer w)) resourceUri
  = Some (Spec.storedForm tokens).
Proof.
  intros Hs. unfold getTokens, storeTokens. cbn.
  rewrite lookup_insert_eq. cbn.
  change (decrypt (set_tokenStore _ w)) with (decrypt w).
  unfold Spec.storedForm. rewrite decrypt_encrypt by exact Hs.
  destruct (refreshToken tokens) as [t|]; [|reflexivity]. cbn.
  destruct (truthy_string t) eqn:Ht; [|reflexivity].
  rewrite (encrypt_truthy w t Hs Ht), decrypt_encrypt by exact Hs. reflexivity.
Qed.

(** X1. Tokens stored for a resource are read back as they were stored, an
    empty refresh token being dropped, together with the issuer they were
    stored with; the tokens of every other resource are untouched. *)
Theorem storeTokens_getTokens (w : World) (resourceUri issuer : string)
    (tokens : OAuthTokens) :
  Spec.tokenCipherSound w ->
  let w' := snd (storeTokens resourceUri tokens issuer w) in
  getTokens w' resourceUri = Some (Spec.storedForm tokens) /\
  getTokenIssuer w' resourceUri
  = (if truthy_string issuer then Some issuer else None) /\
  forall other, other <> resourceUri -> getTokens w' other = getTokens w other.
Proof.
  intros Hs w'. split; [apply getTokens_after_store, Hs|]. split.
  - unfold getTokenIssuer, w', storeTokens. cbn. rewrite lookup_insert_eq.
    reflexivity.
  - intros other Hne. unfold getTokens, w', storeTokens. cbn.
    rewrite lookup_insert_ne by congruence. reflexivity.
Qed.

(** X2. [removeTokens] tells whether tokens were stored for the resource,
    leaves none for it, and does not touch the tokens of other resources. *)
Theorem removeTokens_spec (w : World) (resourceUri : string) :
  fst (removeTokens resourceUri w)
  = Ok (bool_decide (is_Some (getTokens w resourceUri))) /\
  getTokens (snd (removeTokens resourceUri w)) resourceUri = None /\
  forall other, other <> resourceUri ->
    getTokens (snd (removeTokens resourceUri w)) other = getTokens w other.
Proof.
  split; [|split].
  - unfold removeTokens, getTokens. cbn. f_equal.
    destruct (tokenStore w !! resourceUri); reflexivity.
  - apply getTokens_removed.
  - intros other Hne. unfold removeTokens, getTokens. cbn.
    rewrite lookup_delete_ne by congruence. reflexivity.
Qed.

(** X3. The refresh window contains the invalidity window: stored tokens
    that are not valid any more (30 s buffer) always need a refresh (5 min
    buffer), and a resource without tokens neither is valid nor needs one. *)
Theorem invalid_tokens_need_refresh (w : World) (now : Z) (resourceUri : string) :
  (getTokens w resourceUri = None ->
   hasValidTokens w now resourceUri = false /\
   needsRefresh w now resourceUri = false /\
   canRefresh w resourceUri = false) /\
  (is_Some (getTokens w resourceUri) ->
   hasValidTokens w now resourceUri = false ->
   needsRefresh w now resourceUri = true).
Proof.
  unfold hasValidTokens, needsRefresh, canRefresh. split.
  - intros ->. repeat split.
  - intros [tokens ->]. cbn zeta. intros Hv.
    apply Z.ltb_lt. rewrite Z.gtb_ltb in Hv. apply Z.ltb_ge in Hv. lia.
Qed.

(** A code exchange writes nothing, and an access token it returns is not
    empty. *)
Lemma exchangeCodeForTokens_facts (net : Network) (now : Z)
    (metadata : AuthServerMetadata) (code redirectUri codeVerifier clientId : string)
    (clientSecret resourceUri : option string) (w : World) :
  snd (exchangeCodeForTokens net now metadata code redirectUri codeVerifier
         clientId clientSecret resourceUri w) = w /\
  forall tokens,
    fst (exchangeCodeForTokens net now metadata code redirectUri codeVerifier
           clientId clientSecret resourceUri w) = Ok tokens ->
    truthy_string (accessToken tokens) = true.
Proof.
  unfold exchangeCodeForTokens.
  destruct (net (POST (token_endpoint metadata))) as [e|response];
    [split; [reflexivity | discriminate]|].
  destruct (negb (response_ok response)); [split; [reflexivity | discriminate]|].
  unfold bind, lift.
  destruct (json_Token (body response)) as [tr|e];
    [|split; [reflexivity | discriminate]].
  destruct (truthy_string (access_token tr)) eqn:Ha; cbn [negb];
    [|split; [reflexivity | discriminate]].
  split; [reflexivity|]. cbn. intros tokens [= <-]. exact Ha.
Qed.

(** X4. [exchangeCodeForTokens] never writes to the module state, and the
    tokens it returns have a non-empty access token, a non-empty token type
    ("Bearer" when the server names none) and expire [expires_in] seconds
    after the clock reading, or one hour after it when [expires_in] is
    absent or zero. *)
Theorem exchangeCodeForTokens_result (net : Network) (now : Z)
    (metadata : AuthServerMetadata) (code redirectUri codeVerifier clientId : string)
    (clientSecret resourceUri : option string) (w : World) :
  snd (exchangeCodeForTokens net now metadata code redirectUri codeVerifier
         clientId clientSecret resourceUri w) = w /\
  forall tokens,
    fst (exchangeCodeForTokens net now metadata code redirectUri codeVerifier
           clientId clientSecret resourceUri w) = Ok tokens ->
    truthy_string (accessToken tokens) = true /\
    truthy_string (tokenType tokens) = true /\
    exists response tokenResponse,
      net (POST (token_endpoint metadata)) = Responded response /\
      response_ok response = true /\
      json_Token (body response) = Ok tokenResponse /\
      accessToken tokens = access_token tokenResponse /\
      expiresAt tokens
      = match expires_in tokenResponse with
        | Some n => if n =? 0 then now + 3600 * 1000 else now + n * 1000
        | None => now + 3600 * 1000
        end.
Proof.
  unfold exchangeCodeForTokens.
  destruct (net (POST (token_endpoint metadata))) as [e|response];
    [split; [reflexivity | discriminate]|].
  destruct (response_ok response) eqn:Hok; cbn [negb];
    [|split; [reflexivity | discriminate]].
  unfold bind, lift.
  destruct (json_Token (body response)) as [tr|e] eqn:Hj;
    [|split; [reflexivity | discriminate]].
  destruct (truthy_string (access_token tr)) eqn:Ha; cbn [negb];
    [|split; [reflexivity | discriminate]].
  split; [reflexivity|]. cbn. intros tokens [= <-]. cbn.
  split; [exact Ha|]. split.
  - destruct (truthy_string (token_type tr)) eqn:Ht; [exact Ht | reflexivity].
  - exists response, tr. repeat split; try assumption.
    destruct (expires_in tr) as [n|]; [|reflexivity].
    destruct (n =? 0); reflexivity.
Qed.
End TokenStoreFacts.

Section RefreshFacts.
Context `{Runtime}.
Import TokenManager.

Lemma js_or_truthy (a b : option string) :
  truthy_ostring b = true -> truthy_ostring (js_or a b) = true.
Proof.
  intros Hb. unfold js_or. destruct (truthy_ostring a) eqn:Ha; assumption.
Qed.

(** What a refresh that does not throw has done. *)
Lemma refreshTokens_Ok (net : Network) (now : Z) (metadata : AuthServerMetadata)
    (resourceUri clientId : string) (clientSecret : option string)
    (w w' : World) (tokens : OAuthTokens) :
  refreshTokens net now metadata resourceUri clientId clientSecret w
  = (Ok tokens, w') ->
  exists current response tokenResponse,
    getTokens w resourceUri = Some current /\
    truthy_ostring (refreshToken current) = true /\
    net (POST (token_endpoint metadata)) = Responded response /\
    response_ok response = true /\
    json_Token (body response) = Ok tokenResponse /\
    truthy_string (access_token tokenResponse) = true /\
    tokens = tokensOfResponse now tokenResponse
               (js_or (refresh_token tokenResponse) (refreshToken current))
               (js_or (tr_scope tokenResponse) (scope current)) /\
    w' = match getTokenIssuer w resourceUri with
         | Some issuer => snd (storeTokens resourceUri tokens issuer w)
         | None => w
         end.
Proof.
  unfold refreshTokens, bind, gets.
  destruct (getTokens w resourceUri) as [current|] eqn:Hget; [|discriminate].
  destruct (truthy_ostring (refreshToken current)) eqn:Hrt; cbn [negb];
    [|discriminate].
  destruct (net (POST (token_endpoint metadata))) as [e|response] eqn:Hnet;
    [discriminate|].
  destruct (response_ok response) eqn:Hok; cbn [negb].
  2:{ destruct ((status response =? 400) || (status response =? 401));
        discriminate. }
  unfold lift. destruct (json_Token (body response)) as [tr|e] eqn:Hj;
    [|discriminate].
  destruct (truthy_string (access_token tr)) eqn:Ha; cbn [negb]; [|discriminate].
  intros Hres. exists current, response, tr.
  destruct (getTokenIssuer w resourceUri) as [issuer|];
    cbn in Hres; injection Hres as <- <-; repeat split; assumption.
Qed.

(** X5. A refresh that succeeds returns tokens that still carry a refresh
    token: the one the server sent, or else the previous one.  With an issuer
    recorded for the resource the new tokens replace the stored ones; with
    none recorded they are returned but not stored. *)
Theorem refreshTokens_success (net : Network) (now : Z)
    (metadata : AuthServerMetadata) (resourceUri clientId : string)
    (clientSecret : option string) (w w' : World) (tokens : OAuthTokens) :
  refreshTokens net now metadata resourceUri clientId clientSecret w
  = (Ok tokens, w') ->
  truthy_ostring (refreshToken tokens) = true /\
  truthy_string (accessToken tokens) = true /\
  (forall issuer, getTokenIssuer w resourceUri = Some issuer ->
     Spec.tokenCipherSound w -> getTokens w' resourceUri = Some tokens) /\
  (getTokenIssuer w resourceUri = None -> w' = w).
Proof.
  intros Hres.
  destruct (refreshTokens_Ok _ _ _ _ _ _ _ _ _ Hres)
    as (current & response & tr & Hget & Hrt & Hnet & Hok & Hj & Ha & Ht & Hw).
  assert (Hkeep : truthy_ostring (refreshToken tokens) = true).
  { rewrite Ht. cbn. now apply js_or_truthy. }
  split; [exact Hkeep|]. split; [rewrite Ht; exact Ha|]. split.
  - intros issuer Hi Hs. rewrite Hw, Hi, getTokens_after_store by exact Hs.
    f_equal. unfold Spec.storedForm. rewrite Hkeep. now destruct tokens.
  - intros Hi. now rewrite Hw, Hi.
Qed.

End RefreshFacts.

(** ** Discovery caches *)

Section DiscoveryCacheFacts.
Context `{Runtime}.
Import Discovery.

(** The loop writes the cache entry of the document it returns and nothing
    else. *)
Lemma tryAuthServerUrls_world (net : Network) (now : Z) (requested : string)
    (urls : list string) :
  forall lastError mm w,
    match tryAuthServerUrls net now requested urls lastError mm w with
    | (Ok md, w') =>
        w' = set_authServerMetadataCache
               (insert requested (mkCacheEntry md (now + CACHE_TTL_MS))) w
    | (Throw _, w') => w' = w
    end.
Proof.
  induction urls as [|u rest IH]; intros lastError mm w; cbn.
  - destruct mm; reflexivity.
  - destruct (fetchAuthServerMetadata net u) as [m|e]; [|apply IH].
    destruct (issuerMismatch requested m); [apply IH | reflexivity].
Qed.

Lemma tryAuthServerUrls_matching (net : Network) (now : Z) (requested : string)
    (urls : list string) :
  forall lastError mm w md,
    Spec.firstMatching net requested urls = Some md ->
    fst (tryAuthServerUrls net now requested urls lastError mm w) = Ok md.
Proof.
  induction urls as [|u rest IH]; intros lastError mm w md; cbn; [discriminate|].
  destruct (fetchAuthServerMetadata net u) as [m|e]; [|apply IH].
  destruct (issuerMismatch requested m); [apply IH|].
  now intros [= ->].
Qed.

Lemma fresh_after_insert (w : World) (now now' : Z) (requested : string)
    (md : AuthServerMetadata) :
  now' < now + CACHE_TTL_MS ->
  freshAuthServerMetadata
    (set_authServerMetadataCache
       (insert requested (mkCacheEntry md (now + CACHE_TTL_MS))) w)
    now' requested = Some md.
Proof.
  intros Hlt. unfold freshAuthServerMetadata. cbn.
  rewrite lookup_insert_eq. cbn.
  destruct (now + CACHE_TTL_MS >? now') eqn:E; [reflexivity|].
  rewrite Z.gtb_ltb in E. apply Z.ltb_ge in E. lia.
Qed.

(** X7. When the candidate URLs are tried, a structurally valid document
    whose issuer matches the requested one is preferred to any mismatched
    document met earlier: the first matching document in candidate order is
    returned. *)
Theorem discoverAuthServerMetadata_prefers_match (net : Network) (now : Z)
    (requested : string) (w : World) (urls : list string)
    (md : AuthServerMetadata) :
  freshAuthServerMetadata w now requested = None ->
  getAuthServerMetadataUrls requested = Ok urls ->
  Spec.firstMatching net requested urls = Some md ->
  fst (discoverAuthServerMetadata net now requested w) = Ok md /\
  issuerMismatch requested md = false.
Proof.
  intros Hcache Hurls Hfirst. unfold discoverAuthServerMetadata.
  rewrite Hcache, Hurls. split; [now apply tryAuthServerUrls_matching|].
  clear Hurls. induction urls as [|u rest IH]; cbn in Hfirst; [discriminate|].
  destruct (fetchAuthServerMetadata net u) as [m|e]; [|auto].
  destruct (issuerMismatch requested m) eqn:Hm; [auto|].
  now injection Hfirst as <-.
Qed.

(** X8. Authorization-server discovery caches what it returns under the
    requested issuer: repeated at the same clock reading it answers from the
    cache whatever the network does, and after a discovery that went to the
    network it does so for the next hour.  A discovery that throws changes
    nothing. *)
Theorem discoverAuthServerMetadata_cached (net : Network) (now : Z)
    (requested : string) (w : World) :
  (forall md w',
     discoverAuthServerMetadata net now requested w = (Ok md, w') ->
     (forall net', discoverAuthServerMetadata net' now requested w' = (Ok md, w')) /\
     (freshAuthServerMetadata w now requested = None ->
      forall net' now', now' < now + 3600 * 1000 ->
        discoverAuthServerMetadata net' now' requested w' = (Ok md, w'))) /\
  (forall e w',
     discoverAuthServerMetadata net now requested w = (Throw e, w') -> w' = w).
Proof.
  unfold discoverAuthServerMetadata at 1 4.
  destruct (freshAuthServerMetadata w now requested) as [d|] eqn:Hfresh.
  - split; [|discriminate]. intros md w' [= <- <-]. split; [|discriminate].
    intros net'. unfold discoverAuthServerMetadata. now rewrite Hfresh.
  - destruct (getAuthServerMetadataUrls requested) as [urls|e0];
      [|split; [discriminate | now intros e w' [= _ <-]]].
    pose proof (tryAuthServerUrls_world net now requested urls None None w) as Hw.
    destruct (tryAuthServerUrls net now requested urls None None w)
      as [[md0|e0] w0]; (split; [|try discriminate]).
    + intros md w' [= <- <-]. subst w0.
      assert (Hhit : forall net' now', now' < now + CACHE_TTL_MS ->
                discoverAuthServerMetadata net' now' requested
                  (set_authServerMetadataCache
                     (insert requested (mkCacheEntry md0 (now + CACHE_TTL_MS))) w)
                = (Ok md0,
                   set_authServerMetadataCache
                     (insert requested (mkCacheEntry md0 (now + CACHE_TTL_MS))) w)).
      { intros net' now' Hlt. unfold discoverAuthServerMetadata.
        now rewrite fresh_after_insert. }
      split.
      * intros net'. apply Hhit. unfold CACHE_TTL_MS. lia.
      * intros _ net' now' Hlt. apply Hhit. exact Hlt.
    + discriminate.
    + intros e w' [= _ <-]. exact Hw.
Qed.
End DiscoveryCacheFacts.

Section ResourceMetadataFacts.
Context `{Runtime}.
Import Discovery.

Lemma fetchProtectedResourceMetadata_valid (net : Network) (url : string)
    (md : ProtectedResourceMetadata) :
  fetchProtectedResourceMetadata net url = Ok md ->
  truthy_string (resource md) = true /\ authorization_servers md <> [].
Proof.
  unfold fetchProtectedResourceMetadata.
  destruct (net (GET url)) as [e|response]; [discriminate|].
  destruct (negb (response_ok response)); [discriminate|].
  destruct (json_PRM (body response)) as [m|e]; [|discriminate].
  destruct (truthy_string (resource m)) eqn:Hr; cbn [negb orb]; [|discriminate].
  destruct (authorization_servers m) as [|a l] eqn:Ha; cbn; [discriminate|].
  intros [= <-]. split; [exact Hr | rewrite Ha; discriminate].
Qed.

Lemma tryProtectedResourceUrls_world (net : Network) (now : Z) (cacheKey : string)
    (urls : list string) :
  forall lastError w,
    match tryProtectedResourceUrls net now cacheKey urls lastError w with
    | (Ok md, w') =>
        (exists url, In url urls /\ fetchProtectedResourceMetadata net url = Ok md) /\
        w' = set_protectedResourceMetadataCache
               (insert cacheKey (mkCacheEntry md (now + CACHE_TTL_MS))) w
    | (Throw _, w') => w' = w
    end.
Proof.
  induction urls as [|u rest IH]; intros lastError w; cbn; [reflexivity|].
  destruct (fetchProtectedResourceMetadata net u) as [m|e] eqn:Hu.
  - cbn. split; [|reflexivity]. exists u. split; [now left | exact Hu].
  - specialize (IH (Some e) w).
    destruct (tryProtectedResourceUrls net now cacheKey rest (Some e) w)
      as [[md|e'] w']; [|exact IH].
    destruct IH as [(url & Hin & Hf) Hw]. split; [|exact Hw].
    exists url. split; [now right | exact Hf].
Qed.

(** X9. Protected-resource discovery that goes to the network returns only
    a document with a non-empty [resource] and at least one authorization
    server, and caches it for an hour under the explicit metadata URL, or
    else the server URL: until then the same call is answered from the cache
    whatever the network does.  A discovery that throws changes nothing. *)
Theorem discoverProtectedResourceMetadata_cached (net : Network) (now : Z)
    (serverUrl : string) (resourceMetadataUrl : option string) (w : World) :
  Spec.freshProtectedResourceMetadata w now
    (Spec.prmCacheKey serverUrl resourceMetadataUrl) = None ->
  (forall md w',
     discoverProtectedResourceMetadata net now serverUrl resourceMetadataUrl w
     = (Ok md, w') ->
     truthy_string (resource md) = true /\
     authorization_servers md <> [] /\
     forall net' now', now' < now + 3600 * 1000 ->
       discoverProtectedResourceMetadata net' now' serverUrl resourceMetadataUrl w'
       = (Ok md, w')) /\
  (forall e w',
     discoverProtectedResourceMetadata net now serverUrl resourceMetadataUrl w
     = (Throw e, w') -> w' = w).
Proof.
  intros Hfresh. unfold discoverProtectedResourceMetadata at 1 3.
  change (match protectedResourceMetadataCache w !! _ with
          | Some cached => _ | None => None end)
    with (Spec.freshProtectedResourceMetadata w now
            (Spec.prmCacheKey serverUrl resourceMetadataUrl)).
  rewrite Hfresh.
  set (key := if truthy_ostring resourceMetadataUrl
              then default "" resourceMetadataUrl else serverUrl).
  destruct (if truthy_ostring resourceMetadataUrl
            then Ok [default "" resourceMetadataUrl]
            else getProtectedResourceMetadataUrls serverUrl) as [urls|e0];
    [|split; [discriminate | now intros e w' [= _ <-]]].
  pose proof (tryProtectedResourceUrls_world net now key urls None w) as Hw.
  destruct (tryProtectedResourceUrls net now key urls None w) as [[md0|e0] w0].
  - split; [|discriminate]. intros md w' [= <- <-].
    destruct Hw as [(url & _ & Hf) ->].
    destruct (fetchProtectedResourceMetadata_valid _ _ _ Hf) as [Hr Ha].
    split; [exact Hr|]. split; [exact Ha|].
    intros net' now' Hlt. unfold discoverProtectedResourceMetadata.
    fold key. cbn. rewrite lookup_insert_eq. cbn.
    destruct (now + CACHE_TTL_MS >? now') eqn:E; [reflexivity|].
    rewrite Z.gtb_ltb in E. apply Z.ltb_ge in E. unfold CACHE_TTL_MS in E. lia.
  - split; [discriminate|]. intros e w' [= _ <-]. exact Hw.
Qed.

(** X10. With an explicit metadata URL, as one taken from a WWW-Authenticate
    challenge, protected-resource discovery asks that URL only: the outcome
    does not depend on the server URL, which need not even parse, nor on
    what the network answers at any other URL. *)
Theorem discoverProtectedResourceMetadata_explicit_url (net net' : Network)
    (now : Z) (serverUrl serverUrl' metadataUrl : string) (w : World) :
  truthy_string metadataUrl = true ->
  net (GET metadataUrl) = net' (GET metadataUrl) ->
  discoverProtectedResourceMetadata net now serverUrl (Some metadataUrl) w
  = discoverProtectedResourceMetadata net' now serverUrl' (Some metadataUrl) w.
Proof.
  intros Ht Hnet. unfold discoverProtectedResourceMetadata. cbn. rewrite Ht.
  destruct (protectedResourceMetadataCache w !! metadataUrl) as [cached|];
    cbn; [destruct (cache_expiresAt cached >? now); [reflexivity|]|];
    unfold fetchProtectedResourceMetadata; rewrite Hnet; reflexivity.
Qed.
End ResourceMetadataFacts.

(** ** PKCE *)

Section PkceFacts.
Import Pkce.

Lemma includes_In (l : list string) (x : string) :
  Discovery.includes l x = true <-> In x l.
Proof.
  unfold Discovery.includes. rewrite existsb_exists. split.
  - intros (y & Hin & Heq). apply String.eqb_eq in Heq. now subst.
  - intros Hin. exists x. split; [exact Hin | apply String.eqb_refl].
Qed.

(** X11. [selectPkceMethod] chooses S256 whenever the server lists it or
    lists nothing, chooses plain only when plain is listed and S256 is not,
    and gives up only on a non-empty list with neither.  Whenever
    [verifyPkceSupport] accepts the metadata, the method chosen is one the
    server lists. *)
Theorem selectPkceMethod_spec (metadata : AuthServerMetadata) :
  let methods := code_challenge_methods_supported metadata in
  (selectPkceMethod methods = Some S256 <->
   methods = None \/ methods = Some [] \/
   exists l, methods = Some l /\ In "S256" l) /\
  (selectPkceMethod methods = Some plain <->
   exists l, methods = Some l /\ In "plain" l /\ ~ In "S256" l) /\
  (selectPkceMethod methods = None <->
   exists l, methods = Some l /\ l <> [] /\ ~ In "S256" l /\ ~ In "plain" l) /\
  (Discovery.verifyPkceSupport metadata = true ->
   exists m l, selectPkceMethod methods = Some m /\ methods = Some l /\
               In (method_name m) l).
Proof.
  intros methods. unfold selectPkceMethod, Discovery.verifyPkceSupport.
  fold methods. destruct methods as [l|].
  2:{ split; [|split; [|split]].
      - split; [intros _; now left | reflexivity].
      - split; [discriminate | intros (l & Hl & _); discriminate].
      - split; [discriminate | intros (l & Hl & _); discriminate].
      - discriminate. }
  destruct l as [|x l'].
  { cbn. split; [|split; [|split]].
    - split; [intros _; right; now left | reflexivity].
    - split; [discriminate | intros (l & [= <-] & [] & _)].
    - split; [discriminate | intros (l & [= <-] & Hne & _); now contradiction Hne].
    - discriminate. }
  set (l := x :: l'). change (Nat.eqb (length l) 0) with false. cbv iota.
  destruct (Discovery.includes l "S256") eqn:Hs.
  - apply includes_In in Hs. split; [|split; [|split]].
    + split; [|reflexivity].
      intros _. right. right. exists l. split; [reflexivity | exact Hs].
    + split; [discriminate | intros (l0 & [= <-] & _ & Hn); contradiction].
    + split; [discriminate | intros (l0 & [= <-] & _ & Hn & _); contradiction].
    + intros _. exists S256, l. repeat split. exact Hs.
  - assert (Hns : ~ In "S256" l).
    { intros Hin. apply includes_In in Hin. congruence. }
    destruct (Discovery.includes l "plain") eqn:Hp.
    + apply includes_In in Hp. split; [|split; [|split]].
      * split; [discriminate|].
        intros [Hn | [Hn | (l0 & [= <-] & Hin)]]; try discriminate. contradiction.
      * split; [|reflexivity]. intros _. exists l. repeat split; assumption.
      * split; [discriminate | intros (l0 & [= <-] & _ & _ & Hn); contradiction].
      * intros _. exists plain, l. repeat split. exact Hp.
    + assert (Hnp : ~ In "plain" l).
      { intros Hin. apply includes_In in Hin. congruence. }
      split; [|split; [|split]].
      * split; [discriminate|].
        intros [Hn | [Hn | (l0 & [= <-] & Hin)]]; try discriminate. contradiction.
      * split; [discriminate | intros (l0 & [= <-] & Hin & _); contradiction].
      * split; [|reflexivity].
        intros _. exists l. repeat split; try assumption. discriminate.
      * discriminate.
Qed.

Lemma get_in_charset (s : string) :
  forall n, (n < String.length s)%nat ->
    exists c, String.get n s = Some c /\ In c (list_ascii_of_string s).
Proof.
  induction s as [|a s IH]; intros n Hn; cbn in Hn; [lia|].
  destruct n as [|n]; cbn.
  - exists a. split; [reflexivity | now left].
  - destruct (IH n) as (c & Hg & Hin); [lia|].
    exists c. split; [exact Hg | now right].
Qed.

Lemma charsetAt_mod (b : N) :
  exists c,
    charsetAt (N.to_nat (b mod N.of_nat (String.length CODE_VERIFIER_CHARSET)))
    = String c EmptyString /\
    In c (list_ascii_of_string CODE_VERIFIER_CHARSET).
Proof.
  unfold charsetAt.
  destruct (get_in_charset CODE_VERIFIER_CHARSET
              (N.to_nat (b mod N.of_nat (String.length CODE_VERIFIER_CHARSET))))
    as (c & Hg & Hin).
  - change (String.length CODE_VERIFIER_CHARSET) with 66%nat.
    pose proof (N.mod_upper_bound b (N.of_nat 66)). lia.
  - exists c. rewrite Hg. split; [reflexivity | exact Hin].
Qed.

Lemma verifierOfBytes_spec (bytes : list N) :
  String.length (verifierOfBytes bytes) = length bytes /\
  forall c, In c (list_ascii_of_string (verifierOfBytes bytes)) ->
            In c (list_ascii_of_string CODE_VERIFIER_CHARSET).
Proof.
  induction bytes as [|b rest [IHl IHc]]; [split; [reflexivity | intros c []]|].
  cbn [verifierOfBytes]. destruct (charsetAt_mod b) as (c0 & -> & Hin).
  change (String c0 EmptyString ++ verifierOfBytes rest)
    with (String c0 (verifierOfBytes rest)).
  split.
  - cbn [String.length length]. now rewrite IHl.
  - cbn [list_ascii_of_string]. intros c [<- | Hc]; [exact Hin | now apply IHc].
Qed.

(** X12. [generateCodeVerifier(length)] throws when [length] is below 43 or
    above 128; otherwise it returns a string of exactly [length] characters,
    each one from the unreserved character set of RFC 7636, whatever bytes
    the random source yields. *)
Theorem generateCodeVerifier_spec (len : Z) (randomBytes : list N) :
  length randomBytes = Z.to_nat len ->
  (43 <= len <= 128 ->
   exists verifier,
     generateCodeVerifier len randomBytes = Ok verifier /\
     Z.of_nat (String.length verifier) = len /\
     forall c, In c (list_ascii_of_string verifier) ->
               In c (list_ascii_of_string CODE_VERIFIER_CHARSET)) /\
  (len < 43 \/ len > 128 ->
   generateCodeVerifier len randomBytes
   = Throw "Code verifier length must be between 43 and 128 characters").
Proof.
  intros Hlen. unfold generateCodeVerifier. split.
  - intros Hr.
    assert (E : (len <? 43) || (len >? 128) = false).
    { apply orb_false_iff. split; [apply Z.ltb_ge; lia|].
      rewrite Z.gtb_ltb. apply Z.ltb_ge. lia. }
    rewrite E. eexists. split; [reflexivity|].
    destruct (verifierOfBytes_spec (take (Z.to_nat len) randomBytes)) as [Hl Hc].
    split; [|exact Hc].
    rewrite Hl, length_take, Hlen. lia.
  - intros Hr.
    assert (E : (len <? 43) || (len >? 128) = true).
    { apply orb_true_iff. destruct Hr; [left; apply Z.ltb_lt; lia|].
      right. rewrite Z.gtb_ltb. apply Z.ltb_lt. lia. }
    now rewrite E.
Qed.
End PkceFacts.

(** ** Client registry *)

Section JsMapMoreFacts.
Context {V : Type}.

Lemma JsMap_get_set_eq (k : string) (v : V) (m : list (string * V)) :
  JsMap.get k (JsMap.set k v m) = Some v.
Proof.
  induction m as [|[k' v'] r IH]; cbn.
  - now rewrite String.eqb_refl.
  - destruct (String.eqb k' k) eqn:E; cbn; rewrite E; [reflexivity | exact IH].
Qed.

Lemma JsMap_get_delete_ne (k k' : string) (m : list (string * V)) :
  k <> k' -> JsMap.get k (JsMap.delete k' m) = JsMap.get k m.
Proof.
  intros Hne. induction m as [|[k0 v0] r IH]; cbn; [reflexivity|].
  destruct (String.eqb k0 k') eqn:E'; cbn.
  - apply String.eqb_eq in E'. subst k0.
    destruct (String.eqb k' k) eqn:E; [|exact IH].
    apply String.eqb_eq in E. congruence.
  - destruct (String.eqb k0 k); [reflexivity | exact IH].
Qed.


End JsMapMoreFacts.

Section StringFacts.
Lemma append_cons (c : ascii) (s t : string) : String c s ++ t = String c (s ++ t).
Proof. reflexivity. Qed.

Lemma append_inv_head (s a b : string) : s ++ a = s ++ b -> a = b.
Proof.
  induction s as [|c s IH]; [auto|]. rewrite !append_cons. intros [= Heq]. auto.
Qed.


Lemma append_assoc (a b c : string) : (a ++ b) ++ c = a ++ (b ++ c).
Proof.
  induction a as [|x a IH]; [reflexivity|]. rewrite !append_cons. now rewrite IH.
Qed.

Lemma append_nil_r (s : string) : s ++ "" = s.
Proof.
  induction s as [|c s IH]; [reflexivity|]. rewrite append_cons. now rewrite IH.
Qed.
End StringFacts.

Section RegistryFacts.
Context `{Runtime}.
Import Dcr.

Lemma dcr_decrypt_encrypt (w : World) (t : string) :
  Spec.clientCipherSound w -> decrypt w (encrypt w t) = t.
Proof.
  unfold Spec.clientCipherSound, decrypt, encrypt.
  destruct (dcr_encryptionKey w) as [k|]; [|reflexivity].
  intros Hs. destruct (Hs t) as [Hu Hl]. rewrite Hl. exact Hu.
Qed.

Lemma dcr_encrypt_truthy (w : World) (t : string) :
  Spec.clientCipherSound w -> truthy_string t = true ->
  truthy_string (encrypt w t) = true.
Proof.
  unfold Spec.clientCipherSound, encrypt.
  destruct (dcr_encryptionKey w) as [k|]; [|auto].
  intros Hs _. destruct (Hs t) as [_ Hl].
  destruct (seal k t); [discriminate | reflexivity].
Qed.


Lemma cacheKey_with_redirect (issuer resourceUri redirectUri : string) :
  truthy_string redirectUri = true ->
  getClientCacheKey issuer resourceUri (Some redirectUri)
  = (issuer ++ "|" ++ resourceUri) ++ "|" ++ redirectUri.
Proof.
  intros Ht. unfold getClientCacheKey. cbn. rewrite Ht.
  now rewrite !append_assoc.
Qed.

(** A lookup right after a store finds the stored client. *)
Lemma getRegisteredClient_after_store (now now' : Z)
    (issuer resourceUri redirectUri : string) (response : DCRResponse) (w : World) :
  Spec.clientCipherSound w ->
  truthy_string redirectUri = true ->
  secretExpired (Spec.registeredForm now issuer resourceUri response) now' = false ->
  let w' := snd (storeRegisteredClient now issuer resourceUri redirectUri response w) in
  getRegisteredClient now' issuer resourceUri (Some redirectUri) w'
  = (Ok (Some (Spec.registeredForm now issuer resourceUri response)), w').
Proof.
  intros Hs Ht Hexp w'. unfold getRegisteredClient. cbn [truthy_ostring].
  rewrite Ht. unfold w', storeRegisteredClient. cbn [snd].
  cbn [registeredClients set_registeredClients].
  rewrite JsMap_get_set_eq.
  match goal with
  | |- context [secretExpired ?c now'] =>
      change (secretExpired c now')
        with (secretExpired (Spec.registeredForm now issuer resourceUri response) now')
  end.
  rewrite Hexp. f_equal. f_equal. f_equal.
  unfold withDecryptedSecret, Spec.registeredForm. cbn. f_equal.
  change (decrypt (set_registeredClients _ w)) with (decrypt w).
  destruct (client_secret response) as [c|]; [|reflexivity]. cbn.
  destruct (truthy_string c) eqn:Hc; [|reflexivity].
  now rewrite (dcr_encrypt_truthy w c Hs Hc), dcr_decrypt_encrypt.
Qed.

Lemma JsMap_get_set_ne (k k' : string) (v : RegisteredClient)
    (m : list (string * RegisteredClient)) :
  k <> k' -> JsMap.get k (JsMap.set k' v m) = JsMap.get k m.
Proof.
  intros Hne. induction m as [|[k0 v0] r IH]; cbn.
  - destruct (String.eqb k' k) eqn:E; [|reflexivity].
    apply String.eqb_eq in E. congruence.
  - destruct (String.eqb k0 k') eqn:E'; cbn.
    + apply String.eqb_eq in E'. subst k0.
      destruct (String.eqb k' k) eqn:E; [|reflexivity].
      apply String.eqb_eq in E. congruence.
    + destruct (String.eqb k0 k); [reflexivity | exact IH].
Qed.

(** X13. A client stored for (issuer, resource, redirect URI) with a
    non-empty redirect URI is found again by a lookup with the same three
    arguments, with its secret decrypted, as long as its secret has not
    expired; the lookup then changes nothing.  Storing it leaves the entries
    under all other keys as they were. *)
Theorem storeRegisteredClient_getRegisteredClient (now now' : Z)
    (issuer resourceUri redirectUri : string) (response : DCRResponse) (w : World) :
  Spec.clientCipherSound w ->
  truthy_string redirectUri = true ->
  let w' := snd (storeRegisteredClient now issuer resourceUri redirectUri response w) in
  (secretExpired (Spec.registeredForm now issuer resourceUri response) now' = false ->
   getRegisteredClient now' issuer resourceUri (Some redirectUri) w'
   = (Ok (Some (Spec.registeredForm now issuer resourceUri response)), w')) /\
  (forall key,
     key <> getClientCacheKey issuer resourceUri (Some redirectUri) ->
     JsMap.get key (registeredClients w') = JsMap.get key (registeredClients w)).
Proof.
  intros Hs Ht w'. split.
  - intros Hexp. now apply getRegisteredClient_after_store.
  - intros key Hne. unfold w', storeRegisteredClient. cbn.
    now apply JsMap_get_set_ne.
Qed.



(** X15. [removeRegisteredClient(issuer, resourceUri)] deletes the entry
    keyed by issuer and resource alone, so it never removes a client that
    was stored with a non-empty redirect URI: the entry under the key of
    (issuer, resource, redirect URI) is the same after the call as before. *)
Theorem removeRegisteredClient_keeps_redirect_clients
    (issuer resourceUri redirectUri : string) (w : World) :
  truthy_string redirectUri = true ->
  JsMap.get (getClientCacheKey issuer resourceUri (Some redirectUri))
    (registeredClients (snd (removeRegisteredClient issuer resourceUri w)))
  = JsMap.get (getClientCacheKey issuer resourceUri (Some redirectUri))
      (registeredClients w).
Proof.
  intros Ht. unfold removeRegisteredClient. cbn.
  apply JsMap_get_delete_ne.
  rewrite (cacheKey_with_redirect _ _ _ Ht).
  unfold getClientCacheKey. cbn. intros Heq.
  rewrite <- (append_assoc issuer "|" resourceUri) in Heq.
  assert (Hnil : "|" ++ redirectUri = "").
  { apply (append_inv_head ((issuer ++ "|") ++ resourceUri)).
    now rewrite Heq, append_nil_r. }
  discriminate.
Qed.
End RegistryFacts.

Section RegistrationCacheFacts.
Context `{Runtime}.
Import Dcr.


End RegistrationCacheFacts.

(** ** What discovery and registration leave alone *)

Section GenericFrame.
Context `{Runtime} {X : Type} (view : World -> X).
Hypothesis view_registeredClients :
  forall f w, view (set_registeredClients f w) = view w.
Hypothesis view_authServerMetadataCache :
  forall f w, view (set_authServerMetadataCache f w) = view w.
Hypothesis view_protectedResourceMetadataCache :
  forall f w, view (set_protectedResourceMetadataCache f w) = view w.
Hypothesis view_resourceMetadataCache :
  forall f w, view (set_resourceMetadataCache f w) = view w.
Import Spec.

Lemma keeps_view_ret {A} (a : A) : keeps view (ret a).
Proof. intros w. reflexivity. Qed.

Lemma keeps_view_throw {A} (e : string) : keeps view (throw (A:=A) e).
Proof. intros w. reflexivity. Qed.

Lemma keeps_view_lift {A} (r : result A) : keeps view (lift r).
Proof. intros w. reflexivity. Qed.

Lemma keeps_view_gets {A} (f : World -> A) : keeps view (gets f).
Proof. intros w. reflexivity. Qed.

Lemma keeps_view_bind {A B} (m : M A) (k : A -> M B) :
  keeps view m -> (forall a, keeps view (k a)) -> keeps view (bind m k).
Proof.
  intros Hm Hk w. unfold bind. specialize (Hm w).
  destruct (m w) as [[a|e] w1]; cbn in *; [|exact Hm].
  rewrite (Hk a w1). exact Hm.
Qed.

Lemma keeps_view_try_catch {A} (m : M A) (h : string -> M A) :
  keeps view m -> (forall e, keeps view (h e)) -> keeps view (try_catch m h).
Proof.
  intros Hm Hh w. unfold try_catch. specialize (Hm w).
  destruct (m w) as [[a|e] w1]; cbn in *; [exact Hm|].
  rewrite (Hh e w1). exact Hm.
Qed.

Lemma keeps_view_tryAuthServerUrls (net : Network) (now : Z) (requested : string)
    (urls : list string) :
  forall lastError mm,
    keeps view (Discovery.tryAuthServerUrls net now requested urls lastError mm).
Proof.
  induction urls as [|u rest IH]; intros lastError mm; cbn.
  - destruct mm; [|apply keeps_view_throw].
    intros w. apply view_authServerMetadataCache.
  - destruct (Discovery.fetchAuthServerMetadata net u) as [m|e]; [|apply IH].
    destruct (Discovery.issuerMismatch requested m); [apply IH|].
    intros w. apply view_authServerMetadataCache.
Qed.

Lemma keeps_view_discoverAuthServerMetadata (net : Network) (now : Z)
    (requested : string) :
  keeps view (Discovery.discoverAuthServerMetadata net now requested).
Proof.
  intros w. unfold Discovery.discoverAuthServerMetadata.
  destruct (Discovery.freshAuthServerMetadata w now requested); [reflexivity|].
  destruct (Discovery.getAuthServerMetadataUrls requested); [|reflexivity].
  apply keeps_view_tryAuthServerUrls.
Qed.

Lemma keeps_view_tryProtectedResourceUrls (net : Network) (now : Z)
    (cacheKey : string) (urls : list string) :
  forall lastError,
    keeps view (Discovery.tryProtectedResourceUrls net now cacheKey urls lastError).
Proof.
  induction urls as [|u rest IH]; intros lastError; cbn; [apply keeps_view_throw|].
  destruct (Discovery.fetchProtectedResourceMetadata net u) as [m|e]; [|apply IH].
  intros w. apply view_protectedResourceMetadataCache.
Qed.

Lemma keeps_view_discoverProtectedResourceMetadata (net : Network) (now : Z)
    (serverUrl : string) (resourceMetadataUrl : option string) :
  keeps view
    (Discovery.discoverProtectedResourceMetadata net now serverUrl resourceMetadataUrl).
Proof.
  intros w. unfold Discovery.discoverProtectedResourceMetadata.
  destruct (protectedResourceMetadataCache w !! _) as [cached|].
  - destruct (cache_expiresAt cached >? now); [reflexivity|].
    destruct (if truthy_ostring resourceMetadataUrl then _ else _); [|reflexivity].
    apply keeps_view_tryProtectedResourceUrls.
  - destruct (if truthy_ostring resourceMetadataUrl then _ else _); [|reflexivity].
    apply keeps_view_tryProtectedResourceUrls.
Qed.

Lemma keeps_view_fallbackScan (now : Z) (keyPrefix : string)
    (entries : list (string * RegisteredClient)) :
  keeps view (Dcr.fallbackScan now keyPrefix entries).
Proof.
  induction entries as [|[key client] rest IH]; cbn; [apply keeps_view_ret|].
  destruct (startsWith key keyPrefix); [|exact IH].
  destruct (Dcr.secretExpired client now).
  - apply keeps_view_bind; [|intros; exact IH].
    intros w. apply view_registeredClients.
  - intros w. reflexivity.
Qed.

Lemma keeps_view_getRegisteredClient (now : Z) (issuer resourceUri : string)
    (redirectUri : option string) :
  keeps view (Dcr.getRegisteredClient now issuer resourceUri redirectUri).
Proof.
  intros w. unfold Dcr.getRegisteredClient.
  destruct (truthy_ostring redirectUri); [|apply keeps_view_fallbackScan].
  destruct (JsMap.get _ (registeredClients w)) as [c|];
    [|apply keeps_view_fallbackScan].
  destruct (Dcr.secretExpired c now); [|reflexivity].
  rewrite keeps_view_fallbackScan. apply view_registeredClients.
Qed.

Lemma keeps_view_registerClient (net : Network) (now : Z)
    (metadata : AuthServerMetadata) (resourceUri redirectUri clientName : string)
    (scopes : option (list string)) :
  keeps view
    (Dcr.registerClient net now metadata resourceUri redirectUri clientName scopes).
Proof.
  unfold Dcr.registerClient.
  destruct (negb (truthy_ostring (registration_endpoint metadata)));
    [apply keeps_view_throw|].
  apply keeps_view_bind; [apply keeps_view_getRegisteredClient|].
  intros [existing|]; [apply keeps_view_ret|].
  destruct (net _) as [e|response]; [apply keeps_view_throw|].
  destruct (negb (response_ok response) && negb (status response =? 201));
    [apply keeps_view_throw|].
  unfold Dcr.parseAndStoreRegistration.
  apply keeps_view_bind; [apply keeps_view_lift|]. intros dcrResponse.
  destruct (negb (truthy_string (client_id dcrResponse))); [apply keeps_view_throw|].
  intros w. apply view_registeredClients.
Qed.

Lemma keeps_view_getOrRegisterClient (net : Network) (now : Z)
    (authServer : AuthServerMetadata) (resourceUri : string) (config : OAuthConfig) :
  keeps view (AuthFlow.getOrRegisterClient net now authServer resourceUri config).
Proof.
  unfold AuthFlow.getOrRegisterClient.
  destruct (truthy_ostring (cfg_clientId config)); [apply keeps_view_ret|].
  apply keeps_view_bind; [apply keeps_view_getRegisteredClient|].
  intros [existing|]; [apply keeps_view_ret|].
  destruct (negb (Discovery.supportsDcr authServer)); [apply keeps_view_throw|].
  apply keeps_view_bind; [apply keeps_view_registerClient|].
  intros; apply keeps_view_ret.
Qed.

Lemma keeps_view_exchangeCodeForTokens (net : Network) (now : Z)
    (metadata : AuthServerMetadata) (code redirectUri codeVerifier clientId : string)
    (clientSecret resourceUri : option string) :
  keeps view
    (TokenManager.exchangeCodeForTokens net now metadata code redirectUri
       codeVerifier clientId clientSecret resourceUri).
Proof.
  unfold TokenManager.exchangeCodeForTokens.
  destruct (net _) as [e|response]; [apply keeps_view_throw|].
  destruct (negb (response_ok response)); [apply keeps_view_throw|].
  apply keeps_view_bind; [apply keeps_view_lift|]. intros tokenResponse.
  destruct (negb (truthy_string (access_token tokenResponse)));
    [apply keeps_view_throw | apply keeps_view_ret].
Qed.

Lemma keeps_view_getMetadata (net : Network) (now : Z) (serverUrl : string)
    (resourceMetadataUrl : option string) :
  keeps view (AuthFlow.getMetadata net now serverUrl resourceMetadataUrl).
Proof.
  unfold AuthFlow.getMetadata.
  apply keeps_view_bind; [apply keeps_view_lift|]. intros resourceUri.
  apply keeps_view_bind; [apply keeps_view_gets|].
  intros [cached|]; [apply keeps_view_ret|].
  apply keeps_view_bind; [apply keeps_view_discoverProtectedResourceMetadata|].
  intros protectedResource.
  destruct (authorization_servers protectedResource) as [|first others];
    [apply keeps_view_throw|].
  destruct (negb (truthy_string first)); [apply keeps_view_throw|].
  apply keeps_view_bind; [apply keeps_view_discoverAuthServerMetadata|].
  intros authServer.
  apply keeps_view_bind; [|intros; apply keeps_view_ret].
  intros w. apply view_resourceMetadataCache.
Qed.
End GenericFrame.

(** ** The orchestrator *)

Section FlowFacts.
Context `{Runtime}.
Import AuthFlow.

Lemma pending_getMetadata (net : Network) (now : Z) (serverUrl : string)
    (resourceMetadataUrl : option string) :
  Spec.keeps pendingStates (getMetadata net now serverUrl resourceMetadataUrl).
Proof. apply keeps_view_getMetadata; reflexivity. Qed.

Lemma pending_getOrRegisterClient (net : Network) (now : Z)
    (authServer : AuthServerMetadata) (resourceUri : string) (config : OAuthConfig) :
  Spec.keeps pendingStates (getOrRegisterClient net now authServer resourceUri config).
Proof. apply keeps_view_getOrRegisterClient; reflexivity. Qed.

(** The pending states after [initiateAuthFlow]: those that survive the
    sweep, and the new one when the call got as far as storing it. *)
Lemma initiateAuthFlow_pendingStates (net : Network) (now : Z)
    (verifier state : string) (serverUrl : string) (config : OAuthConfig)
    (resourceMetadataUrl challengedScopes : option string) (w w' : World)
    (r : result (string * string)) :
  initiateAuthFlow net now verifier state serverUrl config resourceMetadataUrl
    challengedScopes w = (r, w') ->
  let swept := pendingStates (snd (cleanupExpiredStates now w)) in
  pendingStates w' = swept \/
  exists oauthState,
    createdAt oauthState = now /\ pendingStates w' = <[state := oauthState]> swept.
Proof.
  unfold initiateAuthFlow. unfold bind at 1. cbn [cleanupExpiredStates modify snd].
  set (w0 := set_pendingStates _ w).
  unfold bind at 1. unfold lift at 1.
  destruct (Discovery.getCanonicalResourceUri serverUrl) as [resourceUri|e];
    [|intros [= _ <-]; now left].
  unfold bind at 1.
  pose proof (pending_getMetadata net now serverUrl resourceMetadataUrl w0) as Hm.
  destruct (getMetadata net now serverUrl resourceMetadataUrl w0)
    as [[[protectedResource authServer]|e] w1]; cbn [snd] in Hm;
    [|intros [= _ <-]; now left].
  cbn [fst snd]. unfold bind at 1.
  pose proof (pending_getOrRegisterClient net now authServer resourceUri config w1)
    as Hc.
  destruct (getOrRegisterClient net now authServer resourceUri config w1)
    as [[client|e] w2]; cbn [snd] in Hc;
    [|intros [= _ <-]; left; now rewrite Hc, Hm].
  cbn [Pkce.generatePkcePair]. unfold bind at 1. cbn [modify].
  unfold bind at 1. unfold lift at 1.
  match goal with
  | |- context [buildAuthorizationUrl ?a ?b ?c ?d ?e ?f ?g ?h] =>
      destruct (buildAuthorizationUrl a b c d e f g h)
  end; cbn [ret]; intros [= _ <-]; right; eexists; (split; cycle 1);
    try (cbn [set_pendingStates pendingStates]; rewrite Hc, Hm; reflexivity);
    reflexivity.
Qed.

Lemma cleanupExpiredStates_lookup (now : Z) (w : World) (s : string)
    (oauthState : OAuthState) :
  pendingStates (snd (cleanupExpiredStates now w)) !! s = Some oauthState <->
  pendingStates w !! s = Some oauthState /\
  now - createdAt oauthState <= 10 * 60 * 1000.
Proof.
  unfold cleanupExpiredStates. cbn. rewrite map_lookup_filter_Some. cbn.
  unfold STATE_TTL_MS. split; intros [Hl Ht]; (split; [exact Hl | lia]).
Qed.

(** X17. Every [initiateAuthFlow], whether it returns or throws, first sweeps
    the pending states: afterwards no pending state is older than the
    10-minute TTL at the clock of the call, and every state that was pending
    and is not older than that is still pending, except one overwritten by
    the new state value. *)
Theorem initiateAuthFlow_sweeps (net : Network) (now : Z)
    (verifier state : string) (serverUrl : string) (config : OAuthConfig)
    (resourceMetadataUrl challengedScopes : option string) (w : World) :
  let w' := snd (initiateAuthFlow net now verifier state serverUrl config
                   resourceMetadataUrl challengedScopes w) in
  (forall s oauthState,
     pendingStates w' !! s = Some oauthState ->
     now - createdAt oauthState <= 10 * 60 * 1000) /\
  (forall s oauthState,
     s <> state ->
     pendingStates w !! s = Some oauthState ->
     now - createdAt oauthState <= 10 * 60 * 1000 ->
     pendingStates w' !! s = Some oauthState).
Proof.
  intros w'.
  destruct (initiateAuthFlow_pendingStates net now verifier state serverUrl config
              resourceMetadataUrl challengedScopes w w'
              (fst (initiateAuthFlow net now verifier state serverUrl config
                      resourceMetadataUrl challengedScopes w)))
    as [Heq | (st & Hst & Heq)];
    [now apply surjective_pairing | |]; cbv zeta in Heq; rewrite Heq; split.
  - intros s oauthState Hl. now apply cleanupExpiredStates_lookup in Hl.
  - intros s oauthState _ Hl Ht. now apply cleanupExpiredStates_lookup.
  - intros s oauthState. destruct (decide (s = state)) as [->|Hne].
    + rewrite lookup_insert_eq. intros [= <-]. lia.
    + rewrite lookup_insert_ne by congruence.
      intros Hl. now apply cleanupExpiredStates_lookup in Hl.
  - intros s oauthState Hne Hl Ht. rewrite lookup_insert_ne by congruence.
    now apply cleanupExpiredStates_lookup.
Qed.

(** X18. The orchestrator's metadata cache has no expiry: once [getMetadata]
    has returned for a server URL, every later call for that URL returns the
    same pair of documents, at any time, whatever the network answers and
    whatever metadata URL is passed, and changes nothing. *)
Theorem getMetadata_cached (net : Network) (now : Z) (serverUrl : string)
    (resourceMetadataUrl : option string) (w w' : World)
    (metadata : ProtectedResourceMetadata * AuthServerMetadata) :
  getMetadata net now serverUrl resourceMetadataUrl w = (Ok metadata, w') ->
  forall net' now' resourceMetadataUrl',
    getMetadata net' now' serverUrl resourceMetadataUrl' w' = (Ok metadata, w').
Proof.
  intros Hget.
  assert (Hhit : exists resourceUri,
            Discovery.getCanonicalResourceUri serverUrl = Ok resourceUri /\
            resourceMetadataCache w' !! resourceUri = Some metadata).
  { revert Hget. unfold getMetadata. unfold bind at 1. unfold lift at 1.
    destruct (Discovery.getCanonicalResourceUri serverUrl) as [resourceUri|e];
      [|discriminate].
    unfold bind at 1. cbn [gets].
    destruct (resourceMetadataCache w !! resourceUri) as [cached|] eqn:Hc.
    - intros [= <- <-]. eauto.
    - unfold bind at 1.
      destruct (Discovery.discoverProtectedResourceMetadata _ _ _ _ w)
        as [[protectedResource|e] w1]; [|discriminate].
      destruct (authorization_servers protectedResource) as [|first others];
        [discriminate|].
      destruct (negb (truthy_string first)); [discriminate|].
      unfold bind at 1.
      destruct (Discovery.discoverAuthServerMetadata net now first w1)
        as [[authServer|e] w2]; [|discriminate].
      cbn. intros [= <- <-]. exists resourceUri. split; [reflexivity|].
      cbn. apply lookup_insert_eq. }
  destruct Hhit as (resourceUri & Hcanon & Hc).
  intros net' now' resourceMetadataUrl'.
  unfold getMetadata. unfold bind at 1. unfold lift at 1. rewrite Hcanon.
  unfold bind at 1. cbn [gets]. now rewrite Hc.
Qed.
End FlowFacts.

Section AuthorizationUrlFacts.
Context `{Runtime}.
Import AuthFlow.

Lemma authorizationUrlObject_params (url : URL) (authServer : AuthServerMetadata)
    (clientId redirectUri state codeChallenge : string)
    (codeChallengeMethod : Pkce.Method) (resourceUri : string)
    (scopes : option (list string)) :
  let params :=
    searchParams (authorizationUrlObject url authServer clientId redirectUri state
                    codeChallenge codeChallengeMethod resourceUri scopes) in
  SearchParams.get "response_type" params = Some "code" /\
  SearchParams.get "client_id" params = Some clientId /\
  SearchParams.get "redirect_uri" params = Some redirectUri /\
  SearchParams.get "state" params = Some state /\
  SearchParams.get "code_challenge" params = Some codeChallenge /\
  SearchParams.get "code_challenge_method" params
  = Some (Pkce.method_name codeChallengeMethod) /\
  SearchParams.get "resource" params = Some resourceUri.
Proof.
  intros params. subst params. unfold authorizationUrlObject.
  destruct scopes as [[|x l]|];
    try (destruct (scopes_supported authServer) as [[|y l']|]);
    cbn [searchParams set_searchParam];
    repeat split;
    repeat first [ rewrite SearchParams_get_set_eq; reflexivity
                 | rewrite SearchParams_get_set_ne by discriminate ].
Qed.

(** X19. The authorization URL and the pending state that [initiateAuthFlow]
    produces agree: the URL carries [response_type=code], the redirect URI of
    the configuration, the state value returned, the canonical resource URI
    as [resource] and, when a client id is configured, that client id; its
    [code_challenge] verifies, under its [code_challenge_method], against the
    code verifier kept in the pending state, which records the same redirect
    URI and resource. *)
Theorem initiateAuthFlow_url (net : Network) (now : Z) (verifier state : string)
    (serverUrl : string) (config : OAuthConfig)
    (resourceMetadataUrl challengedScopes : option string) (w w' : World)
    (authorizationUrl state' : string) :
  initiateAuthFlow net now verifier state serverUrl config resourceMetadataUrl
    challengedScopes w = (Ok (authorizationUrl, state'), w') ->
  exists url resourceUri oauthState challenge method,
    Discovery.getCanonicalResourceUri serverUrl = Ok resourceUri /\
    authorizationUrl = url_toString url /\
    state' = state /\
    SearchParams.get "response_type" (searchParams url) = Some "code" /\
    SearchParams.get "redirect_uri" (searchParams url)
    = Some (cfg_redirectUri config) /\
    SearchParams.get "state" (searchParams url) = Some state /\
    SearchParams.get "resource" (searchParams url) = Some resourceUri /\
    (truthy_ostring (cfg_clientId config) = true ->
     SearchParams.get "client_id" (searchParams url) = cfg_clientId config) /\
    SearchParams.get "code_challenge" (searchParams url) = Some challenge /\
    SearchParams.get "code_challenge_method" (searchParams url)
    = Some (Pkce.method_name method) /\
    pendingStates w' !! state = Some oauthState /\
    Pkce.verifyCodeChallenge (codeVerifier oauthState) challenge method = true /\
    st_redirectUri oauthState = cfg_redirectUri config /\
    st_resourceUri oauthState = resourceUri.
Proof.
  unfold initiateAuthFlow. unfold bind at 1. cbn [cleanupExpiredStates modify].
  unfold bind at 1. unfold lift at 1.
  destruct (Discovery.getCanonicalResourceUri serverUrl) as [resourceUri|e];
    [|discriminate].
  unfold bind at 1.
  destruct (getMetadata net now serverUrl resourceMetadataUrl _)
    as [[[protectedResource authServer]|e] w1]; [|discriminate].
  cbn [fst snd]. unfold bind at 1.
  destruct (getOrRegisterClient net now authServer resourceUri config w1)
    as [[client|e] w2] eqn:Hclient; [|discriminate].
  cbn [Pkce.generatePkcePair]. unfold bind at 1. cbn [modify].
  unfold bind at 1. unfold lift at 1. unfold buildAuthorizationUrl.
  destruct (new_URL (authorization_endpoint authServer)) as [endpoint|e];
    [|discriminate].
  cbn [ret]. intros [= <- <- <-].
  match goal with
  | |- context [authorizationUrlObject ?u ?a ?c ?r ?s ?ch ?m ?res ?sc] =>
      pose proof (authorizationUrlObject_params u a c r s ch m res sc) as Hp;
      cbv zeta in Hp;
      destruct Hp as (Hrt & Hcid & Hru & Hst & Hch & Hm & Hres);
      exists (authorizationUrlObject u a c r s ch m res sc), resourceUri
  end.
  eexists _, _, _.
  split; [reflexivity|]. split; [reflexivity|]. split; [reflexivity|].
  split; [exact Hrt|]. split; [exact Hru|]. split; [exact Hst|].
  split; [exact Hres|]. split.
  { intros Hcfg. rewrite Hcid. unfold getOrRegisterClient in Hclient.
    rewrite Hcfg in Hclient. injection Hclient as <- _. cbn.
    destruct (cfg_clientId config); [reflexivity | discriminate]. }
  split; [exact Hch|]. split; [exact Hm|].
  split; [cbn; apply lookup_insert_eq|].
  split; [|split; reflexivity].
  unfold Pkce.verifyCodeChallenge. cbn. apply String.eqb_refl.
Qed.

(** X20. A flow that [initiateAuthFlow] started at clock [now] can be
    completed for ten minutes: a callback with the returned state value at
    any clock up to [now] + 600000 ms goes on to the code exchange with the
    pending state, and a later one throws the expired-state error. *)
Theorem callback_after_initiate (net : Network) (now : Z) (verifier state : string)
    (serverUrl : string) (config : OAuthConfig)
    (resourceMetadataUrl challengedScopes : option string) (w w' : World)
    (authorizationUrl state' : string) :
  initiateAuthFlow net now verifier state serverUrl config resourceMetadataUrl
    challengedScopes w = (Ok (authorizationUrl, state'), w') ->
  exists oauthState,
    pendingStates w' !! state' = Some oauthState /\
    (forall net' now' code config',
       now' <= now + 10 * 60 * 1000 ->
       handleAuthCallback net' now' code state' config' w'
       = exchangeAndStore net' now' code oauthState config'
           (set_pendingStates (delete state') w')) /\
    (forall net' now' code config',
       now' > now + 10 * 60 * 1000 ->
       handleAuthCallback net' now' code state' config' w'
       = (Throw "OAuth state has expired. Please try authorizing again.",
          set_pendingStates (delete state') w')).
Proof.
  intros Hinit.
  destruct (initiateAuthFlow_pending _ _ _ _ _ _ _ _ _ _ _ _ Hinit)
    as (-> & oauthState & Hp & Hcreated).
  exists oauthState. split; [exact Hp|]. split.
  - intros net' now' code config' Hle.
    rewrite (handleAuthCallback_pending _ _ _ _ _ _ _ Hp), Hcreated.
    unfold STATE_TTL_MS.
    destruct (now' - now >? 10 * 60 * 1000) eqn:E; [|reflexivity].
    apply Z.gtb_lt in E. lia.
  - intros net' now' code config' Hgt.
    rewrite (handleAuthCallback_pending _ _ _ _ _ _ _ Hp), Hcreated.
    unfold STATE_TTL_MS.
    destruct (now' - now >? 10 * 60 * 1000) eqn:E; [reflexivity|].
    rewrite Z.gtb_ltb in E. apply Z.ltb_ge in E. lia.
Qed.
End AuthorizationUrlFacts.

Section CallbackTokenFacts.
Context `{Runtime}.
Import AuthFlow.

Lemma tokensView_sound (w w' : World) :
  Spec.tokensView w' = Spec.tokensView w ->
  Spec.tokenCipherSound w -> Spec.tokenCipherSound w'.
Proof.
  unfold Spec.tokensView, Spec.tokenCipherSound. intros [= _ Hk]. now rewrite Hk.
Qed.

(** What the exchange phase does to the token store: nothing when it
    throws, one [storeTokens] when it returns. *)
Lemma exchangeAndStore_tokens (net : Network) (now : Z) (code : string)
    (oauthState : OAuthState) (config : OAuthConfig) (w w' : World)
    (r : result OAuthTokens) :
  exchangeAndStore net now code oauthState config w = (r, w') ->
  match r with
  | Ok tokens =>
      truthy_string (accessToken tokens) = true /\
      exists w3,
        Spec.tokensView w3 = Spec.tokensView w /\
        w' = snd (TokenManager.storeTokens (st_resourceUri oauthState) tokens
                    (st_issuer oauthState) w3)
  | Throw _ => Spec.tokensView w' = Spec.tokensView w
  end.
Proof.
  unfold exchangeAndStore. unfold bind at 1.
  pose proof (keeps_view_discoverAuthServerMetadata Spec.tokensView
                (fun _ _ => eq_refl) net now (st_issuer oauthState) w) as H1.
  destruct (Discovery.discoverAuthServerMetadata net now (st_issuer oauthState) w)
    as [[authServer|e] w1]; cbn [snd] in H1; [|now intros [= <- <-]].
  unfold bind at 1.
  pose proof (keeps_view_getOrRegisterClient Spec.tokensView
                (fun _ _ => eq_refl) net now authServer
                (st_resourceUri oauthState) config w1) as H2.
  destruct (getOrRegisterClient net now authServer (st_resourceUri oauthState)
              config w1) as [[client|e] w2]; cbn [snd] in H2;
    [|intros [= <- <-]; congruence].
  unfold bind at 1.
  match goal with
  | |- context [TokenManager.exchangeCodeForTokens ?a ?b ?c ?d ?e ?f ?g ?h ?i w2] =>
      pose proof (exchangeCodeForTokens_facts a b c d e f g h i w2) as [H3 H4];
      destruct (TokenManager.exchangeCodeForTokens a b c d e f g h i w2)
        as [[tokens|e0] w3]
  end; cbn [snd fst] in H3, H4; subst w3; [|intros [= <- <-]; congruence].
  pose proof (H4 tokens eq_refl) as Ha.
  cbn. intros [= <- <-]. split; [exact Ha|].
  exists w2. split; [congruence | reflexivity].
Qed.
End CallbackTokenFacts.

Section CallbackFacts.
Context `{Runtime}.
Import AuthFlow.

(** X21. When [handleAuthCallback] returns tokens, they are the tokens now
    stored for the resource of the consumed state: [getTokens] reads them
    back (an empty refresh token being dropped) and their access token is
    not empty. *)
Theorem handleAuthCallback_stores_tokens (net : Network) (now : Z)
    (code state : string) (config : OAuthConfig) (w w' : World)
    (tokens : OAuthTokens) :
  Spec.tokenCipherSound w ->
  handleAuthCallback net now code state config w = (Ok tokens, w') ->
  exists oauthState,
    pendingStates w !! state = Some oauthState /\
    truthy_string (accessToken tokens) = true /\
    TokenManager.getTokens w' (st_resourceUri oauthState)
    = Some (Spec.storedForm tokens).
Proof.
  intros Hs Hcb.
  destruct (pendingStates w !! state) as [oauthState|] eqn:Hp.
  2:{ rewrite (handleAuthCallback_absent _ _ _ _ _ _ Hp) in Hcb. discriminate. }
  rewrite (handleAuthCallback_pending _ _ _ _ _ _ _ Hp) in Hcb.
  destruct (now - createdAt oauthState >? STATE_TTL_MS); [discriminate|].
  apply exchangeAndStore_tokens in Hcb as (Ha & w3 & Hv & ->).
  exists oauthState. split; [reflexivity|]. split; [exact Ha|].
  apply getTokens_after_store. eapply tokensView_sound; [|exact Hs].
  rewrite Hv. reflexivity.
Qed.

(** X22. A callback that throws, for whatever reason, leaves the token
    store as it was: tokens stored earlier for any resource are still
    returned by [getTokens]. *)
Theorem handleAuthCallback_failure_keeps_tokens (net : Network) (now : Z)
    (code state : string) (config : OAuthConfig) (w w' : World) (e : string) :
  handleAuthCallback net now code state config w = (Throw e, w') ->
  tokenStore w' = tokenStore w /\
  forall resourceUri,
    TokenManager.getTokens w' resourceUri = TokenManager.getTokens w resourceUri.
Proof.
  intros Hcb.
  assert (Hv : Spec.tokensView w' = Spec.tokensView w).
  { destruct (pendingStates w !! state) as [oauthState|] eqn:Hp.
    - rewrite (handleAuthCallback_pending _ _ _ _ _ _ _ Hp) in Hcb.
      destruct (now - createdAt oauthState >? STATE_TTL_MS).
      + now injection Hcb as _ <-.
      + apply exchangeAndStore_tokens in Hcb. exact Hcb.
    - rewrite (handleAuthCallback_absent _ _ _ _ _ _ Hp) in Hcb.
      now injection Hcb as _ <-. }
  injection Hv as Hst Hk. split; [exact Hst|].
  intros resourceUri. now apply getTokens_tokenStore.
Qed.


(** X24. Whenever the server URL parses, [revokeAuthorization] returns
    without throwing and leaves no tokens stored for the canonical resource,
    whether or not metadata and client could be resolved and whatever the
    network answers. *)
Theorem revokeAuthorization_removes_tokens (net : Network) (now : Z)
    (serverUrl : string) (config : OAuthConfig) (w : World) (resourceUri : string) :
  Discovery.getCanonicalResourceUri serverUrl = Ok resourceUri ->
  fst (revokeAuthorization net now serverUrl config w) = Ok tt /\
  TokenManager.getTokens (snd (revokeAuthorization net now serverUrl config w))
    resourceUri = None.
Proof.
  intros Hcanon.
  assert (Hrevoke : forall authServer clientId clientSecret w0,
            fst (TokenManager.revokeTokens net authServer resourceUri clientId
                   clientSecret w0) = Ok tt /\
            TokenManager.getTokens
              (snd (TokenManager.revokeTokens net authServer resourceUri clientId
                      clientSecret w0)) resourceUri = None).
  { intros authServer clientId clientSecret w0.
    unfold TokenManager.revokeTokens, bind, gets.
    destruct (TokenManager.getTokens w0 resourceUri) eqn:Hg; cbn.
    - split; [reflexivity | apply getTokens_removed].
    - split; [reflexivity | exact Hg]. }
  assert (Heq : revokeAuthorization net now serverUrl config w
                = match getMetadata net now serverUrl None w with
                  | (Ok metadata, w1) =>
                      match getOrRegisterClient net now (snd metadata) resourceUri
                              config w1 with
                      | (Ok client, w2) =>
                          match TokenManager.revokeTokens net (snd metadata)
                                  resourceUri (fst client) (snd client) w2 with
                          | (Ok u, w3) => (Ok u, w3)
                          | (Throw _, w3) =>
                              (Ok tt, set_tokenStore (delete resourceUri) w3)
                          end
                      | (Throw _, w2) =>
                          (Ok tt, set_tokenStore (delete resourceUri) w2)
                      end
                  | (Throw _, w1) => (Ok tt, set_tokenStore (delete resourceUri) w1)
                  end).
  { unfold revokeAuthorization. unfold bind at 1. unfold lift at 1.
    rewrite Hcanon. unfold try_catch. unfold bind at 1.
    destruct (getMetadata net now serverUrl None w) as [[metadata|e] w1];
      [|reflexivity].
    unfold bind at 1.
    destruct (getOrRegisterClient net now (snd metadata) resourceUri config w1)
      as [[client|e] w2]; [|reflexivity].
    destruct (TokenManager.revokeTokens net (snd metadata) resourceUri (fst client)
                (snd client) w2) as [[u|e] w3]; reflexivity. }
  rewrite Heq.
  destruct (getMetadata net now serverUrl None w) as [[metadata|e] w1];
    [|split; [reflexivity | apply getTokens_removed]].
  destruct (getOrRegisterClient net now (snd metadata) resourceUri config w1)
    as [[client|e] w2]; [|split; [reflexivity | apply getTokens_removed]].
  destruct (Hrevoke (snd metadata) (fst client) (snd client) w2) as [Hr Hg].
  destruct (TokenManager.revokeTokens net (snd metadata) resourceUri (fst client)
              (snd client) w2) as [[[]|e] w3]; cbn in *; [|discriminate].
  split; [reflexivity | exact Hg].
Qed.

(** X25. After [initiateAuthFlow] has returned for a server URL,
    [hasPendingAuthorization] is true for that URL. *)
Theorem initiateAuthFlow_hasPendingAuthorization (net : Network) (now : Z)
    (verifier state : string) (serverUrl : string) (config : OAuthConfig)
    (resourceMetadataUrl challengedScopes : option string) (w w' : World)
    (authorizationUrl state' : string) :
  initiateAuthFlow net now verifier state serverUrl config resourceMetadataUrl
    challengedScopes w = (Ok (authorizationUrl, state'), w') ->
  hasPendingAuthorization w' serverUrl = Ok true.
Proof.
  intros Hinit.
  assert (Hp : exists resourceUri oauthState,
            Discovery.getCanonicalResourceUri serverUrl = Ok resourceUri /\
            pendingStates w' !! state = Some oauthState /\
            st_resourceUri oauthState = resourceUri).
  { revert Hinit. unfold initiateAuthFlow. unfold bind at 1.
    cbn [cleanupExpiredStates modify]. unfold bind at 1. unfold lift at 1.
    destruct (Discovery.getCanonicalResourceUri serverUrl) as [resourceUri|e];
      [|discriminate].
    unfold bind at 1.
    destruct (getMetadata net now serverUrl resourceMetadataUrl _)
      as [[[protectedResource authServer]|e] w1]; [|discriminate].
    cbn [fst snd]. unfold bind at 1.
    destruct (getOrRegisterClient net now authServer resourceUri config w1)
      as [[client|e] w2]; [|discriminate].
    cbn [Pkce.generatePkcePair]. unfold bind at 1. cbn [modify].
    unfold bind at 1. unfold lift at 1.
    destruct (buildAuthorizationUrl _ _ _ _ _ _ _ _) as [u|e]; [|discriminate].
    cbn [ret]. intros [= <- <- <-]. eexists resourceUri, _.
    split; [reflexivity|]. split; [cbn; apply lookup_insert_eq | reflexivity]. }
  destruct Hp as (resourceUri & oauthState & Hcanon & Hl & Hres).
  unfold hasPendingAuthorization. rewrite Hcanon. f_equal.
  apply bool_decide_eq_true. exists state, oauthState. split; assumption.
Qed.
End CallbackFacts.

(** ** The further properties at concrete inputs *)

Section MoreConcrete.
Import Examples.
#[local] Existing Instance example_runtime.

Lemma storeTokens_getTokens_witness :
  TokenManager.getTokens
    (snd (TokenManager.storeTokens "https://mcp.example.com/api" (api_tokens 100000)
            "https://auth.example.com" empty_world))
    "https://mcp.example.com/api" = Some (api_tokens 100000).
Proof.
  exact (proj1 (storeTokens_getTokens empty_world "https://mcp.example.com/api"
                  "https://auth.example.com" (api_tokens 100000) I)).
Defined.

Lemma invalid_tokens_need_refresh_witness :
  TokenManager.needsRefresh (world_with_tokens 100000) 80000
    "https://mcp.example.com/api" = true.
Proof.
  apply (proj2 (invalid_tokens_need_refresh (world_with_tokens 100000) 80000
                  "https://mcp.example.com/api")).
  - exists (api_tokens 100000). vm_compute. reflexivity.
  - vm_compute. reflexivity.
Defined.

Lemma exchangeCodeForTokens_result_witness :
  truthy_string (accessToken at2_tokens) = true /\
  truthy_string (tokenType at2_tokens) = true.
Proof.
  destruct (proj2 (exchangeCodeForTokens_result auth_server_online 1599000
                     auth_metadata "code-1" "http://localhost:3000/callback"
                     "verifier-1" "client-1" None
                     (Some "https://mcp.example.com/api") empty_world)
              at2_tokens) as (Ha & Ht & _).
  - vm_compute. reflexivity.
  - split; [exact Ha | exact Ht].
Defined.

Lemma refreshTokens_success_witness :
  exists tokens w',
    TokenManager.refreshTokens auth_server_online 50000 auth_metadata
      "https://mcp.example.com/api" "client-1" None (world_with_tokens 100000)
    = (Ok tokens, w') /\
    refreshToken tokens = Some "rt-1" /\
    TokenManager.getTokens w' "https://mcp.example.com/api" = Some tokens.
Proof.
  pose (tokens := {| accessToken := "at-2"; refreshToken := Some "rt-1";
                     tokenType := "Bearer"; expiresAt := 3650000;
                     scope := Some "files:read" |}).
  pose (w' := snd (TokenManager.refreshTokens auth_server_online 50000 auth_metadata
                     "https://mcp.example.com/api" "client-1" None
                     (world_with_tokens 100000))).
  assert (Hrun : TokenManager.refreshTokens auth_server_online 50000 auth_metadata
                   "https://mcp.example.com/api" "client-1" None
                   (world_with_tokens 100000) = (Ok tokens, w')).
  { vm_compute. reflexivity. }
  destruct (refreshTokens_success _ _ _ _ _ _ _ _ _ Hrun) as (_ & _ & Hstored & _).
  exists tokens, w'. split; [exact Hrun|]. split; [reflexivity|].
  apply (Hstored "https://auth.example.com"); [vm_compute; reflexivity | exact I].
Defined.

Lemma discoverAuthServerMetadata_prefers_match_witness :
  fst (Discovery.discoverAuthServerMetadata auth_server_online 0
         "https://auth.example.com" empty_world) = Ok auth_metadata.
Proof.
  apply (discoverAuthServerMetadata_prefers_match auth_server_online 0
           "https://auth.example.com" empty_world
           ["https://auth.example.com/.well-known/oauth-authorization-server";
            "https://auth.example.com/.well-known/openid-configuration"]
           auth_metadata eq_refl eq_refl).
  vm_compute. reflexivity.
Defined.

Lemma discoverAuthServerMetadata_cached_witness :
  let w' := snd (Discovery.discoverAuthServerMetadata auth_server_online 0
                   "https://auth.example.com" empty_world) in
  Discovery.discoverAuthServerMetadata offline 3599999 "https://auth.example.com" w'
  = (Ok auth_metadata, w').
Proof.
  intros w'.
  apply (proj1 (discoverAuthServerMetadata_cached auth_server_online 0
                  "https://auth.example.com" empty_world) auth_metadata w').
  - vm_compute. reflexivity.
  - reflexivity.
  - lia.
Defined.

Lemma discoverProtectedResourceMetadata_cached_witness :
  let w' := snd (Discovery.discoverProtectedResourceMetadata resource_server_online 0
                   "https://mcp.example.com/api" None empty_world) in
  Discovery.discoverProtectedResourceMetadata offline 3599999
    "https://mcp.example.com/api" None w'
  = (Ok api_resource_metadata, w').
Proof.
  intros w'.
  apply (proj1 (discoverProtectedResourceMetadata_cached resource_server_online 0
                  "https://mcp.example.com/api" None empty_world eq_refl)
           api_resource_metadata w').
  - vm_compute. reflexivity.
  - lia.
Defined.

Lemma discoverProtectedResourceMetadata_explicit_url_witness :
  Discovery.discoverProtectedResourceMetadata resource_server_online 0
    "https://mcp.example.com/api"
    (Some "https://mcp.example.com/.well-known/oauth-protected-resource/api")
    empty_world
  = Discovery.discoverProtectedResourceMetadata
      (respond 200 "OK" "<metadata of https://mcp.example.com/api>") 0
      "not a url"
      (Some "https://mcp.example.com/.well-known/oauth-protected-resource/api")
      empty_world.
Proof.
  apply discoverProtectedResourceMetadata_explicit_url; reflexivity.
Defined.

Lemma generateCodeVerifier_spec_witness :
  exists verifier,
    Pkce.generateCodeVerifier 43 (repeat 200%N 43) = Ok verifier /\
    Z.of_nat (String.length verifier) = 43.
Proof.
  destruct (proj1 (generateCodeVerifier_spec 43 (repeat 200%N 43) eq_refl))
    as (verifier & Hv & Hl & _); [lia|].
  exists verifier. split; [exact Hv | exact Hl].
Defined.

Lemma storeRegisteredClient_getRegisteredClient_witness :
  fst (Dcr.getRegisteredClient 2000 "https://auth.example.com"
         "https://mcp.example.com/api" (Some "http://localhost:3000/callback")
         (snd (Dcr.storeRegisteredClient 1000 "https://auth.example.com"
                 "https://mcp.example.com/api" "http://localhost:3000/callback"
                 client_1_response empty_world)))
  = Ok (Some (Spec.registeredForm 1000 "https://auth.example.com"
                "https://mcp.example.com/api" client_1_response)).
Proof.
  rewrite (proj1 (storeRegisteredClient_getRegisteredClient 1000 2000
                    "https://auth.example.com" "https://mcp.example.com/api"
                    "http://localhost:3000/callback" client_1_response empty_world
                    I eq_refl) eq_refl).
  reflexivity.
Defined.

Lemma removeRegisteredClient_keeps_redirect_clients_witness :
  JsMap.get
    (Dcr.getClientCacheKey "https://auth.example.com" "https://mcp.example.com/api-v2"
       (Some "http://localhost:3000/callback"))
    (registeredClients
       (snd (Dcr.removeRegisteredClient "https://auth.example.com"
               "https://mcp.example.com/api-v2" world_with_v2_client)))
  = Some client_v2.
Proof.
  rewrite (removeRegisteredClient_keeps_redirect_clients "https://auth.example.com"
             "https://mcp.example.com/api-v2" "http://localhost:3000/callback"
             world_with_v2_client eq_refl).
  vm_compute. reflexivity.
Defined.

Lemma initiateAuthFlow_sweeps_witness :
  pendingStates
    (snd (AuthFlow.initiateAuthFlow offline 1300000 "verifier-2" "state-2"
            "https://mcp.example.com/api" (api_config None) None None
            world_awaiting_callback)) !! "state-1" = Some pending_state_1.
Proof.
  apply (proj2 (initiateAuthFlow_sweeps offline 1300000 "verifier-2" "state-2"
                  "https://mcp.example.com/api" (api_config None) None None
                  world_awaiting_callback) "state-1" pending_state_1).
  - discriminate.
  - vm_compute. reflexivity.
  - cbn. lia.
Defined.

Lemma getMetadata_cached_witness :
  AuthFlow.getMetadata offline 99999999 "https://mcp.example.com/api"
    (Some "https://elsewhere.example.com/metadata") world_with_metadata
  = (Ok (api_resource_metadata, auth_metadata), world_with_metadata).
Proof.
  apply (getMetadata_cached offline 0 "https://mcp.example.com/api" None
           world_with_metadata world_with_metadata).
  vm_compute. reflexivity.
Defined.

Lemma initiateAuthFlow_url_witness :
  exists url oauthState,
    example_authorization_url = url_toString url /\
    SearchParams.get "resource" (searchParams url)
    = Some "https://mcp.example.com/api" /\
    SearchParams.get "client_id" (searchParams url) = Some "client-1" /\
    pendingStates world_awaiting_callback !! "state-1" = Some oauthState /\
    st_resourceUri oauthState = "https://mcp.example.com/api".
Proof.
  destruct (initiateAuthFlow_url offline 1000000 "verifier-1" "state-1"
              "https://mcp.example.com/api" (api_config None) None None
              world_with_metadata world_awaiting_callback
              example_authorization_url "state-1")
    as (url & resourceUri & oauthState & challenge & method & Hcanon & Hurl & _ &
        _ & _ & _ & Hres & Hcid & _ & _ & Hp & _ & _ & Hsr).
  - vm_compute. reflexivity.
  - vm_compute in Hcanon. injection Hcanon as <-.
    exists url, oauthState. split; [exact Hurl|]. split; [exact Hres|].
    split; [exact (Hcid eq_refl)|]. split; [exact Hp | exact Hsr].
Defined.

Lemma callback_after_initiate_witness :
  fst (AuthFlow.handleAuthCallback offline 1600001 "code-1" "state-1"
         (api_config None) world_awaiting_callback)
  = Throw "OAuth state has expired. Please try authorizing again.".
Proof.
  destruct (callback_after_initiate offline 1000000 "verifier-1" "state-1"
              "https://mcp.example.com/api" (api_config None) None None
              world_with_metadata world_awaiting_callback
              example_authorization_url "state-1")
    as (oauthState & _ & _ & Hlate).
  - vm_compute. reflexivity.
  - rewrite Hlate by lia. reflexivity.
Defined.

Lemma handleAuthCallback_stores_tokens_witness :
  TokenManager.getTokens
    (snd (AuthFlow.handleAuthCallback auth_server_online 1599000 "code-1" "state-1"
            (api_config None) world_awaiting_callback))
    "https://mcp.example.com/api" = Some at2_tokens.
Proof.
  destruct (handleAuthCallback_stores_tokens auth_server_online 1599000 "code-1"
              "state-1" (api_config None) world_awaiting_callback
              (snd (AuthFlow.handleAuthCallback auth_server_online 1599000 "code-1"
                      "state-1" (api_config None) world_awaiting_callback))
              at2_tokens I)
    as (oauthState & Hp & _ & Hg).
  - vm_compute. reflexivity.
  - vm_compute in Hp. injection Hp as <-. exact Hg.
Defined.

Lemma handleAuthCallback_failure_keeps_tokens_witness :
  TokenManager.getTokens
    (snd (AuthFlow.handleAuthCallback offline 1599000 "code-1" "no-such-state"
            (api_config None) (world_with_tokens 100000)))
    "https://mcp.example.com/api" = Some (api_tokens 100000).
Proof.
  rewrite (proj2 (handleAuthCallback_failure_keeps_tokens offline 1599000 "code-1"
                    "no-such-state" (api_config None) (world_with_tokens 100000)
                    (world_with_tokens 100000)
                    "Invalid or expired OAuth state. Please try authorizing again."
                    eq_refl)).
  vm_compute. reflexivity.
Defined.


Lemma revokeAuthorization_removes_tokens_witness :
  fst (AuthFlow.revokeAuthorization offline 50000 "https://mcp.example.com/api"
         (api_config None) (world_with_tokens 100000)) = Ok tt /\
  TokenManager.getTokens
    (snd (AuthFlow.revokeAuthorization offline 50000 "https://mcp.example.com/api"
            (api_config None) (world_with_tokens 100000)))
    "https://mcp.example.com/api" = None.
Proof.
  exact (revokeAuthorization_removes_tokens offline 50000
           "https://mcp.example.com/api" (api_config None)
           (world_with_tokens 100000) "https://mcp.example.com/api" eq_refl).
Defined.

Lemma initiateAuthFlow_hasPendingAuthorization_witness :
  AuthFlow.hasPendingAuthorization world_awaiting_callback
    "https://mcp.example.com/api" = Ok true.
Proof.
  apply (initiateAuthFlow_hasPendingAuthorization offline 1000000 "verifier-1"
           "state-1" "https://mcp.example.com/api" (api_config None) None None
           world_with_metadata world_awaiting_callback example_authorization_url
           "state-1").
  vm_compute. reflexivity.
Defined.
Lemma removeTokens_spec_witness :
  fst (TokenManager.removeTokens "https://mcp.example.com/api"
         (world_with_tokens 100000)) = Ok true /\
  TokenManager.getTokens
    (snd (TokenManager.removeTokens "https://mcp.example.com/api"
            (world_with_tokens 100000))) "https://mcp.example.com/api" = None.
Proof.
  destruct (removeTokens_spec (world_with_tokens 100000)
              "https://mcp.example.com/api") as (Hr & Hg & _).
  split; [|exact Hg]. rewrite Hr. vm_compute. reflexivity.
Defined.


Lemma selectPkceMethod_spec_witness :
  Pkce.selectPkceMethod (Some ["plain"; "S256"]) = Some Pkce.S256.
Proof.
  apply (proj1 (selectPkceMethod_spec
                  {| issuer := "https://auth.example.com";
                     authorization_endpoint := "https://auth.example.com/authorize";
                     token_endpoint := "https://auth.example.com/token";
                     registration_endpoint := None;
                     scopes_supported := None;
                     code_challenge_methods_supported := Some ["plain"; "S256"];
                     revocation_endpoint := None |})).
  right. right. exists ["plain"; "S256"]. split; [reflexivity|].
  right. now left.
Defined.

End MoreConcrete.
